(** * goweb: tracker, limiter and auth, verified against their specification

    A shallow embedding of the Go packages [auth] (pass.go, routes.go,
    auth.go and the validation of registrations), [tracker] (tracker.go)
    and [limiter] (limiter.go, botcheck.go) of cwbriscoe/goweb.

    Conventions.
    - A Go [string] or [[]byte] is a [string] of the Standard Library: a
      sequence of 8-bit [ascii] values, exactly Go's byte strings.
    - A [rune] is a [Z] in the int32 range; [uint64] and [int64] values are
      [Z] with the conversions that wrap written out.
    - A Go call that returns [(T, error)] returns a [result T]; a run-time
      panic (index or slice out of range) is the third constructor.
    - Sleeping, cookie writes, log lines and reservation cancellation are
      recorded as a trace of [event]s; the text of a log line is its format
      string.
    - Functions of other modules (bcrypt, AES-GCM, base64, JSON, xxhash,
      JWT, the database, the resolver) are not part of the repository: they
      are operations of type classes, and the contracts the proofs rely on
      are stated in the module [Laws].  Random numbers, the clock and the
      delays of token-bucket reservations are arguments. *)

From Stdlib Require Import ZArith List String Ascii Bool Lia.
From stdpp Require Import gmap strings.
Import ListNotations.

Local Open Scope string_scope.
Local Open Scope Z_scope.

(** ** Results of Go calls *)

Inductive error : Type :=
| ErrNoRows                      (* pgx.ErrNoRows *)
| ErrTooManyRequests             (* limiter.ErrTooManyRequests *)
| ErrMismatchedHashAndPassword   (* bcrypt.ErrMismatchedHashAndPassword *)
| ErrPasswordTooLong             (* bcrypt.ErrPasswordTooLong *)
| KeySizeError                   (* aes.KeySizeError *)
| ErrOther (msg : string).       (* any other error value *)

Inductive result (A : Type) : Type :=
| Val (a : A)
| Error (e : error)
| Panicked.
Arguments Val {A} a.
Arguments Error {A} e.
Arguments Panicked {A}.

Definition bind {A B} (m : result A) (k : A -> result B) : result B :=
  match m with
  | Val a => k a
  | Error e => Error e
  | Panicked => Panicked
  end.

Notation "'let*' x ':=' m 'in' k" := (bind m (fun x => k))
  (at level 10, x name, m at level 100, k at level 200, only parsing).

(** ** The fragment of Go's [strings] and [unicode/utf8] the code uses *)

Module GoStrings.

Definition rune := Z.

Definition byte_val (c : ascii) : Z := Z.of_N (N_of_ascii c).
Definition byte_of (z : Z) : ascii := ascii_of_N (Z.to_N z).

Definition RuneError : rune := 65533.   (* U+FFFD *)
Definition MaxRune : rune := 1114111.   (* U+10FFFF *)

(** [utf8.first] and [utf8.acceptRanges]: for a leading byte of a
    multi-byte sequence, the size of the sequence and the range accepted for
    its second byte. *)
Definition first (b0 : Z) : option (Z * (Z * Z)) :=
  if (194 <=? b0) && (b0 <=? 223) then Some (2, (128, 191))
  else if b0 =? 224 then Some (3, (160, 191))
  else if (225 <=? b0) && (b0 <=? 236) then Some (3, (128, 191))
  else if b0 =? 237 then Some (3, (128, 159))
  else if (238 <=? b0) && (b0 <=? 239) then Some (3, (128, 191))
  else if b0 =? 240 then Some (4, (144, 191))
  else if (241 <=? b0) && (b0 <=? 243) then Some (4, (128, 191))
  else if b0 =? 244 then Some (4, (128, 143))
  else None.

Definition in_range (b lo hi : Z) : bool := (lo <=? b) && (b <=? hi).
Definition maskx (b : Z) : Z := Z.land b 63.

(** [for _, c := range s]: the runes of a string, an invalid byte decoding
    to [RuneError] of width one ([utf8.DecodeRuneInString]). *)
Fixpoint utf8_decode (s : string) : list rune :=
  match s with
  | EmptyString => []
  | String c0 t =>
    let b0 := byte_val c0 in
    if b0 <? 128 then b0 :: utf8_decode t
    else
      match first b0 with
      | None => RuneError :: utf8_decode t
      | Some (sz, (lo, hi)) =>
        match t with
        | EmptyString => RuneError :: utf8_decode t
        | String c1 t1 =>
          let b1 := byte_val c1 in
          if negb (in_range b1 lo hi) then RuneError :: utf8_decode t
          else if sz =? 2 then
            Z.lor (Z.shiftl (Z.land b0 31) 6) (maskx b1) :: utf8_decode t1
          else
            match t1 with
            | EmptyString => RuneError :: utf8_decode t
            | String c2 t2 =>
              let b2 := byte_val c2 in
              if negb (in_range b2 128 191) then RuneError :: utf8_decode t
              else if sz =? 3 then
                Z.lor (Z.shiftl (Z.land b0 15) 12)
                  (Z.lor (Z.shiftl (maskx b1) 6) (maskx b2)) :: utf8_decode t2
              else
                match t2 with
                | EmptyString => RuneError :: utf8_decode t
                | String c3 t3 =>
                  let b3 := byte_val c3 in
                  if negb (in_range b3 128 191) then RuneError :: utf8_decode t
                  else
                    Z.lor (Z.shiftl (Z.land b0 7) 18)
                      (Z.lor (Z.shiftl (maskx b1) 12)
                         (Z.lor (Z.shiftl (maskx b2) 6) (maskx b3)))
                      :: utf8_decode t3
                end
            end
        end
      end
  end.

Definition str1 (z : Z) : string := String (byte_of z) EmptyString.

Definition encode3 (r : rune) : string :=
  str1 (Z.lor 224 (Z.shiftr r 12))
  ++ str1 (Z.lor 128 (maskx (Z.shiftr r 6)))
  ++ str1 (Z.lor 128 (maskx r)).

(** [utf8.AppendRune], for a rune that is not negative. *)
Definition utf8_encode (r : rune) : string :=
  if r <=? 127 then str1 r
  else if r <=? 2047 then
    str1 (Z.lor 192 (Z.shiftr r 6)) ++ str1 (Z.lor 128 (maskx r))
  else if (MaxRune <? r) || ((55296 <=? r) && (r <=? 57343)) then
    encode3 RuneError
  else if r <=? 65535 then encode3 r
  else
    str1 (Z.lor 240 (Z.shiftr r 18))
    ++ str1 (Z.lor 128 (maskx (Z.shiftr r 12)))
    ++ str1 (Z.lor 128 (maskx (Z.shiftr r 6)))
    ++ str1 (Z.lor 128 (maskx r)).

(** [strings.Map]: every rune of [s] is replaced by its image, a negative
    image dropping the rune. *)
Definition Map (mapping : rune -> rune) (s : string) : string :=
  fold_right
    (fun c acc =>
       let r := mapping c in
       if r <? 0 then acc else utf8_encode r ++ acc)
    EmptyString (utf8_decode s).

(** [strings.Split(s, sep)] for a separator of one byte. *)
Fixpoint Split (s : string) (sep : ascii) : list string :=
  match s with
  | EmptyString => [EmptyString]
  | String c t =>
    if Ascii.eqb c sep then EmptyString :: Split t sep
    else
      match Split t sep with
      | p :: ps => String c p :: ps
      | [] => [String c EmptyString]
      end
  end.

(** [strings.Join(elems, sep)]. *)
Fixpoint Join (elems : list string) (sep : string) : string :=
  match elems with
  | [] => EmptyString
  | [p] => p
  | p :: ps => p ++ sep ++ Join ps sep
  end.

(** [strings.Contains(s, substr)]. *)
Fixpoint HasPrefix (s prefix : string) : bool :=
  match prefix, s with
  | EmptyString, _ => true
  | String _ _, EmptyString => false
  | String p ps, String c cs => Ascii.eqb c p && HasPrefix cs ps
  end.

Fixpoint Contains (s substr : string) : bool :=
  HasPrefix s substr
  || match s with
     | EmptyString => false
     | String _ t => Contains t substr
     end.

(** [strings.HasSuffix(s, suffix)]. *)
Fixpoint HasSuffix (s suffix : string) : bool :=
  String.eqb s suffix
  || match s with
     | EmptyString => false
     | String _ t => HasSuffix t suffix
     end.

(** [s[n:]] on a slice: a panic when [n] exceeds the length. *)
Definition slice_from {A} (n : nat) (l : list A) : result (list A) :=
  if (n <=? length l)%nat then Val (drop n l) else Panicked.

(** [l[i] = x] on a slice: a panic when [i] is out of range. *)
Definition set_index {A} (i : nat) (x : A) (l : list A) : result (list A) :=
  if (i <? length l)%nat then Val (<[i:=x]> l) else Panicked.

(** [l[i]] on a slice. *)
Definition index {A} (i : nat) (l : list A) : result A :=
  match l !! i with
  | Some x => Val x
  | None => Panicked
  end.

End GoStrings.

(** ** Observable effects *)

Inductive event : Type :=
| EvSleep (ns : Z)                         (* time.Sleep *)
| EvLog (level msg : string)               (* a zerolog line *)
| EvSetCookie (name value : string) (httpOnly : bool)   (* http.SetCookie *)
| EvWriteHeader (status : Z)               (* w.WriteHeader *)
| EvSetHeader (name value : string)        (* req.Header.Set *)
| EvCancel                                 (* reservation.Cancel *)
| EvGo (task : string).                    (* a goroutine is started *)

(** A computation that leaves a trace and ends in a [result]. *)
Definition prog (A : Type) : Type := (list event * result A)%type.

Definition ret {A} (a : A) : prog A := ([], Val a).
Definition lift {A} (r : result A) : prog A := ([], r).
Definition emit (e : event) : prog unit := ([e], Val tt).

Definition pbind {A B} (m : prog A) (k : A -> prog B) : prog B :=
  match m with
  | (t, Val a) => let (t', r) := k a in ((t ++ t')%list, r)
  | (t, Error e) => (t, Error e)
  | (t, Panicked) => (t, Panicked)
  end.

Notation "'let!' x ':=' m 'in' k" := (pbind m (fun x => k))
  (at level 10, x name, m at level 100, k at level 200, only parsing).

Definition slept (t : list event) : list Z :=
  omap (fun e => match e with EvSleep d => Some d | _ => None end) t.

(** ** Operations of other modules *)

(** golang.org/x/crypto/bcrypt.  [GenerateFromPassword password cost salt]
    takes the salt it draws as an argument; [CompareHashAndPassword] returns
    [None] for Go's [nil]. *)
Class Bcrypt : Type := {
  GenerateFromPassword : string -> Z -> string -> result string;
  CompareHashAndPassword : string -> string -> option error;
}.

(** crypto/cipher, AES-GCM.  [Seal key nonce plaintext] is the sealed text
    without the [dst] prefix. *)
Class Cipher : Type := {
  Seal : string -> string -> string -> string;
  Open : string -> string -> string -> result string;
}.

(** encoding/base64.URLEncoding. *)
Class Base64 : Type := {
  EncodeToString : string -> string;
  DecodeString : string -> result string;
}.

(** goutil/str: the character classes and the ASCII filter. *)
Class StrLib : Type := {
  ToASCII : string -> string;
  IsLower : Z -> bool;
  IsUpper : Z -> bool;
  IsDigit : Z -> bool;
  IsSpecial : Z -> bool;
  IsSpace : Z -> bool;
}.

(** ** auth/pass.go: the structural transform of a bcrypt hash *)

Module Pass.
Import GoStrings.

Definition hashVersion : string := "1".
Definition hashCost : Z := 4.

Definition rotLower (r : rune) : rune :=
  if r >? 109 (* 'm' *) then r - 13 else r + 13.

Definition rotUpper (r : rune) : rune :=
  if r >? 77 (* 'M' *) then r - 13 else r + 13.

Definition rotDigit (r : rune) : rune :=
  if r >=? 53 (* '5' *) then r - 5 else r + 5.

Definition rot13 (r : rune) : rune :=
  if (r >=? 97) && (r <=? 122) (* 'a'..'z' *) then rotLower r
  else if (r >=? 65) && (r <=? 90) (* 'A'..'Z' *) then rotUpper r
  else if (r >=? 48) && (r <=? 57) (* '0'..'9' *) then rotDigit r
  else r.

Definition alter (hash : string) : result string :=
  let pieces := Split hash "$" in
  let* pieces := slice_from 1 pieces in
  let* pieces := set_index 1 "12"%string pieces in
  let* p2 := index 2 pieces in
  let* pieces := set_index 2 (Map rot13 p2) pieces in
  Val ("$" ++ hashVersion ++ "$" ++ Join pieces "$")%string.

Definition unalter (hash : string) : result string :=
  let pieces := Split hash "$" in
  let* pieces := slice_from 2 pieces in
  let* pieces := set_index 1 "04"%string pieces in
  let* p2 := index 2 pieces in
  let* pieces := set_index 2 (Map rot13 p2) pieces in
  Val ("$" ++ Join pieces "$")%string.

(** The alphabet of bcrypt's salt and digest, [./A-Za-z0-9], and the shape
    of the hash strings [bcrypt.GenerateFromPassword] returns at cost 4:
    ["$2a$04$"] followed by 22 characters of salt and 31 of digest. *)
Definition bcrypt_char (c : ascii) : bool :=
  let b := byte_val c in
  (b =? 46) || (b =? 47)
  || ((48 <=? b) && (b <=? 57))
  || ((65 <=? b) && (b <=? 90))
  || ((97 <=? b) && (b <=? 122)).

Fixpoint all_chars (p : ascii -> bool) (s : string) : bool :=
  match s with
  | EmptyString => true
  | String c t => p c && all_chars p t
  end.

Definition bcrypt_body (s : string) : bool :=
  (String.length s =? 53)%nat && all_chars bcrypt_char s.

Definition bcrypt_prefix : string := "$2a$04$".

(** *** The store of secrets ([Auth], auth.go) *)

Record Auth : Type := {
  secret : string;   (* signs the session tokens *)
  key : string;      (* encrypts hashed passwords *)
  pepper : string;   (* appended to passwords before hashing *)
}.

Fixpoint str_take (n : nat) (s : string) : string :=
  match n, s with
  | S n', String c t => String c (str_take n' t)
  | _, _ => EmptyString
  end.

Fixpoint str_drop (n : nat) (s : string) : string :=
  match n, s with
  | S n', String _ t => str_drop n' t
  | _, _ => s
  end.

(** [aes.NewCipher]: the key has 16, 24 or 32 bytes. *)
Definition NewCipher (k : string) : result unit :=
  let n := String.length k in
  if (n =? 16)%nat || (n =? 24)%nat || (n =? 32)%nat then Val tt
  else Error KeySizeError.

(** [aesGCM.NonceSize()]. *)
Definition NonceSize : nat := 12.

Section WithLibraries.
Context {bc : Bcrypt} {ci : Cipher} {b64 : Base64}.

(** [rnd] is what [io.ReadFull(rand.Reader, nonce)] leaves in [nonce], or
    its error. *)
Definition encrypt (secret key : string) (rnd : result string)
  : result string :=
  let* _ := NewCipher key in
  let* nonce := rnd in
  let ciphertext := (nonce ++ Seal key nonce secret)%string in
  Val (EncodeToString ciphertext).

Definition decrypt (secret key : string) : result string :=
  let* unencoded := DecodeString secret in
  let* _ := NewCipher key in
  let nonceSize := NonceSize in
  let* _ := (if (nonceSize <=? String.length unencoded)%nat
             then Val tt else Panicked) in
  let nonce := str_take nonceSize unencoded in
  let ciphertext := str_drop nonceSize unencoded in
  let* plaintext := Open key nonce ciphertext in
  Val plaintext.

(** [jitter] is the value of [mrand.Intn(50)]; durations are in
    nanoseconds. *)
Definition slowDown (jitter : Z) : prog unit :=
  let num := 200 + jitter in
  emit (EvSleep (num * 1000000)).

(** [generate] and [compare] without their debug log lines and their
    measurements of elapsed time. *)
Definition generate (a : Auth) (pass : string)
    (salt : string) (rnd : result string) (jitter : Z) : prog string :=
  let pass := (pass ++ "." ++ pepper a)%string in
  let! hashedPass := lift (GenerateFromPassword pass hashCost salt) in
  let! hashedPass := lift (alter hashedPass) in
  let! encodedPass := lift (encrypt hashedPass (key a) rnd) in
  let! _ := slowDown jitter in
  ret encodedPass.

(** Go's [(false, err)] is [Error err]; [(true, nil)] is [Val true]. *)
Definition compare (a : Auth) (hash pass : string) (jitter : Z)
  : prog bool :=
  let pass := (pass ++ "." ++ pepper a)%string in
  let! decodedPass := lift (decrypt hash (key a)) in
  let! decodedPass := lift (unalter decodedPass) in
  match CompareHashAndPassword decodedPass pass with
  | Some err => lift (Error err)
  | None =>
    let! _ := slowDown jitter in
    ret true
  end.

End WithLibraries.

End Pass.

(** ** auth/validate.go: the syntactic checks on user name and password *)

Module Validate.
Import GoStrings.

Definition minUsernameLen : nat := 4.
Definition maxUsernameLen : nat := 20.
Definition minPasswordLen : nat := 10.
Definition maxPasswordLen : nat := 32.

(** The JSON error bodies the two checks return, by name. *)
Inductive reason : Type :=
| UsernameLength       (* Invalid user name.  Must have a length >= 4 and <= 20. *)
| UsernameFirstChar    (* First character has to be alphabetic: [a-z][A-Z]. *)
| UsernameChars        (* Must only contain characters: [a-z][A-Z][0-9]. *)
| PasswordLength       (* Invalid password.  Must have a length >= 10 and <= 32. *)
| PasswordChars        (* Must only contain characters: [a-z][A-Z][0-9][ !#$...~] *)
| PasswordCategories.  (* Must contain at least one character from each category *)

Section WithStr.
Context {sl : StrLib}.

(** The loop of [checkUsername] over the runes of the name; [None] is Go's
    [nil] reason. *)
Fixpoint checkUsername_loop (firstChar : bool) (rs : list rune)
  : option reason :=
  match rs with
  | [] => None
  | char :: rest =>
    if firstChar && negb (IsLower char) && negb (IsUpper char) then
      Some UsernameFirstChar
    else if negb (IsLower char) && negb (IsUpper char) && negb (IsDigit char)
    then Some UsernameChars
    else checkUsername_loop false rest
  end.

Definition checkUsername (user : string) : option reason :=
  if (String.length user <? minUsernameLen)%nat
     || (maxUsernameLen <? String.length user)%nat then Some UsernameLength
  else if negb (String.eqb user (ToASCII user)) then Some UsernameChars
  else checkUsername_loop true (utf8_decode user).

(** The loop of [checkPassword]: the four flags, or [None] when a rune is
    in no class. *)
Fixpoint checkPassword_loop (lwr upr num spl : bool) (rs : list rune)
  : option (bool * bool * bool * bool) :=
  match rs with
  | [] => Some (lwr, upr, num, spl)
  | char :: rest =>
    if IsLower char then checkPassword_loop true upr num spl rest
    else if IsUpper char then checkPassword_loop lwr true num spl rest
    else if IsDigit char then checkPassword_loop lwr upr true spl rest
    else if IsSpecial char then checkPassword_loop lwr upr num true rest
    else if IsSpace char then checkPassword_loop lwr upr num spl rest
    else None
  end.

Definition checkPassword (pass : string) : option reason :=
  if (String.length pass <? minPasswordLen)%nat
     || (maxPasswordLen <? String.length pass)%nat then Some PasswordLength
  else if negb (String.eqb pass (ToASCII pass)) then Some PasswordChars
  else
    match checkPassword_loop false false false false (utf8_decode pass) with
    | None => Some PasswordChars
    | Some (lwr, upr, num, spl) =>
      if negb lwr || negb upr || negb num || negb spl
      then Some PasswordCategories
      else None
    end.

End WithStr.

End Validate.

(** ** tracker/tracker.go: the visitor-identity cookie *)

Module Tracker.
Import GoStrings.

Record Info : Type := {
  ID : Z;                (* int64 *)
  Name : string;
  Auth : bool;
  Scope : list string;   (* omitted from the JSON when empty *)
}.

(** [payload.Info] is a pointer: [None] is [nil]. *)
Record payload : Type := {
  info : option Info;
  Sig : Z;               (* uint64 *)
}.

(** goccy/go-json on the two types of this package, and xxhash.Sum64. *)
Class Json : Type := {
  MarshalInfo : option Info -> result string;
  MarshalPayload : payload -> result string;
  UnmarshalPayload : string -> result payload;
}.

Class Hash : Type := {
  Sum64 : string -> Z;
}.

Definition hexdigit (d : Z) : ascii :=
  if d <? 10 then byte_of (48 + d) else byte_of (87 + d).

Fixpoint hex_digits (fuel : nat) (n : Z) (acc : string) : string :=
  match fuel with
  | O => acc
  | S fuel' =>
    let acc' := String (hexdigit (n mod 16)) acc in
    if n / 16 =? 0 then acc' else hex_digits fuel' (n / 16) acc'
  end.

(** [strconv.FormatInt(v, 16)] for an int64. *)
Definition FormatInt16 (v : Z) : string :=
  if v <? 0 then String "-" (hex_digits 16 (- v) EmptyString)
  else hex_digits 16 v EmptyString.

(** [s[n:]] on a string. *)
Definition str_from (n : nat) (s : string) : result string :=
  if (n <=? String.length s)%nat then Val (Pass.str_drop n s) else Panicked.

Section WithLibraries.
Context {b64 : Base64} {js : Json} {hs : Hash}.

Definition validateTrackingCookie (p : payload) : result bool :=
  match MarshalInfo (info p) with
  | Val bytes => if negb (Sig p =? Sum64 bytes) then Val false else Val true
  | Error _ => Val false
  | Panicked => Panicked
  end.

(** [cookie] is the value of the request's cookie named [id], if any. *)
Definition getTrackingCookie (cookie : option string)
  : result (option Info) :=
  match cookie with
  | None => Val None
  | Some value =>
    let* val := DecodeString value in
    let* p := UnmarshalPayload val in
    let* ok := validateTrackingCookie p in
    if negb ok then Val None else Val (info p)
  end.

Definition writeTrackingCookie (bytes : string) : prog unit :=
  let val := EncodeToString bytes in
  emit (EvSetCookie "id" val false).

Definition createNewTracker (p : payload) : prog unit :=
  let! bytes := lift (MarshalInfo (info p)) in
  let p := {| info := info p; Sig := Sum64 bytes |} in
  let! bytes := lift (MarshalPayload p) in
  writeTrackingCookie bytes.

(** [idr] and [nr] are the two values of [rand.Int63()]. *)
Definition createAnonTracker (idr nr : Z) : prog unit :=
  let! name := lift (str_from 8 (FormatInt16 nr)) in
  createNewTracker
    {| info := Some {| ID := idr; Name := name; Auth := false; Scope := [] |};
       Sig := 0 |}.

Definition CreateAuthTracker (idr : Z) (name : string)
    (permissions : list string) : prog unit :=
  createNewTracker
    {| info := Some {| ID := idr; Name := name; Auth := true;
                       Scope := permissions |};
       Sig := 0 |}.

Definition GetTrackingInfo (cookie : option string) (idr nr : Z)
  : prog (option Info) :=
  match getTrackingCookie cookie with
  | Val (Some i) => ret (Some i)
  | Panicked => lift Panicked
  | Val None | Error _ =>
    match createAnonTracker idr nr with
    | (t, Panicked) => (t, Panicked)
    | (t, Error _) => (t, Val None)
    | (t, Val _) => (t, Val None)
    end
  end.

(** The cookie value [createNewTracker] writes for an identity. *)
Definition cookie_of (i : Info) : result string :=
  let* bytes := MarshalInfo (Some i) in
  let* bytes := MarshalPayload {| info := Some i; Sig := Sum64 bytes |} in
  Val (EncodeToString bytes).

End WithLibraries.

End Tracker.

(** ** limiter/limiter.go: per-visitor admission control *)

Module Limiter.
Import GoStrings.

(** Conversions and arithmetic of Go's fixed-width integers. *)
Definition wrap_u64 (z : Z) : Z := z mod 2 ^ 64.
Definition to_int64 (z : Z) : Z :=
  let m := z mod 2 ^ 64 in if m <? 2 ^ 63 then m else m - 2 ^ 64.

Inductive visitorType : Type := undefined | user | goodBot | badBot.

(** What [rate.NewLimiter(rate.Every(interval), burst)] was built from; the
    state of the bucket belongs to golang.org/x/time/rate, and the delay of
    each reservation is an argument of [limit]. *)
Record rateLimiter : Type := {
  every : Z;
  burst : Z;
}.

Record visitor : Type := {
  name : string;
  limiter : rateLimiter;
  vtype : visitorType;
  firstSeen : Z;
  lastSeen : Z;
  delayCount : Z;   (* uint64 *)
  currDelays : Z;   (* int64 *)
}.

Record botEntry : Type := {
  bot_name : string;
  bot_host : string;
}.

Record Rate : Type := {
  Interval : Z;     (* time.Duration, nanoseconds *)
  Burst : Z;
  MaxDelayed : Z;   (* uint64 *)
}.

Record LimitSettings : Type := {
  Name : string;
  GlobalRate : Rate;
  GoodBotRate : Rate;
  UserRate : Rate;
}.

Record Limiter : Type := {
  vars : LimitSettings;
  global : option rateLimiter;
  visitors : gmap string visitor;
}.

(** The registries shared by all limiters of the process. *)
Record sharedResources : Type := {
  gbots : gmap string botEntry;
  bbots : gmap string botEntry;
}.

Definition Nanosecond : Z := 1.
Definition Second : Z := 1000000000.
Definition Hour : Z := 3600 * Second.

Definition with_visitors (r : Limiter) (m : gmap string visitor) : Limiter :=
  {| vars := vars r; global := global r; visitors := m |}.

Definition with_lastSeen (v : visitor) (t : Z) : visitor :=
  {| name := name v; limiter := limiter v; vtype := vtype v;
     firstSeen := firstSeen v; lastSeen := t;
     delayCount := delayCount v; currDelays := currDelays v |}.

Definition with_delayCount (v : visitor) (n : Z) : visitor :=
  {| name := name v; limiter := limiter v; vtype := vtype v;
     firstSeen := firstSeen v; lastSeen := lastSeen v;
     delayCount := n; currDelays := currDelays v |}.

Definition with_currDelays (v : visitor) (n : Z) : visitor :=
  {| name := name v; limiter := limiter v; vtype := vtype v;
     firstSeen := firstSeen v; lastSeen := lastSeen v;
     delayCount := delayCount v; currDelays := n |}.

(** [NewLimiter] up to the registration in the shared list. *)
Definition NewLimiter (settings : LimitSettings) : result Limiter :=
  if Burst (UserRate settings) <=? 0 then
    Error (ErrOther "user rate must have a burst greater than zero")
  else
    let g := GlobalRate settings in
    let g := if (Burst g >? 0) && (Interval g =? 0)
             then {| Interval := Nanosecond; Burst := Burst g;
                     MaxDelayed := MaxDelayed g |}
             else g in
    let b := GoodBotRate settings in
    let b := if (Burst b >? 0) && (Interval b =? 0)
             then {| Interval := Nanosecond; Burst := Burst b;
                     MaxDelayed := MaxDelayed b |}
             else b in
    let b := if (Burst b =? 0) && (Interval b =? 0)
             then {| Interval := Interval (UserRate settings);
                     Burst := Burst (UserRate settings);
                     MaxDelayed := MaxDelayed b |}
             else b in
    let settings := {| Name := Name settings; GlobalRate := g;
                       GoodBotRate := b; UserRate := UserRate settings |} in
    Val {| vars := settings;
           global := if Burst g >? 0
                     then Some {| every := Interval g; burst := Burst g |}
                     else None;
           visitors := ∅ |}.

Definition StatusTooManyRequests : Z := 429.
Definition StatusInternalServerError : Z := 500.

Definition WriteErrorResponse (err : error) : list event :=
  match err with
  | ErrTooManyRequests => [EvWriteHeader StatusTooManyRequests]
  | _ => [EvWriteHeader StatusInternalServerError]
  end.

(** [now] is the value of [time.Now()]. *)
Definition getVisitorEntry (r : Limiter) (ip : string) (now : Z)
  : option visitor * Limiter :=
  match visitors r !! ip with
  | None => (None, r)
  | Some v =>
    let v := with_lastSeen v now in
    (Some v, with_visitors r (<[ip:=v]> (visitors r)))
  end.

Definition createVisitor (r : Limiter) (ip name : string)
    (typ : visitorType) (now : Z) : visitor * Limiter :=
  let '(interval, burst) :=
    match typ with
    | user => (Interval (UserRate (vars r)), Burst (UserRate (vars r)))
    | goodBot =>
      (Interval (GoodBotRate (vars r)), Burst (GoodBotRate (vars r)))
    | _ => (1 * Hour, 1)
    end in
  let limiter := {| every := interval; burst := burst |} in
  let v := {| name := name; limiter := limiter; vtype := typ;
              firstSeen := now; lastSeen := now;
              delayCount := 0; currDelays := 0 |} in
  (v, with_visitors r (<[ip:=v]> (visitors r))).

Definition getExistingLimiter (r : Limiter) (ip : string) (now : Z)
  : option rateLimiter * string * Limiter :=
  match getVisitorEntry r ip now with
  | (Some v, r) => (Some (limiter v), name v, r)
  | (None, r) => (None, EmptyString, r)
  end.

Definition isGoodBot (sh : sharedResources) (ip : string) : bool * string :=
  match gbots sh !! ip with
  | Some entry => (true, bot_name entry)
  | None => (false, EmptyString)
  end.

Definition isBadBot (sh : sharedResources) (ip : string) : bool * string :=
  match bbots sh !! ip with
  | Some entry => (true, bot_name entry)
  | None => (false, EmptyString)
  end.

Definition logNewVisitor : event := EvLog "info" "new visitor".

Definition upgradeIfGoodBot (r : Limiter) (sh : sharedResources)
    (ip : string) (now : Z)
  : list event * option rateLimiter * string * Limiter :=
  let '(isGood, name) := isGoodBot sh ip in
  if isGood then
    let '(v, r) := createVisitor r ip name goodBot now in
    ([logNewVisitor], Some (limiter v), name, r)
  else ([], None, EmptyString, r).

Definition downgradeIfBadBot (r : Limiter) (sh : sharedResources)
    (ip : string) (now : Z)
  : list event * option rateLimiter * string * Limiter :=
  let '(isBad, name) := isBadBot sh ip in
  if isBad then
    let '(v, r) := createVisitor r ip name badBot now in
    ([logNewVisitor], Some (limiter v), name, r)
  else ([], None, EmptyString, r).

(** [botLookupBackground] starts [routine] as a goroutine. *)
Definition getNewLimiter (r : Limiter) (sh : sharedResources)
    (ip : string) (now : Z) : list event * rateLimiter * string * Limiter :=
  match upgradeIfGoodBot r sh ip now with
  | (t, Some l, name, r) => (t, l, name, r)
  | (t, None, _, r) =>
    match downgradeIfBadBot r sh ip now with
    | (t', Some l, name, r) => ((t ++ t')%list, l, name, r)
    | (t', None, _, r) =>
      let '(v, r) := createVisitor r ip EmptyString user now in
      ((t ++ t' ++ [logNewVisitor; EvGo "routine"])%list,
       limiter v, EmptyString, r)
    end
  end.

Definition getLimiter (r : Limiter) (sh : sharedResources) (ip : string)
    (info : option Tracker.Info) (now : Z)
  : list event * rateLimiter * Limiter :=
  let '(t, l, name, r) :=
    match getExistingLimiter r ip now with
    | (Some l, name, r) => ([], l, name, r)
    | (None, _, r) => getNewLimiter r sh ip now
    end in
  let header :=
    if negb (String.eqb name EmptyString) then name
    else
      match info with
      | Some i =>
        if Tracker.Auth i then Tracker.Name i
        else (ip ++ "|" ++ Tracker.Name i)%string
      | None => ip
      end in
  ((t ++ [EvSetHeader "Visitor-Name" header])%list, l, r).

Definition globalDelay (delay : Z) : list event :=
  [EvLog "info" "globally limited"; EvSleep delay].

Definition maxDelayed_of (r : Limiter) (v : visitor) : Z :=
  match vtype v with
  | user => MaxDelayed (UserRate (vars r))
  | goodBot => MaxDelayed (GoodBotRate (vars r))
  | _ => 1
  end.

(** [visitorDelay]: the two atomic additions and the two loads are taken in
    sequence, so [curr] counts this request. *)
Definition visitorDelay (r : Limiter) (ip : string) (delay now : Z)
  : list event * option error * Limiter :=
  match getVisitorEntry r ip now with
  | (None, r) => ([EvLog "error" "getVisitorEntry() returned nil"], None, r)
  | (Some v, r) =>
    let v := with_delayCount v (wrap_u64 (delayCount v + 1)) in
    let v := with_currDelays v (to_int64 (currDelays v + 1)) in
    let cnt := delayCount v in
    let curr := currDelays v in
    let maxDelayed := maxDelayed_of r v in
    let over := (maxDelayed >? 0) && (curr >? to_int64 maxDelayed) in
    let err := if over then Some ErrTooManyRequests else None in
    let doSleep := negb over in
    let t1 := match err with
              | Some _ => [EvLog "warn" "exceeded max limit"]
              | None => [EvLog "info" "limited"]
              end in
    let t2 := if doSleep then [EvSleep delay] else [] in
    let v := if curr >? 0 then with_currDelays v (to_int64 (curr - 1))
             else v in
    ((t1 ++ t2)%list, err, with_visitors r (<[ip:=v]> (visitors r)))
  end.

(** [limit]: [delay] is the delay of the reservation taken from the
    visitor's bucket, [gdelay] that of the reservation taken from the
    global bucket. *)
Definition limit (r : Limiter) (sh : sharedResources) (ip : string)
    (info : option Tracker.Info) (now delay gdelay : Z)
  : list event * option error * Limiter :=
  if String.eqb ip EmptyString then
    ([], Some (ErrOther "limiter ip address was empty"), r)
  else
    let '(t0, _, r) := getLimiter r sh ip info now in
    let '(t1, err, r) :=
      if delay >? 0 then visitorDelay r ip delay now else ([], None, r) in
    match err with
    | Some e => ((t0 ++ t1 ++ [EvCancel])%list, Some e, r)
    | None =>
      let t2 := match global r with
                | Some _ => if gdelay >? 0 then globalDelay gdelay else []
                | None => []
                end in
      ((t0 ++ t1 ++ t2)%list, None, r)
    end.

End Limiter.

(** ** limiter/botcheck.go: verification of search-engine crawlers *)

Module Botcheck.
Import GoStrings Limiter.

(** The resolver: the answer of the [k]-th call of [net.LookupAddr] and of
    [net.LookupIP] (addresses already rendered by [String()]). *)
Class Resolver : Type := {
  LookupAddr : nat -> string -> result (list string);
  LookupIP : nat -> string -> result (list string);
}.

(** [strings.ToLower], which follows the Unicode case tables. *)
Class Unicode : Type := {
  ToLower : string -> string;
}.

Record userAgent : Type := {
  ua_name : string;
  ua_text : string;
}.

Definition validDomains : list string := [
  ".crawl.baidu.com.";
  ".crawl.baidu.jp.";
  ".crawl.yahoo.net.";
  ".google.com.";
  ".googlebot.com.";
  ".neevabot.com.";
  ".qwant.com.";
  ".search.msn.com.";
  ".yandex.com.";
  ".yandex.net.";
  ".yandex.ru.";
  ".bot.semrush.com."
]%string.

Definition uaStrings : list userAgent := [
  {| ua_name := "Baidu"; ua_text := "baiduspider" |};
  {| ua_name := "Bing"; ua_text := "bingbot" |};
  {| ua_name := "Google"; ua_text := "googlebot" |};
  {| ua_name := "MSN"; ua_text := "msnbot" |};
  {| ua_name := "Neeva"; ua_text := "neevabot" |};
  {| ua_name := "Qwantify"; ua_text := "qwantify" |};
  {| ua_name := "Yahoo"; ua_text := "yahoo!" |};
  {| ua_name := "Yandex"; ua_text := "yandexbot" |};
  {| ua_name := "Semrush"; ua_text := "semrushbot" |}
].

(** The result of a loop run with [fuel] iterations: [None] when the loop
    is still running after them. *)
Definition looping (A : Type) : Type := (list event * option (result A))%type.

Section WithResolver.
Context {rs : Resolver} {uc : Unicode}.

(** [Some name] is Go's [(name, true)], [None] is [("", false)]. *)
Definition checkUserAgent (ua : string) : list event * option string :=
  let ual := ToLower ua in
  match List.find (fun s => Contains ual (ua_text s)) uaStrings with
  | Some s => ([EvLog "info" "ua string bot match"], Some (ua_name s))
  | None => ([], None)
  end.

Definition getHostName (k : nat) (ip : string) : prog string :=
  match LookupAddr k ip with
  | Error err => ([EvLog "error" EmptyString], Error err)
  | Panicked => lift Panicked
  | Val host => lift (index 0 host)
  end.

Fixpoint getHostNameLoop_from (fuel : nat) (ip : string) (retries : Z)
    (k : nat) : looping string :=
  match fuel with
  | O => ([], None)
  | S fuel' =>
    match getHostName k ip with
    | (t, Val host) => (t, Some (Val host))
    | (t, Panicked) => (t, Some Panicked)
    | (t, Error err) =>
      let retries := retries + 1 in
      if retries >? 3 then
        ((t ++ [EvLog "info" "too many errors, aborting validation"])%list,
         Some (Error err))
      else
        let '(t', res) := getHostNameLoop_from fuel' ip retries (S k) in
        ((t ++ [EvSleep (2 * Second)] ++ t')%list, res)
    end
  end.

Definition getHostNameLoop (fuel : nat) (ip : string) : looping string :=
  getHostNameLoop_from fuel ip 0 0.

Definition checkHostName (host : string) : list event * bool :=
  if existsb (fun s => Contains host s) validDomains
  then ([EvLog "info" "hostname bot match"], true)
  else ([], false).

Definition validateIPMatch (k : nat) (ip host : string)
  : prog (bool * string) :=
  match LookupIP k host with
  | Error err =>
    ([EvLog "info" "returned error when trying to LookupIP(host)"],
     Error err)
  | Panicked => lift Panicked
  | Val ipCheck =>
    let! ip2 := lift (index 0 ipCheck) in
    if String.eqb ip2 ip then
      ([EvLog "info" "ip forward lookup matches"], Val (true, ip2))
    else ret (false, ip2)
  end.

(** [retries] is declared, compared and never assigned in the source. *)
Fixpoint validateIPMatchLoop_from (fuel : nat) (ip host : string)
    (retries : Z) (k : nat) : looping (bool * string) :=
  match fuel with
  | O => ([], None)
  | S fuel' =>
    match validateIPMatch k ip host with
    | (t, Val (valid, ip2)) => (t, Some (Val (valid, ip2)))
    | (t, Panicked) => (t, Some Panicked)
    | (t, Error err) =>
      if retries >? 3 then
        ((t ++ [EvLog "info" "too many errors, aborting validation"])%list,
         Some (Error err))
      else
        let '(t', res) :=
          validateIPMatchLoop_from fuel' ip host retries (S k) in
        ((t ++ [EvSleep (2 * Second)] ++ t')%list, res)
    end
  end.

Definition validateIPMatchLoop (fuel : nat) (ip host : string)
  : looping (bool * string) :=
  validateIPMatchLoop_from fuel ip host 0 0.

Definition upgradeLimit (r : Limiter) (sh : sharedResources)
    (ip host name : string) (now : Z)
  : list event * Limiter * sharedResources :=
  let sh := {| gbots := <[ip := {| bot_name := name; bot_host := host |}]>
                          (gbots sh);
               bbots := bbots sh |} in
  let '(_, r) := createVisitor r ip name goodBot now in
  ([EvLog "info" "verfied Bot"], r, sh).

(** [routine]: the flag of the result tells whether [upgradeLimit] ran.
    Both loops get the same [fuel]. *)
Definition routine (fuel : nat) (r : Limiter) (sh : sharedResources)
    (ip ua : string) (now : Z)
  : looping (bool * Limiter * sharedResources) :=
  match checkUserAgent ua with
  | (t0, None) => (t0, Some (Val (false, r, sh)))
  | (t0, Some name) =>
    match getHostNameLoop fuel ip with
    | (t1, None) => ((t0 ++ t1)%list, None)
    | (t1, Some Panicked) => ((t0 ++ t1)%list, Some Panicked)
    | (t1, Some (Error _)) => ((t0 ++ t1)%list, Some (Val (false, r, sh)))
    | (t1, Some (Val host)) =>
      match checkHostName host with
      | (t2, false) =>
        ((t0 ++ t1 ++ t2
          ++ [EvLog "warn" "ua bot match with unmatched host, possible bad bot"])%list,
         Some (Val (false, r, sh)))
      | (t2, true) =>
        match validateIPMatchLoop fuel ip host with
        | (t3, None) => ((t0 ++ t1 ++ t2 ++ t3)%list, None)
        | (t3, Some Panicked) => ((t0 ++ t1 ++ t2 ++ t3)%list, Some Panicked)
        | (t3, Some (Error _)) =>
          ((t0 ++ t1 ++ t2 ++ t3)%list, Some (Val (false, r, sh)))
        | (t3, Some (Val (false, ip2))) =>
          ((t0 ++ t1 ++ t2 ++ t3
            ++ [EvLog "warn" "mismatches, possible bad bot"])%list,
           Some (Val (false, r, sh)))
        | (t3, Some (Val (true, _))) =>
          let '(t4, r, sh) := upgradeLimit r sh ip host name now in
          ((t0 ++ t1 ++ t2 ++ t3 ++ t4)%list, Some (Val (true, r, sh)))
        end
      end
    end
  end.

End WithResolver.

End Botcheck.

(** ** auth/auth.go and auth/routes.go: tokens and the sign-in handler *)

Module Routes.
Import GoStrings.

Record claims : Type := {
  Issuer : string;
  Subject : string;
  ID : string;
  ExpiresAt : Z;
  Permissions : list string;
}.

(** golang-jwt: signing a token and parsing a valid one. *)
Class Jwt : Type := {
  SignedString : claims -> string -> result string;
  ParseWithClaims : string -> string -> result claims;
}.

(** The query of [getSecurityInfo]: id, hash and roles of a user name. *)
Class Database : Type := {
  QueryRow_auth : string -> result (Z * string * list string);
}.

Record Config : Type := {
  cfg_Issuer : string;
  AccessExpire : Z;
  RefreshExpire : Z;
}.

Record signin : Type := {
  User : string;
  Pass : string;
  id : Z;
  permissions : list string;
  session : Z;
  expires : Z;
}.

(** A request: its cookies by name, and what decoding its JSON body into
    [&user] gives ([Val None] when the body is [null] and leaves [user]
    nil). *)
Record request : Type := {
  cookie : string -> option string;
  body : result (option (string * string));
}.

Definition StatusOK : Z := 200.
Definition StatusBadRequest : Z := 400.
Definition StatusUnauthorized : Z := 401.
Definition StatusInternalServerError : Z := 500.

(** The status of the response: the first [WriteHeader] counts, and a
    handler that writes none answers 200. *)
Fixpoint status (t : list event) : Z :=
  match t with
  | [] => StatusOK
  | EvWriteHeader s :: _ => s
  | _ :: t' => status t'
  end.

(** The lines the handler logs at level [warn]. *)
Definition warnings (t : list event) : list string :=
  omap (fun e => match e with
                 | EvLog level msg =>
                   if String.eqb level "warn" then Some msg else None
                 | _ => None
                 end) t.

Fixpoint decimal_digits (fuel : nat) (n : Z) (acc : string) : string :=
  match fuel with
  | O => acc
  | S fuel' =>
    let acc' := String (byte_of (48 + n mod 10)) acc in
    if n / 10 =? 0 then acc' else decimal_digits fuel' (n / 10) acc'
  end.

(** [strconv.Itoa]. *)
Definition Itoa (v : Z) : string :=
  if v <? 0 then String "-" (decimal_digits 20 (- v) EmptyString)
  else decimal_digits 20 v EmptyString.

Section WithLibraries.
Context {bc : Bcrypt} {ci : Cipher} {b64 : Base64} {sl : StrLib}
        {jw : Jwt} {db : Database} {js : Tracker.Json} {hs : Tracker.Hash}.

Definition getClaims (a : Pass.Auth) (r : request) (name : string)
  : option claims :=
  match cookie r name with
  | None => None
  | Some tokenStr =>
    match ParseWithClaims tokenStr (Pass.secret a) with
    | Val c => Some c
    | _ => None
    end
  end.

Definition setAuthCookie (a : Pass.Auth) (name : string) (c : claims)
    (httpOnly : bool) : prog unit :=
  match SignedString c (Pass.secret a) with
  | Val tokenString => emit (EvSetCookie name tokenString httpOnly)
  | Error err => ([EvWriteHeader StatusInternalServerError], Error err)
  | Panicked => lift Panicked
  end.

Definition deleteCookie (name : string) : event :=
  EvSetCookie name EmptyString true.

(** [now] is [time.Now()], [idr] the [rand.Int63()] of the tracker. *)
Definition createTokens (a : Pass.Auth) (cfg : Config) (i : signin)
    (now idr : Z) : prog unit :=
  let expirationTime := now + AccessExpire cfg in
  let subject := (Itoa (id i) ++ "|" ++ User i)%string in
  let c := {| Permissions := permissions i; Issuer := cfg_Issuer cfg;
              Subject := subject; ID := Itoa (session i);
              ExpiresAt := expirationTime |} in
  let! _ := setAuthCookie a "access" c true in
  let c := {| Permissions := permissions i; Issuer := cfg_Issuer cfg;
              Subject := subject; ID := Itoa (session i);
              ExpiresAt := expires i |} in
  let! _ := setAuthCookie a "refresh" c true in
  let c := {| Permissions := permissions i; Issuer := cfg_Issuer cfg;
              Subject := User i; ID := EmptyString;
              ExpiresAt := expires i |} in
  let! _ := setAuthCookie a "session" c false in
  Tracker.CreateAuthTracker idr (User i) (permissions i).

Definition signOutInternal (a : Pass.Auth) (r : request)
  : list event * string :=
  let deletes := [deleteCookie "id"; deleteCookie "session";
                  deleteCookie "access"; deleteCookie "refresh"] in
  match getClaims a r "refresh" with
  | Some c => (EvGo "deleteSession" :: deletes, Subject c)
  | None => (deletes, "UNKNOWN"%string)
  end.

Definition getSecurityInfo (user : string)
  : result (Z * string * list string) := QueryRow_auth user.

Definition is_some {A} (o : option A) : bool :=
  match o with Some _ => true | None => false end.

(** The handler of [signIn]; [jitter] feeds [slowDown], [sess] is
    [rand.Int31()]. *)
Definition signIn (a : Pass.Auth) (cfg : Config) (r : request)
    (jitter now sess idr : Z) : prog unit :=
  let '(t0, name) := signOutInternal a r in
  let t0 := (t0 ++ if negb (String.eqb name "UNKNOWN")
                   then [EvLog "info" (name ++ " successful signout")]
                   else [])%list in
  pbind (t0, Val tt) (fun _ =>
  match body r with
  | Error _ =>
    ([EvLog "error" "signin: error decoding request body";
      EvWriteHeader StatusBadRequest], Val tt)
  | Panicked => lift Panicked
  | Val None => lift Panicked
  | Val (Some (user, pass)) =>
    if is_some (Validate.checkUsername user)
       || is_some (Validate.checkPassword pass) then
      let user := if (Validate.maxUsernameLen <? String.length user)%nat
                  then Pass.str_take Validate.maxUsernameLen user
                  else user in
      let userName := ToASCII user in
      ([EvLog "warn"
          (userName ++ " tried to signin with a malformed username or password");
        EvWriteHeader StatusUnauthorized], Val tt)
    else
      match getSecurityInfo user with
      | Error ErrNoRows =>
        ([EvLog "warn" (user ++ " tried to signin with an invalid username");
          EvWriteHeader StatusUnauthorized], Val tt)
      | Error _ =>
        ([EvLog "error" "signin: error getting hash from db";
          EvWriteHeader StatusInternalServerError], Val tt)
      | Panicked => lift Panicked
      | Val (uid, hash, roles) =>
        match Pass.compare a hash pass jitter with
        | (t, Panicked) => (t, Panicked)
        | (t, Error _) =>
          ((t ++ [EvLog "error" "signin: comparing password";
                  EvWriteHeader StatusInternalServerError])%list, Val tt)
        | (t, Val false) =>
          ((t ++ [EvLog "warn"
                    (user ++ " tried to signin with an invalid password");
                  EvWriteHeader StatusUnauthorized])%list, Val tt)
        | (t, Val true) =>
          let i := {| User := user; Pass := pass; id := uid;
                      permissions := roles; session := sess;
                      expires := now + RefreshExpire cfg |} in
          match createTokens a cfg i now idr with
          | (t', Panicked) => ((t ++ t')%list, Panicked)
          | (t', Error _) =>
            ((t ++ t' ++ [EvWriteHeader StatusInternalServerError])%list,
             Val tt)
          | (t', Val _) =>
            ((t ++ t' ++ [EvLog "info" "successful signin";
                          EvGo "createSession"])%list, Val tt)
          end
        end
      end
  end).

(** [handlePanic]: a panic of the wrapped handler is logged and answered
    with status 500. *)
Definition handlePanic (f : prog unit) : list event :=
  match f with
  | (t, Panicked) =>
    (t ++ [EvLog "error" "panic(recovered)";
           EvWriteHeader StatusInternalServerError])%list
  | (t, _) => t
  end.

(** [authLimiter]: [lim] is the run of [a.limiter.LimitRequest]. *)
Definition authLimiter (lim : prog unit) (f : prog unit) : prog unit :=
  match lim with
  | (t, Error err) => ((t ++ Limiter.WriteErrorResponse err)%list, Val tt)
  | (t, Panicked) => (t, Panicked)
  | (t, Val _) => let '(t', res) := f in ((t ++ t')%list, res)
  end.

Definition signInHandler (a : Pass.Auth) (cfg : Config) (r : request)
    (lim : prog unit) (jitter now sess idr : Z) : list event :=
  handlePanic (authLimiter lim (signIn a cfg r jitter now sess idr)).

End WithLibraries.

End Routes.

(** ** Specification-side definitions *)

Module PassSpec.
Import GoStrings Pass.

(** Rotation by 13 within each case and by 5 within the digits, in the
    words of the specification. *)
Definition rot_spec (r : rune) : rune :=
  if (97 <=? r) && (r <=? 122) then 97 + (r - 97 + 13) mod 26
  else if (65 <=? r) && (r <=? 90) then 65 + (r - 65 + 13) mod 26
  else if (48 <=? r) && (r <=? 57) then 48 + (r - 48 + 5) mod 10
  else r.

(** A function of runes applied to every byte of a string. *)
Fixpoint map_bytes (f : rune -> rune) (s : string) : string :=
  match s with
  | EmptyString => EmptyString
  | String c t => String (byte_of (f (byte_val c))) (map_bytes f t)
  end.

Definition is_ascii (s : string) : bool :=
  all_chars (fun c => byte_val c <? 128) s.

Definition no_dollar (s : string) : bool :=
  all_chars (fun c => negb (Ascii.eqb c "$")) s.


End PassSpec.

(** ** The contracts of the other modules *)

Module Laws.
Import GoStrings Pass PassSpec.

(** bcrypt at cost [hashCost]: a hash is [$2a$04$] followed by characters
    of [./A-Za-z0-9]; a password of at most 72 bytes is hashed; the
    password a hash was made from is accepted. *)
Class BcryptLaws (bc : Bcrypt) : Prop := {
  bcrypt_hash_form : forall pw salt h,
    GenerateFromPassword pw hashCost salt = Val h ->
    exists body, h = (bcrypt_prefix ++ body)%string
                 /\ all_chars bcrypt_char body = true;
  bcrypt_total : forall pw salt,
    (String.length pw <= 72)%nat ->
    exists h, GenerateFromPassword pw hashCost salt = Val h;
  bcrypt_accepts : forall pw salt h,
    GenerateFromPassword pw hashCost salt = Val h ->
    CompareHashAndPassword h pw = None;
}.

(** AES-GCM opens what it sealed under the same key and nonce. *)
Class CipherLaws (ci : Cipher) : Prop := {
  open_seal : forall key nonce plaintext,
    NewCipher key = Val tt -> String.length nonce = NonceSize ->
    Open key nonce (Seal key nonce plaintext) = Val plaintext;
}.

Class Base64Laws (b64 : Base64) : Prop := {
  decode_encode : forall s, DecodeString (EncodeToString s) = Val s;
}.

(** The JSON library reads back the payload it wrote. *)
Definition json_faithful {js : Tracker.Json} (p : Tracker.payload) : Prop :=
  forall bytes,
    Tracker.MarshalPayload p = Val bytes ->
    Tracker.UnmarshalPayload bytes = Val p.

End Laws.

(** ** Small instances of the other modules, to run the model on *)

Module Toy.
Import GoStrings Pass PassSpec.

Definition nib (z : Z) : ascii := byte_of (97 + z).

Fixpoint nibbles (s : string) : string :=
  match s with
  | EmptyString => EmptyString
  | String c t =>
    String (nib (byte_val c / 16)) (String (nib (byte_val c mod 16)) (nibbles t))
  end.

(** A hash that spells the password out, two letters per byte. *)
#[export] Instance toyBcrypt : Bcrypt := {|
  GenerateFromPassword pw cost salt :=
    if (72 <? String.length pw)%nat then Error ErrPasswordTooLong
    else Val (bcrypt_prefix ++ nibbles pw)%string;
  CompareHashAndPassword h pw :=
    if String.eqb h (bcrypt_prefix ++ nibbles pw)%string then None
    else Some ErrMismatchedHashAndPassword;
|}.

#[export] Instance toyCipher : Cipher := {|
  Seal key nonce plaintext := plaintext;
  Open key nonce ciphertext := Val ciphertext;
|}.

#[export] Instance toyBase64 : Base64 := {|
  EncodeToString s := s;
  DecodeString s := Val s;
|}.

Fixpoint keep_ascii (s : string) : string :=
  match s with
  | EmptyString => EmptyString
  | String c t =>
    if byte_val c <? 128 then String c (keep_ascii t) else keep_ascii t
  end.

(** The character classes as the error messages of validate.go list
    them. *)
#[export] Instance toyStr : StrLib := {|
  ToASCII := keep_ascii;
  IsLower r := (97 <=? r) && (r <=? 122);
  IsUpper r := (65 <=? r) && (r <=? 90);
  IsDigit r := (48 <=? r) && (r <=? 57);
  IsSpecial r :=
    existsb (Z.eqb r)
      (utf8_decode "!#$%&()*+,-./:;<=>?@^_{|}~");
  IsSpace r := r =? 32;
|}.

Definition toyAuth : Auth :=
  {| secret := "0123456789abcdef0123456789abcdef";
     key := "0123456789abcdef";
     pepper := "pepper" |}.

End Toy.

Module TrackerSpec.
Import GoStrings Tracker.

Section WithLibraries.
Context {b64 : Base64} {js : Json} {hs : Hash}.

(** The payload [createNewTracker] serialises for an identity. *)
Definition payload_of (i : Info) : result payload :=
  let* bytes := MarshalInfo (Some i) in
  Val {| info := Some i; Sig := Sum64 bytes |}.

End WithLibraries.

(** A JSON that writes the signature in unary and the identity as a tag
    and the name, and a hash that is the length of its input. *)
Fixpoint unary (n : nat) (rest : string) : string :=
  match n with
  | O => rest
  | S n' => String "#" (unary n' rest)
  end.

Definition toy_info (auth : bool) (name : string) : Info :=
  {| ID := 0; Name := name; Auth := auth; Scope := [] |}.

Fixpoint toy_parse (s : string) (n : nat) : result payload :=
  match s with
  | EmptyString => Error (ErrOther "unexpected end of JSON input")
  | String c t =>
    if Ascii.eqb c "#" then toy_parse t (S n)
    else if Ascii.eqb c ":" then
      match t with
      | EmptyString => Error (ErrOther "unexpected end of JSON input")
      | String tag name =>
        if Ascii.eqb tag "A"
        then Val {| info := Some (toy_info true name); Sig := Z.of_nat n |}
        else if Ascii.eqb tag "U"
        then Val {| info := Some (toy_info false name); Sig := Z.of_nat n |}
        else if Ascii.eqb tag "N"
        then Val {| info := None; Sig := Z.of_nat n |}
        else Error (ErrOther "invalid character")
      end
    else Error (ErrOther "invalid character")
  end.

Definition toy_marshal_info (o : option Info) : string :=
  match o with
  | None => "N"
  | Some i => String (if Auth i then "A" else "U")%char (Name i)
  end.

#[export] Instance toyJson : Json := {|
  MarshalInfo o := Val (toy_marshal_info o);
  MarshalPayload p :=
    Val (unary (Z.to_nat (Sig p)) (String ":" (toy_marshal_info (info p))));
  UnmarshalPayload s := toy_parse s O;
|}.

#[export] Instance toyHash : Hash := {|
  Sum64 s := Z.of_nat (String.length s);
|}.








End TrackerSpec.

Module RoutesSpec.
Import Routes TrackerSpec.

(** No status has been written yet. *)
Definition no_header (t : list event) : bool :=
  forallb (fun e => match e with EvWriteHeader _ => false | _ => true end) t.

(** A user table with one row, and a signer that spells the subject. *)
#[export] Instance toyDatabase : Database := {|
  QueryRow_auth user :=
    if String.eqb user "alice01"
    then Val (1, "0123456789ab$1$2a$12$squrupqntbtuposntouquqpbuntsununtsup"%string,
              ["user"%string])
    else Error ErrNoRows;
|}.

#[export] Instance toyJwt : Jwt := {|
  SignedString c secret := Val (Subject c);
  ParseWithClaims tokenStr secret := Error (ErrOther "token is malformed");
|}.

Definition toyConfig : Config :=
  {| cfg_Issuer := "goweb"; AccessExpire := 900; RefreshExpire := 1209600 |}.

(** A sign-in request without cookies. *)
Definition toyRequest (user pass : string) : request :=
  {| cookie := fun _ => None; body := Val (Some (user, pass)) |}.

End RoutesSpec.

Module LimiterSpec.
Import Limiter.

(** The settings [NewAuth] (auth.go) gives the limiter of the auth
    routes. *)
Definition authSettings (userRate globalRate : Z) : LimitSettings :=
  {| Name := "auth";
     UserRate := {| Interval := userRate; Burst := 4; MaxDelayed := 2 |};
     GlobalRate := {| Interval := globalRate; Burst := 4; MaxDelayed := 0 |};
     GoodBotRate := {| Interval := 0; Burst := 0; MaxDelayed := 0 |} |}.






(** The counters of the visitors are counts of requests in flight. *)
Definition counters_in_range (r : Limiter) : Prop :=
  forall ip v, visitors r !! ip = Some v -> 0 <= currDelays v < 2 ^ 63 - 1.


(** A limiter whose ceiling for users is 2^63, and one with the ceiling
    2. *)
Definition limiter_with_ceiling (m : Z) : Limiter :=
  {| vars := {| Name := "api";
                UserRate := {| Interval := 500000000; Burst := 3;
                               MaxDelayed := m |};
                GlobalRate := {| Interval := 0; Burst := 0; MaxDelayed := 0 |};
                GoodBotRate := {| Interval := 500000000; Burst := 3;
                                  MaxDelayed := 0 |} |};
     global := None;
     visitors := ∅ |}.

Definition no_bots : sharedResources := {| gbots := ∅; bbots := ∅ |}.

(** The ceiling configured for the classification of [v] is zero. *)
Definition configured_zero (r : Limiter) (v : visitor) : Prop :=
  (vtype v = user /\ MaxDelayed (UserRate (vars r)) = 0)
  \/ (vtype v = goodBot /\ MaxDelayed (GoodBotRate (vars r)) = 0).

(** A user with [n] delayed requests in flight. *)
Definition busy_user (n : Z) : visitor :=
  {| name := EmptyString;
     limiter := {| every := 500000000; burst := 3 |};
     vtype := user; firstSeen := 0; lastSeen := 0;
     delayCount := n; currDelays := n |}.

Definition with_visitor (r : Limiter) (ip : string) (v : visitor) : Limiter :=
  with_visitors r (<[ip:=v]> (visitors r)).


End LimiterSpec.

Module BotcheckSpec.
Import GoStrings Limiter Botcheck.

(** The host name ends with one of the trusted domains: the test the
    specification describes. *)
Definition trusted_suffix (host : string) : bool :=
  existsb (fun s => HasSuffix host s) validDomains.

(** The host name contains one of the trusted domains: the test of
    [checkHostName]. *)
Definition trusted_substring (host : string) : bool :=
  existsb (fun s => Contains host s) validDomains.

(** [strings.ToLower] on ASCII text. *)
#[export] Instance asciiUnicode : Unicode := {|
  ToLower :=
    PassSpec.map_bytes
      (fun b => if (65 <=? b) && (b <=? 90) then b + 32 else b);
|}.

(** A resolver whose every lookup fails. *)
Definition failingResolver : Resolver := {|
  LookupAddr _ _ := Error (ErrOther "no such host");
  LookupIP _ _ := Error (ErrOther "no such host");
|}.

(** A resolver under the control of the owner of [evil.example]: the
    address points to a name of that zone, which points back. *)
Definition spoofingResolver : Resolver := {|
  LookupAddr _ _ := Val ["crawl.google.com.evil.example."%string];
  LookupIP _ _ := Val ["203.0.113.7"%string];
|}.

(** A resolver that answers as the zone of a crawler does for the
    address 66.249.66.1. *)
Definition googlebotResolver : Resolver := {|
  LookupAddr _ _ := Val ["crawl-66-249-66-1.googlebot.com."%string];
  LookupIP _ _ := Val ["66.249.66.1"%string];
|}.

Definition crawler_ua : string :=
  "Mozilla/5.0 (compatible; Googlebot/2.1; +http://www.google.com/bot.html)".

End BotcheckSpec.

Module PassEdgeSpec.
Import GoStrings.

(** How often a byte occurs in a string. *)
Fixpoint count_char (sep : ascii) (s : string) : nat :=
  match s with
  | EmptyString => O
  | String c t => (if Ascii.eqb c sep then 1 else 0) + count_char sep t
  end.

End PassEdgeSpec.

Module RoutesEdgeSpec.
Import Routes.

(** A user table whose row holds a stored value of three bytes. *)
Definition shortHashDatabase : Database := {|
  QueryRow_auth user := Val (1, "abc"%string, ["user"%string]);
|}.

End RoutesEdgeSpec.

(** ** auth/auth.go and auth/routes.go: the route guard, token rotation,
    sign-out *)

Module AuthFlow.
Import GoStrings Routes.

(** The digits of a decimal numeral, read from the left onto [acc];
    [None] at a byte that is no digit. *)
Fixpoint parse_digits (s : string) (acc : Z) : option Z :=
  match s with
  | EmptyString => Some acc
  | String c t =>
    let d := byte_val c - 48 in
    if (0 <=? d) && (d <=? 9) then parse_digits t (acc * 10 + d) else None
  end.

(** [strconv.Atoi] on a 64-bit platform: an optional sign, at least one
    digit, nothing else, and a value that fits an [int]. *)
Definition Atoi (s : string) : result Z :=
  let syntax := Error (ErrOther "strconv.Atoi: invalid syntax") in
  let range := Error (ErrOther "strconv.Atoi: value out of range") in
  let unsigned (neg : bool) (t : string) :=
    match t with
    | EmptyString => syntax
    | _ =>
      match parse_digits t 0 with
      | None => syntax
      | Some n =>
        let v := if neg then - n else n in
        if (- 2 ^ 63 <=? v) && (v <? 2 ^ 63) then Val v else range
      end
    end in
  match s with
  | EmptyString => syntax
  | String c t =>
    if Ascii.eqb c "-" then unsigned true t
    else if Ascii.eqb c "+" then unsigned false t
    else unsigned false s
  end.

(** The query of [revalidateSecurityInfo]: the roles of the user with
    this id and name who owns this session. *)
Class Sessions : Type := {
  QueryRow_roles : Z -> string -> Z -> result (list string);
}.

Definition StatusSeeOther : Z := 303.

(** [http.Redirect(w, r, url, code)]: the [Location] header and the
    status. *)
Definition Redirect (url : string) (code : Z) : list event :=
  [EvSetHeader "Location" url; EvWriteHeader code].


Definition with_claims (c : claims) (subject id : string) (expiresAt : Z)
    (perms : list string) : claims :=
  {| Issuer := Issuer c; Subject := subject; ID := id;
     ExpiresAt := expiresAt; Permissions := perms |}.

Section WithLibraries.
Context {jw : Jwt} {ss : Sessions} {b64 : Base64}
        {js : Tracker.Json} {hs : Tracker.Hash}.

(** [revalidate]: [Val (Some c)] is Go's [(c, true)], [Val None] is
    [(nil, false)]; [now] is [time.Now()], [idr] the random id of a new
    tracking cookie. *)
Definition revalidate (a : Pass.Auth) (cfg : Config) (r : request)
    (now idr : Z) : prog (option claims) :=
  match getClaims a r "refresh" with
  | None => ret None
  | Some c =>
    match Split (Subject c) "|" with
    | [cred0; cred1] =>
      match Atoi cred0 with
      | Val uid =>
        match Atoi (ID c) with
        | Val sess =>
          match QueryRow_roles uid cred1 sess with
          | Val roles =>
            let c := with_claims c (Subject c) (ID c) (ExpiresAt c) roles in
            let failed (t : list event) (msg : string)
              : prog (option claims) :=
              ((EvGo "updateSessionTimestamp" :: t ++ [EvLog "error" msg])%list,
               Val None) in
            match setAuthCookie a "refresh" c true with
            | (t1, Val _) =>
              let accessSubject := Subject c in
              let accessID := ID c in
              let c := with_claims c cred1 EmptyString (ExpiresAt c)
                         (Permissions c) in
              match setAuthCookie a "session" c false with
              | (t2, Val _) =>
                let expirationTime := now + AccessExpire cfg in
                let c := with_claims c accessSubject accessID expirationTime
                           (Permissions c) in
                match setAuthCookie a "access" c true with
                | (t3, Val _) =>
                  let tracked :=
                    match cookie r "id" with
                    | Some _ => ret tt
                    | None => Tracker.CreateAuthTracker idr cred1 roles
                    end in
                  match tracked with
                  | (t4, Val _) =>
                    ((EvGo "updateSessionTimestamp"
                      :: t1 ++ t2 ++ t3 ++ t4
                      ++ [EvLog "info"
                            (Subject c ++ " access token refreshed")])%list,
                     Val (Some c))
                  | (t4, Error _) =>
                    failed (t1 ++ t2 ++ t3 ++ t4)%list
                      "revalidate: failed to create tracking token"
                  | (t4, Panicked) =>
                    ((EvGo "updateSessionTimestamp"
                      :: t1 ++ t2 ++ t3 ++ t4)%list, Panicked)
                  end
                | (t3, Error _) =>
                  failed (t1 ++ t2 ++ t3)%list
                    "revalidate: failed to create access token"
                | (t3, Panicked) =>
                  ((EvGo "updateSessionTimestamp" :: t1 ++ t2 ++ t3)%list,
                   Panicked)
                end
              | (t2, Error _) =>
                failed (t1 ++ t2)%list
                  "revalidate: failed to create user token"
              | (t2, Panicked) =>
                ((EvGo "updateSessionTimestamp" :: t1 ++ t2)%list, Panicked)
              end
            | (t1, Error _) =>
              failed t1 "revalidate: failed to create refresh token"
            | (t1, Panicked) =>
              (EvGo "updateSessionTimestamp" :: t1, Panicked)
            end
          | Error ErrNoRows =>
            ([EvLog "warn" ("revalidate: " ++ Subject c ++ "|" ++ ID c
                            ++ " no longer exists in db")], Val None)
          | Error _ =>
            ([EvLog "error" "revalidate: error revalidating with the db"],
             Val None)
          | Panicked => lift Panicked
          end
        | Error _ =>
          ([EvLog "warn"
              "revalidate: atoi failed to convert string sess to int"],
           Val None)
        | Panicked => lift Panicked
        end
      | Error _ =>
        ([EvLog "warn" "revalidate: atoi failed to convert string id to int"],
         Val None)
      | Panicked => lift Panicked
      end
    | _ =>
      ([EvLog "warn" "revalidate: claims.Subject had a length != 2"],
       Val None)
    end
  end.


End WithLibraries.

Section SignOut.
Context {jw : Jwt}.

(** The handler of [signOut]. *)
Definition signOut (a : Pass.Auth) (r : request) : list event :=
  let '(t, user) := signOutInternal a r in
  (t ++ [EvLog "info" (user ++ " successful signout")]
     ++ Redirect "/" StatusSeeOther)%list.

End SignOut.

End AuthFlow.

Module AuthFlowSpec.
Import GoStrings Routes AuthFlow.

Definition is_digit (c : ascii) : bool :=
  (48 <=? byte_val c) && (byte_val c <=? 57).

Definition no_bar (s : string) : bool :=
  Pass.all_chars (fun c => negb (Ascii.eqb c "|")) s.

(** The cookies a trace sets, in order. *)
Definition set_cookies (t : list event) : list (string * string * bool) :=
  omap (fun e => match e with
                 | EvSetCookie n v h => Some (n, v, h)
                 | _ => None
                 end) t.

(** What [signOutInternal] sets: the four cookies, emptied. *)
Definition cleared : list (string * string * bool) :=
  [("id", EmptyString, true); ("session", EmptyString, true);
   ("access", EmptyString, true); ("refresh", EmptyString, true)]%string.

(** The claims [createTokens] signs for the refresh cookie of a
    sign-in. *)
Definition refresh_claims (cfg : Config) (i : signin) : claims :=
  {| Permissions := permissions i; Issuer := cfg_Issuer cfg;
     Subject := (Itoa (id i) ++ "|" ++ User i)%string;
     ID := Itoa (session i); ExpiresAt := expires i |}.

(** A token library that knows one refresh token, minted for user 7,
    [alice01], session 12345, when her only role was [user]; and a session
    table in which she is an administrator by now. *)
Definition aliceSignin : signin :=
  {| User := "alice01"; Pass := EmptyString; id := 7;
     permissions := ["user"%string]; session := 12345; expires := 5000 |}.

Definition rotatingJwt : Jwt := {|
  SignedString c secret := Val (Subject c ++ "#" ++ ID c)%string;
  ParseWithClaims tokenStr secret :=
    if String.eqb tokenStr "alice-refresh"
    then Val (refresh_claims RoutesSpec.toyConfig aliceSignin)
    else Error (ErrOther "token is malformed");
|}.

Definition aliceSessions : Sessions := {|
  QueryRow_roles uid user sess :=
    if (uid =? 7) && String.eqb user "alice01" && (sess =? 12345)
    then Val ["user"%string; "admin"%string]
    else Error ErrNoRows;
|}.

(** A request that carries the refresh cookie and the tracking cookie,
    and no access cookie. *)
Definition aliceRequest : request :=
  {| cookie := fun name =>
       if String.eqb name "refresh" then Some "alice-refresh"%string
       else if String.eqb name "id" then Some "x"%string
       else None;
     body := Error (ErrOther "EOF") |}.

End AuthFlowSpec.

(** ** validate.go, declaratively *)

Module ValidateSpec.
Import GoStrings Validate.

Section WithStr.
Context {sl : StrLib}.

Definition letter (c : rune) : bool := IsLower c || IsUpper c.

Definition alnum (c : rune) : bool := IsLower c || IsUpper c || IsDigit c.

(** A rune the password loop lets pass. *)
Definition allowed (c : rune) : bool :=
  IsLower c || IsUpper c || IsDigit c || IsSpecial c || IsSpace c.

(** The category a rune is counted for: the first of lower, upper, digit
    and special it belongs to. *)
Definition counts_lower (c : rune) : bool := IsLower c.

Definition counts_upper (c : rune) : bool := negb (IsLower c) && IsUpper c.

Definition counts_digit (c : rune) : bool :=
  negb (IsLower c) && negb (IsUpper c) && IsDigit c.

Definition counts_special (c : rune) : bool :=
  negb (IsLower c) && negb (IsUpper c) && negb (IsDigit c) && IsSpecial c.

(** The verdict on a user name, without the loop. *)
Definition username_verdict (user : string) : option reason :=
  if (String.length user <? 4)%nat || (20 <? String.length user)%nat
  then Some UsernameLength
  else if negb (String.eqb user (ToASCII user)) then Some UsernameChars
  else match utf8_decode user with
       | [] => None
       | first :: rest =>
         if negb (letter first) then Some UsernameFirstChar
         else if forallb alnum rest then None
         else Some UsernameChars
       end.

(** The verdict on a password, without the loop. *)
Definition password_verdict (pass : string) : option reason :=
  let rs := utf8_decode pass in
  if (String.length pass <? 10)%nat || (32 <? String.length pass)%nat
  then Some PasswordLength
  else if negb (String.eqb pass (ToASCII pass)) then Some PasswordChars
  else if negb (forallb allowed rs) then Some PasswordChars
  else if existsb counts_lower rs && existsb counts_upper rs
          && existsb counts_digit rs && existsb counts_special rs
       then None
       else Some PasswordCategories.

End WithStr.

End ValidateSpec.

(** ** limiter: the daemon that forgets idle visitors *)

Module Daemon.
Import GoStrings Limiter.

(** [t.Sub(u)] on times in nanoseconds: the difference, held to the range
    of a [Duration]. *)
Definition Sub (t u : Z) : Z :=
  let d := t - u in
  if d <? - 2 ^ 63 then - 2 ^ 63
  else if 2 ^ 63 - 1 <? d then 2 ^ 63 - 1
  else d.

(** The body of the loop of [trim], on the counters and the map. *)
Definition trim_step (now : Z) (k : string) (v : visitor)
    (acc : nat * nat * gmap string visitor) : nat * nat * gmap string visitor :=
  let '(cnt, total, m) := acc in
  let total := S total in
  if Sub now (lastSeen v) >? Hour then (S cnt, total, delete k m)
  else (cnt, total, m).

(** [trim]: the loop runs over the entries the map has when it starts; an
    entry is deleted while the loop is at it. *)
Definition trim (limiter : Limiter) (now : Z) : list event * Limiter :=
  let '(cnt, total, m) :=
    map_fold (trim_step now) (O, O, visitors limiter) (visitors limiter) in
  (if (0 <? cnt)%nat
   then [EvLog "info"
           ("daemon: " ++ Name (vars limiter) ++ ": "
            ++ Routes.Itoa (Z.of_nat cnt) ++ "/"
            ++ Routes.Itoa (Z.of_nat total) ++ " visitors trimmed")]
   else [],
   with_visitors limiter m).

End Daemon.

(** ** limiter: the entry point of a request *)

Module LimitRequests.
Import GoStrings Limiter.

Section WithLibraries.
Context {b64 : Base64} {js : Tracker.Json} {hs : Tracker.Hash}.

(** [LimitRequest]: [ip] is [net.GetIP(req)], [cookie] the value of the
    cookie [id] of the request; [idr] and [nr] feed the tracker, [now],
    [delay] and [gdelay] feed [limit]. *)
Definition LimitRequest (r : Limiter) (sh : sharedResources) (ip : string)
    (cookie : option string) (idr nr now delay gdelay : Z)
  : prog unit * Limiter :=
  match Tracker.GetTrackingInfo cookie idr nr with
  | (t, Val info) =>
    let '(t', err, r') := limit r sh ip info now delay gdelay in
    ((t ++ t')%list,
     match err with Some e => Error e | None => Val tt end,
     r')
  | (t, Error e) => (t, Error e, r)
  | (t, Panicked) => (t, Panicked, r)
  end.

End WithLibraries.

End LimitRequests.

(** * Properties *)

(** ** The structural transform is reversible *)

Module PassFacts.
Import GoStrings Pass PassSpec.

(** Decides every comparison of the goal that [lia] can decide. *)
Ltac cmp_known :=
  repeat
    match goal with
    | |- context [Z.geb ?a ?b] =>
        first [ replace (Z.geb a b) with true by lia
              | replace (Z.geb a b) with false by lia ]
    | |- context [Z.gtb ?a ?b] =>
        first [ replace (Z.gtb a b) with true by lia
              | replace (Z.gtb a b) with false by lia ]
    | |- context [Z.leb ?a ?b] =>
        first [ replace (Z.leb a b) with true by lia
              | replace (Z.leb a b) with false by lia ]
    | |- context [Z.ltb ?a ?b] =>
        first [ replace (Z.ltb a b) with true by lia
              | replace (Z.ltb a b) with false by lia ]
    | |- context [Z.eqb ?a ?b] =>
        first [ replace (Z.eqb a b) with true by lia
              | replace (Z.eqb a b) with false by lia ]
    | _ => progress cbn [andb orb negb]
    end.

(** The ten intervals on which [rot13] is given by one formula. *)
Lemma rune_intervals (r : rune) :
  r < 48 \/ 48 <= r <= 52 \/ 53 <= r <= 57 \/ 58 <= r <= 64
  \/ 65 <= r <= 77 \/ 78 <= r <= 90 \/ 91 <= r <= 96
  \/ 97 <= r <= 109 \/ 110 <= r <= 122 \/ 122 < r.
Proof. lia. Qed.

Ltac by_intervals r :=
  let H := fresh "H" in
  pose proof (rune_intervals r) as H;
  repeat (destruct H as [H | H]).

Lemma rot13_involutive (r : rune) : rot13 (rot13 r) = r.
Proof.
  by_intervals r;
    unfold rot13, rotLower, rotUpper, rotDigit; cmp_known; lia.
Qed.

Lemma rot13_rot_spec (r : rune) : rot13 r = rot_spec r.
Proof.
  by_intervals r;
    unfold rot13, rot_spec, rotLower, rotUpper, rotDigit; cmp_known;
    Z.div_mod_to_equations; lia.
Qed.

Lemma byte_val_range (c : ascii) : 0 <= byte_val c < 256.
Proof.
  unfold byte_val. pose proof (N_ascii_bounded c). lia.
Qed.

Lemma byte_of_val (c : ascii) : byte_of (byte_val c) = c.
Proof.
  unfold byte_of, byte_val. rewrite N2Z.id. apply ascii_N_embedding.
Qed.

Lemma byte_val_of (z : Z) : 0 <= z < 256 -> byte_val (byte_of z) = z.
Proof.
  intros Hz. unfold byte_of, byte_val.
  rewrite N_ascii_embedding by lia. lia.
Qed.

Lemma rot13_ascii_range (r : rune) : 0 <= r < 128 -> 0 <= rot13 r < 128.
Proof.
  intros Hr.
  by_intervals r;
    unfold rot13, rotLower, rotUpper, rotDigit; cmp_known; lia.
Qed.

Lemma rot13_dollar (r : rune) : rot13 r = 36 -> r = 36.
Proof.
  by_intervals r;
    unfold rot13, rotLower, rotUpper, rotDigit; cmp_known; lia.
Qed.

Lemma utf8_decode_ascii (c : ascii) (t : string) :
  (byte_val c <? 128) = true ->
  utf8_decode (String c t) = byte_val c :: utf8_decode t.
Proof. intros H. cbn [utf8_decode]. now rewrite H. Qed.

(** On an ASCII string [strings.Map] works byte by byte. *)
Lemma Map_ascii (f : rune -> rune) (s : string) :
  (forall r, 0 <= r < 128 -> 0 <= f r < 128) ->
  is_ascii s = true -> Map f s = map_bytes f s.
Proof.
  intros Hf. induction s as [|c t IH]; intros Hs; [reflexivity|].
  cbn in Hs. apply andb_true_iff in Hs as [Hc Ht].
  unfold Map. rewrite utf8_decode_ascii by exact Hc.
  cbn [fold_right].
  assert (Hr : 0 <= f (byte_val c) < 128).
  { apply Hf. pose proof (byte_val_range c). lia. }
  replace (f (byte_val c) <? 0) with false by lia.
  unfold utf8_encode. replace (f (byte_val c) <=? 127) with true by lia.
  cbn. f_equal. apply IH, Ht.
Qed.

Lemma map_bytes_rot13_ascii (s : string) :
  is_ascii s = true -> is_ascii (map_bytes rot13 s) = true.
Proof.
  induction s as [|c t IH]; intros Hs; [reflexivity|].
  cbn in *. apply andb_true_iff in Hs as [Hc Ht].
  apply andb_true_iff. split; [|auto].
  pose proof (byte_val_range c).
  assert (0 <= rot13 (byte_val c) < 128) by (apply rot13_ascii_range; lia).
  rewrite byte_val_of by lia. lia.
Qed.

Lemma map_bytes_rot13_no_dollar (s : string) :
  is_ascii s = true -> no_dollar s = true ->
  no_dollar (map_bytes rot13 s) = true.
Proof.
  induction s as [|c t IH]; intros Hs Hd; [reflexivity|].
  cbn in *. apply andb_true_iff in Hs as [Hc Ht].
  apply andb_true_iff in Hd as [Hd Hdt].
  apply andb_true_iff. split; [|auto].
  apply negb_true_iff, Ascii.eqb_neq. intros Heq.
  apply negb_true_iff, Ascii.eqb_neq in Hd. apply Hd.
  pose proof (byte_val_range c).
  assert (0 <= rot13 (byte_val c) < 128) by (apply rot13_ascii_range; lia).
  assert (Hv : rot13 (byte_val c) = 36).
  { rewrite <- (byte_val_of (rot13 (byte_val c))) by lia.
    rewrite Heq. reflexivity. }
  apply rot13_dollar in Hv. rewrite <- (byte_of_val c), Hv. reflexivity.
Qed.

Lemma map_bytes_rot13_twice (s : string) :
  is_ascii s = true -> map_bytes rot13 (map_bytes rot13 s) = s.
Proof.
  induction s as [|c t IH]; intros Hs; [reflexivity|].
  cbn in *. apply andb_true_iff in Hs as [Hc Ht].
  pose proof (byte_val_range c).
  assert (0 <= rot13 (byte_val c) < 128) by (apply rot13_ascii_range; lia).
  rewrite byte_val_of by lia.
  rewrite rot13_involutive, byte_of_val. f_equal. auto.
Qed.

Lemma Split_no_sep (s : string) (sep : ascii) :
  all_chars (fun c => negb (Ascii.eqb c sep)) s = true -> Split s sep = [s].
Proof.
  induction s as [|c t IH]; intros H; [reflexivity|].
  cbn in *. apply andb_true_iff in H as [Hc Ht].
  apply negb_true_iff in Hc. rewrite Hc, (IH Ht). reflexivity.
Qed.

Lemma all_chars_impl (p q : ascii -> bool) (s : string) :
  (forall c, p c = true -> q c = true) ->
  all_chars p s = true -> all_chars q s = true.
Proof.
  intros Hpq. induction s as [|c t IH]; intros H; [reflexivity|].
  cbn in *. apply andb_true_iff in H as [Hc Ht].
  apply andb_true_iff. auto.
Qed.

Lemma bcrypt_char_ascii (c : ascii) :
  bcrypt_char c = true -> (byte_val c <? 128) = true.
Proof. unfold bcrypt_char. cbn zeta. lia. Qed.

Lemma bcrypt_char_no_dollar (c : ascii) :
  bcrypt_char c = true -> negb (Ascii.eqb c "$") = true.
Proof.
  intros H. apply negb_true_iff, Ascii.eqb_neq. intros ->.
  discriminate H.
Qed.

Lemma bcrypt_body_ascii (body : string) :
  bcrypt_body body = true -> is_ascii body = true /\ no_dollar body = true.
Proof.
  unfold bcrypt_body. intros H. apply andb_true_iff in H as [_ H].
  split.
  - exact (all_chars_impl _ _ _ bcrypt_char_ascii H).
  - exact (all_chars_impl _ _ _ bcrypt_char_no_dollar H).
Qed.

(** [alter] and [unalter] on a hash whose last field is ASCII and free of
    the separator. *)
Lemma alter_ascii (body : string) :
  is_ascii body = true -> no_dollar body = true ->
  alter (bcrypt_prefix ++ body) = Val ("$1$2a$12$" ++ map_bytes rot13 body)%string.
Proof.
  intros Ha Hd. unfold alter.
  assert (Hs : Split (bcrypt_prefix ++ body) "$"
               = [EmptyString; "2a"; "04"; body]%string).
  { cbv beta iota delta [String.append bcrypt_prefix]. cbn.
    rewrite (Split_no_sep body "$" Hd). reflexivity. }
  rewrite Hs. cbn.
  rewrite (Map_ascii rot13 body rot13_ascii_range Ha). reflexivity.
Qed.

Lemma unalter_ascii (body : string) :
  is_ascii body = true -> no_dollar body = true ->
  unalter ("$1$2a$12$" ++ body) = Val (bcrypt_prefix ++ map_bytes rot13 body)%string.
Proof.
  intros Ha Hd. unfold unalter.
  assert (Hs : Split ("$1$2a$12$" ++ body) "$"
               = [EmptyString; "1"; "2a"; "12"; body]%string).
  { cbv beta iota delta [String.append bcrypt_prefix]. cbn.
    rewrite (Split_no_sep body "$" Hd). reflexivity. }
  rewrite Hs. cbn.
  rewrite (Map_ascii rot13 body rot13_ascii_range Ha). reflexivity.
Qed.

Lemma unalter_alter_ascii (body : string) :
  is_ascii body = true -> no_dollar body = true ->
  bind (alter (bcrypt_prefix ++ body)) unalter = Val (bcrypt_prefix ++ body)%string.
Proof.
  intros Ha Hd. rewrite (alter_ascii body Ha Hd). cbn [bind].
  rewrite unalter_ascii.
  - now rewrite map_bytes_rot13_twice.
  - now apply map_bytes_rot13_ascii.
  - now apply map_bytes_rot13_no_dollar.
Qed.

Lemma map_bytes_ext (f g : rune -> rune) (s : string) :
  (forall r, f r = g r) -> map_bytes f s = map_bytes g s.
Proof.
  intros H. induction s as [|c t IH]; [reflexivity|].
  cbn. now rewrite H, IH.
Qed.

(** C9.  For every bcrypt hash [$2a$04$<salt+digest>]: [alter] gives
    [$1$2a$12$] (the version 1 in front, the decoy cost 12 in place of the
    cost) followed by the salt+digest with every character rotated, 13
    places within each letter case, 5 within the digits, the others left
    alone; [unalter] takes exactly that string back to the hash, so
    [unalter] after [alter] gives the hash back; and the rotation of the
    code is that rotation, and is its own inverse on every rune. *)
Theorem unalter_alter_bcrypt (body : string) :
  bcrypt_body body = true ->
  alter ("$2a$04$" ++ body)
    = Val ("$1$2a$12$" ++ map_bytes rot_spec body)%string
  /\ unalter ("$1$2a$12$" ++ map_bytes rot_spec body)
     = Val ("$2a$04$" ++ body)%string
  /\ bind (alter ("$2a$04$" ++ body)) unalter
      = Val ("$2a$04$" ++ body)%string
  /\ (forall r : rune, rot13 r = rot_spec r)
  /\ (forall r : rune, rot13 (rot13 r) = r).
Proof.
  intros Hb. destruct (bcrypt_body_ascii body Hb) as [Ha Hd].
  assert (Hrot : map_bytes rot13 body = map_bytes rot_spec body)
    by exact (map_bytes_ext _ _ body rot13_rot_spec).
  change "$2a$04$"%string with bcrypt_prefix.
  split; [|split; [|split; [|split]]].
  - rewrite (alter_ascii body Ha Hd). now rewrite Hrot.
  - rewrite <- Hrot. rewrite unalter_ascii.
    + now rewrite map_bytes_rot13_twice.
    + now apply map_bytes_rot13_ascii.
    + now apply map_bytes_rot13_no_dollar.
  - exact (unalter_alter_ascii body Ha Hd).
  - exact rot13_rot_spec.
  - exact rot13_involutive.
Qed.

(** The hash of the comment in pass.go, altered and taken back. *)
Lemma unalter_alter_bcrypt_witness :
  alter "$2a$04$g2tinxYv91PKj./q9ZyVdew2mKToygQrYb6gMReolejVgMaGcD2Ny"
  = Val "$1$2a$12$t7gvakLi46CXw./d4MlIqrj7zXGbltDeLo1tZErbyrwItZnTpQ7Al"%string
  /\ unalter "$1$2a$12$t7gvakLi46CXw./d4MlIqrj7zXGbltDeLo1tZErbyrwItZnTpQ7Al"
     = Val "$2a$04$g2tinxYv91PKj./q9ZyVdew2mKToygQrYb6gMReolejVgMaGcD2Ny"%string.
Proof.
  destruct (unalter_alter_bcrypt
              "g2tinxYv91PKj./q9ZyVdew2mKToygQrYb6gMReolejVgMaGcD2Ny" eq_refl)
    as (H1 & H2 & _).
  split; [exact H1|exact H2].
Defined.

End PassFacts.


(** ** Passwords: generation, verification and the delay *)

Module PasswordFacts.
Import GoStrings Pass PassSpec Laws PassFacts.

Lemma app_nil_l (t : string) : (EmptyString ++ t)%string = t.
Proof. reflexivity. Qed.

Lemma app_cons (c : ascii) (s t : string) :
  (String c s ++ t)%string = String c (s ++ t).
Proof. reflexivity. Qed.

Lemma length_app (s t : string) :
  String.length (s ++ t) = (String.length s + String.length t)%nat.
Proof.
  induction s as [|c s IH]; [reflexivity|].
  rewrite app_cons. cbn. now rewrite IH.
Qed.

Lemma str_take_app (s t : string) : str_take (String.length s) (s ++ t) = s.
Proof.
  induction s as [|c s IH]; [now destruct t|].
  rewrite app_cons. cbn. now rewrite IH.
Qed.

Lemma str_drop_app (s t : string) : str_drop (String.length s) (s ++ t) = t.
Proof.
  induction s as [|c s IH]; [now destruct t|].
  rewrite app_cons. cbn. exact IH.
Qed.


Section WithLibraries.
Context {bc : Bcrypt} {ci : Cipher} {b64 : Base64}.
Context {BL : BcryptLaws bc} {CL : CipherLaws ci} {EL : Base64Laws b64}.

Lemma decrypt_encrypt (s k nonce e : string) :
  String.length nonce = NonceSize ->
  encrypt s k (Val nonce) = Val e -> decrypt e k = Val s.
Proof.
  intros Hn. unfold encrypt, decrypt.
  destruct (NewCipher k) as [[]| |] eqn:Hk; cbn [bind]; try discriminate.
  intros [= <-]. rewrite decode_encode. cbn [bind].
  rewrite length_app, Hn.
  replace (_ <=? _)%nat with true by (symmetry; apply Nat.leb_le; lia).
  cbn [bind]. rewrite <- Hn, str_take_app, str_drop_app.
  rewrite open_seal by assumption. reflexivity.
Qed.




End WithLibraries.

End PasswordFacts.

Module PasswordClaims.
Import GoStrings Pass PassSpec Laws PassFacts PasswordFacts.

Section WithLibraries.
Context {bc : Bcrypt} {ci : Cipher} {b64 : Base64} {sl : StrLib}.
Context {BL : BcryptLaws bc} {CL : CipherLaws ci} {EL : Base64Laws b64}.

Lemma checkPassword_length (p : string) :
  Validate.checkPassword p = None ->
  (10 <= String.length p <= 32)%nat.
Proof.
  unfold Validate.checkPassword, Validate.minPasswordLen,
    Validate.maxPasswordLen.
  destruct (String.length p <? 10)%nat eqn:Hlo;
    destruct (32 <? String.length p)%nat eqn:Hhi; cbn; try discriminate.
  intros _. apply Nat.ltb_ge in Hlo, Hhi. lia.
Qed.

(** A password that meets the policy is stored when the pepper leaves room
    for it within bcrypt's 72 bytes and the key is an AES key. *)
Lemma generate_succeeds (a : Auth) (p salt nonce : string) (j : Z) :
  Validate.checkPassword p = None ->
  (String.length (pepper a) <= 39)%nat ->
  NewCipher (key a) = Val tt ->
  exists stored, snd (generate a p salt (Val nonce) j) = Val stored.
Proof.
  intros Hp Hpep Hkey. apply checkPassword_length in Hp.
  destruct (bcrypt_total (p ++ "." ++ pepper a) salt) as [h Hg].
  { rewrite !length_app. cbn. lia. }
  destruct (bcrypt_hash_form _ _ _ Hg) as (body & -> & Hb).
  assert (His : is_ascii body = true)
    by exact (all_chars_impl _ _ _ bcrypt_char_ascii Hb).
  assert (Hnd : no_dollar body = true)
    by exact (all_chars_impl _ _ _ bcrypt_char_no_dollar Hb).
  unfold generate, pbind, lift, ret, slowDown, emit.
  rewrite Hg, (alter_ascii body His Hnd). unfold encrypt.
  rewrite Hkey. cbn. eauto.
Qed.


(** The sleep of [slowDown] lasts from 200 to 249 milliseconds. *)
Lemma slowDown_range (j : Z) :
  0 <= j < 50 ->
  exists d, slept (fst (slowDown j)) = [d]
            /\ 200 * 1000000 <= d < 250 * 1000000.
Proof.
  intros Hj. exists ((200 + j) * 1000000). split; [reflexivity|lia].
Qed.

(** C8, as the code has it.  [compare] and [generate] sleep, for
    [200 + jitter] milliseconds, exactly when they succeed: a run that
    ends in an error or a panic has not slept. *)
Theorem slowDown_only_on_success (a : Auth) (hash p salt : string)
    (rnd : result string) (j : Z) :
  slept (fst (compare a hash p j))
    = match snd (compare a hash p j) with
      | Val _ => [(200 + j) * 1000000]
      | _ => []
      end
  /\ slept (fst (generate a p salt rnd j))
     = match snd (generate a p salt rnd j) with
       | Val _ => [(200 + j) * 1000000]
       | _ => []
       end.
Proof.
  split.
  - unfold compare, pbind, lift, ret, slowDown, emit.
    destruct (decrypt hash (key a)) as [d| |]; cbn; try reflexivity.
    destruct (unalter d) as [u| |]; cbn; try reflexivity.
    destruct (CompareHashAndPassword u _); reflexivity.
  - unfold generate, pbind, lift, ret, slowDown, emit.
    destruct (GenerateFromPassword _ _ _) as [h| |]; cbn; try reflexivity.
    destruct (alter h) as [al| |]; cbn; try reflexivity.
    destruct (encrypt al (key a) rnd) as [e| |]; reflexivity.
Qed.

(** [compare] has no result [(false, nil)]: it answers [true] or ends in
    an error. *)
Lemma compare_never_false (a : Auth) (hash p : string) (j : Z) :
  snd (compare a hash p j) <> Val false.
Proof.
  unfold compare, pbind, lift, ret, slowDown, emit.
  destruct (decrypt hash (key a)) as [d| |]; cbn; try discriminate.
  destruct (unalter d) as [u| |]; cbn; try discriminate.
  destruct (CompareHashAndPassword u _); discriminate.
Qed.

End WithLibraries.

End PasswordClaims.

(** ** The small instances satisfy the contracts *)

Module ToyFacts.
Import GoStrings Pass PassSpec Laws PassFacts PasswordFacts Toy.

Lemma byte_val_nib (z : Z) : 0 <= z < 16 -> byte_val (nib z) = 97 + z.
Proof. intros Hz. unfold nib. apply byte_val_of. lia. Qed.

Lemma nib_bcrypt_char (z : Z) : 0 <= z < 16 -> bcrypt_char (nib z) = true.
Proof.
  intros Hz. unfold bcrypt_char. rewrite (byte_val_nib z Hz).
  cbn zeta. lia.
Qed.

Lemma nibbles_bcrypt (s : string) : all_chars bcrypt_char (nibbles s) = true.
Proof.
  induction s as [|c t IH]; [reflexivity|].
  pose proof (byte_val_range c) as Hc. cbn [nibbles all_chars].
  rewrite !nib_bcrypt_char, IH; [reflexivity| |];
    Z.div_mod_to_equations; lia.
Qed.

Lemma nibbles_inj (s s' : string) : nibbles s = nibbles s' -> s = s'.
Proof.
  revert s'. induction s as [|c t IH]; intros [|c' t']; cbn;
    try discriminate; [reflexivity|].
  intros [= Hhi Hlo Ht].
  pose proof (byte_val_range c) as Hc.
  pose proof (byte_val_range c') as Hc'.
  apply (f_equal byte_val) in Hhi, Hlo.
  rewrite !byte_val_nib in Hhi, Hlo by (Z.div_mod_to_equations; lia).
  assert (Hv : byte_val c = byte_val c')
    by (Z.div_mod_to_equations; lia).
  f_equal; [|auto].
  now rewrite <- (byte_of_val c), <- (byte_of_val c'), Hv.
Qed.

Lemma app_inv_head (s t t' : string) :
  (s ++ t)%string = (s ++ t')%string -> t = t'.
Proof.
  induction s as [|c s IH]; [trivial|].
  rewrite !app_cons. intros [= H]. auto.
Qed.

#[export] Instance toyBcryptLaws : BcryptLaws toyBcrypt.
Proof.
  split.
  - intros pw salt h.
    cbn [GenerateFromPassword CompareHashAndPassword toyBcrypt].
    destruct (72 <? String.length pw)%nat; [intros H; discriminate H|].
    intros [= <-]. exists (nibbles pw). split; [reflexivity|].
    apply nibbles_bcrypt.
  - intros pw salt Hlen.
    cbn [GenerateFromPassword CompareHashAndPassword toyBcrypt].
    replace (72 <? String.length pw)%nat with false
      by (symmetry; apply Nat.ltb_ge; lia).
    eauto.
  - intros pw salt h.
    cbn [GenerateFromPassword CompareHashAndPassword toyBcrypt].
    destruct (72 <? String.length pw)%nat; [intros H; discriminate H|].
    intros [= <-]. now rewrite String.eqb_refl.
Qed.

#[export] Instance toyCipherLaws : CipherLaws toyCipher.
Proof. split. reflexivity. Qed.

#[export] Instance toyBase64Laws : Base64Laws toyBase64.
Proof. split. reflexivity. Qed.



End ToyFacts.

(** ** Sign-in: the status of a failed attempt *)

Module RoutesFacts.
Import GoStrings Pass Routes TrackerSpec RoutesSpec.

Lemma status_app (t t' : list event) :
  no_header t = true -> status (t ++ t') = status t'.
Proof.
  induction t as [|e t IH]; [reflexivity|].
  cbn. destruct e; cbn; try discriminate; exact IH.
Qed.

Section WithLibraries.
Context {bc : Bcrypt} {ci : Cipher} {b64 : Base64} {sl : StrLib}
        {jw : Jwt} {db : Database} {js : Tracker.Json} {hs : Tracker.Hash}.

Lemma signOutInternal_no_header (a : Auth) (r : request) :
  no_header (fst (signOutInternal a r)) = true.
Proof. unfold signOutInternal. now destruct (getClaims a r "refresh"). Qed.

Lemma compare_error_trace (a : Auth) (hash p : string) (j : Z) (e : error) :
  snd (compare a hash p j) = Error e -> fst (compare a hash p j) = [].
Proof.
  unfold compare, pbind, lift, ret, slowDown, emit.
  destruct (decrypt hash (key a)) as [d| |]; cbn; try discriminate; trivial.
  destruct (unalter d) as [u| |]; cbn; try discriminate; trivial.
  destruct (CompareHashAndPassword u _); cbn; try discriminate; trivial.
Qed.

(** [signIn] once the body is decoded and the two syntactic checks have
    passed: the lookup of the user and the verification decide. *)
Lemma signIn_checked (a : Auth) (cfg : Config) (r : request)
    (jitter now sess idr : Z) (user pass : string) :
  body r = Val (Some (user, pass)) ->
  Validate.checkUsername user = None ->
  Validate.checkPassword pass = None ->
  exists t0, no_header t0 = true /\
    forall e,
      (getSecurityInfo user = Error ErrNoRows ->
       fst (signIn a cfg r jitter now sess idr)
       = (t0 ++ [EvLog "warn"
                   (user ++ " tried to signin with an invalid username");
                 EvWriteHeader StatusUnauthorized])%list)
      /\ (forall uid hash roles,
            getSecurityInfo user = Val (uid, hash, roles) ->
            snd (compare a hash pass jitter) = Error e ->
            fst (signIn a cfg r jitter now sess idr)
            = (t0 ++ [EvLog "error" "signin: comparing password";
                      EvWriteHeader StatusInternalServerError])%list).
Proof.
  intros Hb Hu Hp. unfold signIn.
  pose proof (signOutInternal_no_header a r) as Hno.
  destruct (signOutInternal a r) as [t0 name]. cbn [fst] in Hno.
  rewrite Hb, Hu, Hp. cbn [is_some orb].
  set (t1 := (t0 ++ _)%list).
  exists t1. split.
  { subst t1. unfold no_header in *. rewrite forallb_app, Hno.
    now destruct (negb _). }
  intros e. split.
  - intros ->. reflexivity.
  - intros uid hash roles -> Hc.
    pose proof (compare_error_trace a hash pass jitter e Hc) as Ht.
    destruct (compare a hash pass jitter) as [t res]. cbn in Hc, Ht.
    subst t res. reflexivity.
Qed.

(** C2, as the code has it.  For a sign-in whose user name and password
    pass the syntactic checks: an unknown user name is answered with status
    401, and a known user name with a password that [compare] rejects is
    answered with status 500: [compare] reports the mismatch as an error, and
    the handler answers an error of [compare] with 500 before it looks at
    [valid]. *)
Theorem signIn_bad_password_status (a : Auth) (cfg : Config) (r : request)
    (jitter now sess idr : Z) (user pass : string) (e : error) :
  body r = Val (Some (user, pass)) ->
  Validate.checkUsername user = None ->
  Validate.checkPassword pass = None ->
  (getSecurityInfo user = Error ErrNoRows ->
   status (fst (signIn a cfg r jitter now sess idr)) = StatusUnauthorized)
  /\ (forall uid hash roles,
        getSecurityInfo user = Val (uid, hash, roles) ->
        snd (compare a hash pass jitter) = Error e ->
        status (fst (signIn a cfg r jitter now sess idr))
        = StatusInternalServerError).
Proof.
  intros Hb Hu Hp.
  destruct (signIn_checked a cfg r jitter now sess idr user pass Hb Hu Hp)
    as (t0 & Hno & H).
  destruct (H e) as [H1 H2]. split.
  - intros Hq. rewrite (H1 Hq). now rewrite status_app.
  - intros uid hash roles Hq Hc. rewrite (H2 uid hash roles Hq Hc).
    now rewrite status_app.
Qed.

End WithLibraries.

Import Toy ToyFacts.

(** The two requests of the claim, run: an unknown user, and the user
    [alice01] with a password that differs in its last character from the
    one her stored value was generated from. *)
Lemma signIn_bad_password_status_witness :
  status (fst (signIn toyAuth toyConfig (toyRequest "bob0001" "Str0ng!Pass")
                 3 0 0 0)) = 401
  /\ status (fst (signIn toyAuth toyConfig
                    (toyRequest "alice01" "Str0ng!Pasz") 3 0 0 0)) = 500.
Proof.
  split.
  - apply (proj1 (signIn_bad_password_status (sl := toyStr) (db := toyDatabase)
                    toyAuth toyConfig
                    (toyRequest "bob0001" "Str0ng!Pass") 3 0 0 0
                    "bob0001" "Str0ng!Pass" ErrNoRows
                    eq_refl eq_refl eq_refl)).
    reflexivity.
  - apply (proj2 (signIn_bad_password_status (sl := toyStr) (db := toyDatabase)
                    toyAuth toyConfig
                    (toyRequest "alice01" "Str0ng!Pasz") 3 0 0 0
                    "alice01" "Str0ng!Pasz" ErrMismatchedHashAndPassword
                    eq_refl eq_refl eq_refl)
             1 "0123456789ab$1$2a$12$squrupqntbtuposntouquqpbuntsununtsup"%string
             ["user"%string]).
    + reflexivity.
    + vm_compute. reflexivity.
Defined.

End RoutesFacts.

(** ** The tracking cookie *)

Module TrackerFacts.
Import GoStrings Tracker TrackerSpec Laws.

Section WithLibraries.
Context {b64 : Base64} {js : Json} {hs : Hash} {EL : Base64Laws b64}.

(** [createNewTracker] writes the cookie [cookie_of] describes, whatever
    signature the payload came with. *)
Lemma createNewTracker_cookie (i : Info) (s0 : Z) :
  createNewTracker {| info := Some i; Sig := s0 |}
  = match cookie_of i with
    | Val v => ([EvSetCookie "id" v false], Val tt)
    | Error e => ([], Error e)
    | Panicked => ([], Panicked)
    end.
Proof.
  unfold createNewTracker, cookie_of, writeTrackingCookie, pbind, lift, emit.
  cbn [info]. destruct (MarshalInfo (Some i)) as [b| |]; cbn; trivial.
  destruct (MarshalPayload _) as [b'| |]; cbn; trivial.
Qed.



Lemma getTrackingCookie_encoded (i : Info) (v : string) :
  cookie_of i = Val v ->
  (forall p, payload_of i = Val p -> json_faithful p) ->
  getTrackingCookie (Some v) = Val (Some i).
Proof.
  unfold cookie_of, payload_of. intros Hc Hf.
  destruct (MarshalInfo (Some i)) as [bytes| |] eqn:Hm; cbn in Hc, Hf;
    try discriminate.
  destruct (MarshalPayload _) as [pb| |] eqn:Hp; cbn in Hc;
    try discriminate.
  injection Hc as <-.
  unfold getTrackingCookie, validateTrackingCookie.
  rewrite decode_encode. cbn.
  rewrite (Hf _ eq_refl pb Hp). cbn. rewrite Hm, Z.eqb_refl. reflexivity.
Qed.


(** C7, as the code has it.  [GetTrackingInfo] returns the identity of a
    cookie that passes the check; in every other case it returns [nil],
    also after [createAnonTracker] has written a new cookie. *)
Theorem GetTrackingInfo_result (cookie : option string) (idr nr : Z) :
  snd (GetTrackingInfo cookie idr nr)
  = match getTrackingCookie cookie with
    | Val (Some i) => Val (Some i)
    | Panicked => Panicked
    | Val None | Error _ =>
      match snd (createAnonTracker idr nr) with
      | Panicked => Panicked
      | _ => Val None
      end
    end.
Proof.
  unfold GetTrackingInfo.
  destruct (getTrackingCookie cookie) as [[i|]|e|]; try reflexivity;
    destruct (createAnonTracker idr nr) as [t [u|e'|]]; reflexivity.
Qed.

End WithLibraries.

Import Toy ToyFacts.



(** A request without cookie: the new cookie is written and [nil] is
    returned. *)
Lemma GetTrackingInfo_no_cookie :
  GetTrackingInfo None 42 (2 ^ 62)
  = ([EvSetCookie "id" "#########:U00000000" false], Val None).
Proof. vm_compute. reflexivity. Qed.

(** A small second random number has fewer than eight hexadecimal digits,
    and slicing the name panics. *)
Lemma createAnonTracker_short_name :
  createAnonTracker 42 255 = ([], Panicked).
Proof. vm_compute. reflexivity. Qed.

End TrackerFacts.

(** ** Admission: the ceiling on delayed requests *)

Module LimiterFacts.
Import GoStrings Limiter LimiterSpec.

Lemma to_int64_small (z : Z) : - 2 ^ 63 <= z < 2 ^ 63 -> to_int64 z = z.
Proof.
  intros Hz. unfold to_int64.
  change (2 ^ 64) with 18446744073709551616.
  change (2 ^ 63) with 9223372036854775808 in *.
  destruct (Z.ltb_spec (z mod 18446744073709551616) 9223372036854775808);
    Z.div_mod_to_equations; lia.
Qed.




(** The decision of [visitorDelay] for the entry of [ip]. *)
Lemma visitorDelay_entry (r : Limiter) (ip : string) (delay now : Z)
    (v : visitor) :
  visitors r !! ip = Some v ->
  exists r',
    visitorDelay r ip delay now
    = (if (maxDelayed_of r v >? 0)
          && (to_int64 (currDelays v + 1) >? to_int64 (maxDelayed_of r v))
       then ([EvLog "warn" "exceeded max limit"],
             Some ErrTooManyRequests, r')
       else ([EvLog "info" "limited"; EvSleep delay], None, r')).
Proof.
  intros Hv. unfold visitorDelay, getVisitorEntry. rewrite Hv.
  cbn [currDelays with_currDelays with_delayCount with_lastSeen].
  change (maxDelayed_of (with_visitors r _) _) with (maxDelayed_of r v).
  destruct (_ && _); eexists; reflexivity.
Qed.

(** Without an entry for [ip], [visitorDelay] returns at once. *)
Lemma visitorDelay_no_entry (r : Limiter) (ip : string) (delay now : Z) :
  visitors r !! ip = None ->
  visitorDelay r ip delay now
  = ([EvLog "error" "getVisitorEntry() returned nil"], None, r).
Proof.
  intros Hv. unfold visitorDelay, getVisitorEntry. now rewrite Hv.
Qed.





(** C10.  For a visitor whose classification has the configured ceiling
    zero, [visitorDelay] returns no error and sleeps the delay, whatever
    the count of its delayed requests in flight; visitors that are neither
    users nor good bots have the ceiling 1; and the limiter of the auth
    routes is built with the ceiling zero for good bots and for the global
    rate. *)
Theorem zero_ceiling_never_rejects (r : Limiter) (ip : string)
    (delay now : Z) (v : visitor) :
  visitors r !! ip = Some v -> configured_zero r v ->
  (let '(t, err, _) := visitorDelay r ip delay now in
   err = None /\ slept t = [delay])
  /\ (forall v', vtype v' = undefined \/ vtype v' = badBot ->
                 maxDelayed_of r v' = 1)
  /\ (forall userRate globalRate l,
        NewLimiter (authSettings userRate globalRate) = Val l ->
        MaxDelayed (GoodBotRate (vars l)) = 0
        /\ MaxDelayed (GlobalRate (vars l)) = 0).
Proof.
  intros Hv Hz. split; [|split].
  - destruct (visitorDelay_entry r ip delay now v Hv) as [r' ->].
    assert (Hm : maxDelayed_of r v = 0).
    { unfold maxDelayed_of. now destruct Hz as [[-> ->]|[-> ->]]. }
    rewrite Hm. cbn. split; reflexivity.
  - intros v' [H|H]; unfold maxDelayed_of; now rewrite H.
  - intros userRate globalRate l. unfold NewLimiter, authSettings.
    cbn [Burst UserRate GlobalRate GoodBotRate Interval MaxDelayed Name].
    cbn [Z.leb Z.gtb Z.eqb Z.compare Pos.compare Pos.compare_cont andb].
    destruct (globalRate =? 0); destruct (userRate =? 0);
      intros [= <-]; split; reflexivity.
Qed.

Lemma zero_ceiling_never_rejects_witness :
  let '(t, err, _) :=
    visitorDelay (with_visitor (limiter_with_ceiling 0) "203.0.113.7"
                    (busy_user 1000)) "203.0.113.7" 1000000 5 in
  err = None /\ slept t = [1000000].
Proof.
  refine (proj1 (zero_ceiling_never_rejects
            (with_visitor (limiter_with_ceiling 0) "203.0.113.7"
               (busy_user 1000)) "203.0.113.7" 1000000 5 (busy_user 1000)
            _ _)).
  - apply lookup_insert_eq.
  - left. split; reflexivity.
Defined.

End LimiterFacts.


(** ** Verification of crawlers: promotion and the retry loops *)

Module BotcheckFacts.
Import GoStrings Limiter Botcheck BotcheckSpec LimiterSpec.

Section WithResolver.
Context {rs : Resolver} {uc : Unicode}.

(** A reverse lookup loop that ends with a name: the first answer that is
    not an error, and its first name. *)
Lemma getHostNameLoop_from_val (fuel : nat) (ip : string) :
  forall (retries : Z) (k : nat) (t : list event) (host : string),
    getHostNameLoop_from fuel ip retries k = (t, Some (Val host)) ->
    exists k2 rest,
      (k <= k2)%nat /\ LookupAddr k2 ip = Val (host :: rest)
      /\ forall j, (k <= j < k2)%nat -> exists e, LookupAddr j ip = Error e.
Proof.
  induction fuel as [|fuel IH]; intros retries k t host; cbn;
    [discriminate|].
  unfold getHostName.
  destruct (LookupAddr k ip) as [hosts|e|] eqn:Hl; cbn.
  - destruct hosts as [|h rest]; cbn; [discriminate|].
    intros [= _ <-]. exists k, rest. split; [lia|]. split; [exact Hl|].
    intros j Hj. lia.
  - destruct (retries + 1 >? 3); [discriminate|].
    destruct (getHostNameLoop_from fuel ip (retries + 1) (S k))
      as [t' res] eqn:Hrec.
    intros [= _ ->].
    destruct (IH _ _ _ _ Hrec) as (k2 & rest & Hk & Hv & Herr).
    exists k2, rest. split; [lia|]. split; [exact Hv|].
    intros j Hj. destruct (Nat.eq_dec j k) as [->|Hne]; [eauto|].
    apply Herr. lia.
  - discriminate.
Qed.

(** A forward lookup loop that ends with an answer: the first answer that
    is not an error, its first address, and whether that is [ip]. *)
Lemma validateIPMatchLoop_from_val (fuel : nat) (ip host : string) :
  forall (retries : Z) (k : nat) (t : list event) (valid : bool)
         (ip2 : string),
    validateIPMatchLoop_from fuel ip host retries k
    = (t, Some (Val (valid, ip2))) ->
    exists k2 rest,
      (k <= k2)%nat /\ LookupIP k2 host = Val (ip2 :: rest)
      /\ valid = String.eqb ip2 ip
      /\ forall j, (k <= j < k2)%nat -> exists e, LookupIP j host = Error e.
Proof.
  induction fuel as [|fuel IH]; intros retries k t valid ip2; cbn;
    [discriminate|].
  unfold validateIPMatch.
  destruct (LookupIP k host) as [ips|e|] eqn:Hl; cbn.
  - destruct ips as [|a rest]; cbn; [discriminate|].
    destruct (String.eqb a ip) eqn:Ha; cbn; intros [= _ <- <-];
      exists k, rest; (split; [lia|]); (split; [exact Hl|]);
      (split; [now rewrite Ha|]); intros j Hj; lia.
  - destruct (retries >? 3); [discriminate|].
    destruct (validateIPMatchLoop_from fuel ip host retries (S k))
      as [t' res] eqn:Hrec.
    intros [= _ ->].
    destruct (IH _ _ _ _ _ Hrec) as (k2 & rest & Hk & Hv & Hval & Herr).
    exists k2, rest. split; [lia|]. split; [exact Hv|].
    split; [exact Hval|].
    intros j Hj. destruct (Nat.eq_dec j k) as [->|Hne]; [eauto|].
    apply Herr. lia.
  - discriminate.
Qed.

(** C3, as the code has it.  [routine] promotes a visitor only if the
    lower-cased user agent contains the text of a known crawler, the first
    answer of the reverse lookup names a host that contains one of the
    trusted domains, anywhere in the name and not only at its end, and the
    first answer of the forward lookup of that host has the visitor's
    address first; a first forward answer with another address does not
    promote.  The promotion records the crawler's name and the host in the
    shared registry and makes the visitor a good bot. *)
Theorem promotion_requires (fuel : nat) (r : Limiter) (sh : sharedResources)
    (ip ua : string) (now : Z) (t : list event) (r' : Limiter)
    (sh' : sharedResources) :
  routine fuel r sh ip ua now = (t, Some (Val (true, r', sh'))) ->
  exists s host k k' rest rest',
    In s uaStrings /\ Contains (ToLower ua) (ua_text s) = true
    /\ LookupAddr k ip = Val (host :: rest)
    /\ (forall j, (j < k)%nat -> exists e, LookupAddr j ip = Error e)
    /\ trusted_substring host = true
    /\ LookupIP k' host = Val (ip :: rest')
    /\ (forall j, (j < k')%nat -> exists e, LookupIP j host = Error e)
    /\ (forall k2 ip2 rest2,
          LookupIP k2 host = Val (ip2 :: rest2) ->
          (forall j, (j < k2)%nat -> exists e, LookupIP j host = Error e) ->
          ip2 = ip)
    /\ gbots sh'
       = <[ip := {| bot_name := ua_name s; bot_host := host |}]> (gbots sh)
    /\ exists v, visitors r' !! ip = Some v
                 /\ vtype v = goodBot /\ name v = ua_name s.
Proof.
  unfold routine, checkUserAgent.
  destruct (find _ uaStrings) as [s|] eqn:Hfind; [|discriminate].
  apply find_some in Hfind as [Hin Hua].
  destruct (getHostNameLoop fuel ip) as [t1 [[host|e|]|]] eqn:Hrev;
    try discriminate.
  unfold checkHostName. fold (trusted_substring host).
  destruct (trusted_substring host) eqn:Htrust; [|discriminate].
  destruct (validateIPMatchLoop fuel ip host)
    as [t3 [[[valid ip2]|e|]|]] eqn:Hfwd; try discriminate.
  destruct valid; [|discriminate].
  unfold upgradeLimit, createVisitor. intros [= _ <- <-].
  destruct (getHostNameLoop_from_val _ _ _ _ _ _ Hrev)
    as (k & rest & _ & Hk & Hkerr).
  destruct (validateIPMatchLoop_from_val _ _ _ _ _ _ _ _ Hfwd)
    as (k' & rest' & _ & Hk' & Hvalid & Hk'err).
  symmetry in Hvalid. apply String.eqb_eq in Hvalid. subst ip2.
  exists s, host, k, k', rest, rest'.
  repeat (split; [first [assumption | reflexivity
                        | intros j Hj; (apply Hkerr || apply Hk'err); lia]
                 |]).
  split.
  - intros k2 ip2 rest2 Hk2 Hk2err.
    destruct (lt_eq_lt_dec k2 k') as [[Hlt|Heq]|Hgt].
    + destruct (Hk'err k2 ltac:(lia)) as [e He]. congruence.
    + subst k2. congruence.
    + destruct (Hk2err k' Hgt) as [e He]. congruence.
  - split; [reflexivity|].
    eexists. split; [apply lookup_insert_eq|]. split; reflexivity.
Qed.

(** C5, as the code has it.  When every lookup fails, the reverse loop
    gives up at the fourth failure, after three sleeps of two seconds; the
    forward loop, whose counter is never incremented, is still running
    after any number of iterations, having slept two seconds in each. *)
Theorem dns_retry_loops (ip host : string) (err : nat -> error) :
  (forall k, LookupAddr k ip = Error (err k)) ->
  (forall k, LookupIP k host = Error (err k)) ->
  (forall fuel, (4 <= fuel)%nat ->
     snd (getHostNameLoop fuel ip) = Some (Error (err 3%nat))
     /\ slept (fst (getHostNameLoop fuel ip))
        = [2 * Second; 2 * Second; 2 * Second])
  /\ (forall fuel,
        snd (validateIPMatchLoop fuel ip host) = None
        /\ slept (fst (validateIPMatchLoop fuel ip host))
           = repeat (2 * Second) fuel).
Proof.
  intros Hrev Hfwd. split.
  - intros fuel Hfuel. unfold getHostNameLoop.
    do 4 (destruct fuel as [|fuel]; [lia|]).
    cbn [getHostNameLoop_from]. unfold getHostName.
    rewrite !Hrev. cbn. split; reflexivity.
  - intros fuel. unfold validateIPMatchLoop. generalize 0%nat as k.
    induction fuel as [|fuel IH]; intros k; [split; reflexivity|].
    cbn [validateIPMatchLoop_from]. unfold validateIPMatch.
    rewrite Hfwd. cbn [Z.gtb Z.compare].
    destruct (IH (S k)) as [Hres Hsl].
    destruct (validateIPMatchLoop_from fuel ip host 0 (S k)) as [t' res].
    cbn in *. subst res. split; [reflexivity|]. now rewrite Hsl.
Qed.

End WithResolver.

(** A crawler of Google at its own address is promoted. *)
Lemma googlebot_promoted :
  routine (rs := googlebotResolver) (uc := asciiUnicode)
    1 (limiter_with_ceiling 2) no_bots "66.249.66.1" crawler_ua 9
  = ([EvLog "info" "ua string bot match";
      EvLog "info" "hostname bot match";
      EvLog "info" "ip forward lookup matches";
      EvLog "info" "verfied Bot"],
     Some (Val (true,
                snd (createVisitor (limiter_with_ceiling 2) "66.249.66.1"
                       "Google" goodBot 9),
                {| gbots := <["66.249.66.1"%string :=
                               {| bot_name := "Google";
                                  bot_host := "crawl-66-249-66-1.googlebot.com." |}]>
                              (∅ : gmap string botEntry);
                   bbots := ∅ |}))).
Proof. vm_compute. reflexivity. Qed.

(** The run of the crawler check for a visitor at 203.0.113.7 whose
    address resolves, in a zone of its own, to a name with a trusted
    domain in its middle: the visitor is promoted. *)
Lemma spoofed_host_promoted :
  routine (rs := spoofingResolver) (uc := asciiUnicode)
    1 (limiter_with_ceiling 2) no_bots "203.0.113.7" crawler_ua 9
  = ([EvLog "info" "ua string bot match";
      EvLog "info" "hostname bot match";
      EvLog "info" "ip forward lookup matches";
      EvLog "info" "verfied Bot"],
     Some (Val (true,
                snd (createVisitor (limiter_with_ceiling 2) "203.0.113.7"
                       "Google" goodBot 9),
                {| gbots := <["203.0.113.7"%string :=
                               {| bot_name := "Google";
                                  bot_host := "crawl.google.com.evil.example." |}]>
                              (∅ : gmap string botEntry);
                   bbots := ∅ |}))).
Proof. vm_compute. reflexivity. Qed.

(** What that promotion rested on: the user agent of a crawler, a host
    name that contains a trusted domain and does not end with one, and a
    forward answer with the visitor's address. *)
Lemma promotion_requires_witness :
  exists s host k k',
    In s uaStrings
    /\ Contains (ToLower crawler_ua) (ua_text s) = true
    /\ LookupAddr (Resolver := spoofingResolver) k "203.0.113.7"
       = Val [host]
    /\ trusted_substring host = true
    /\ trusted_suffix host = false
    /\ LookupIP (Resolver := spoofingResolver) k' host
       = Val ["203.0.113.7"%string].
Proof.
  destruct (promotion_requires (rs := spoofingResolver) (uc := asciiUnicode)
              _ _ _ _ _ _ _ _ _ spoofed_host_promoted)
    as (s & host & k & k' & rest & rest' & Hin & Hua & Hk & _ & Htr & Hk' & _).
  exists s, host, k, k'. cbn in Hk, Hk'.
  injection Hk as <- <-. injection Hk' as <-.
  repeat split; assumption || reflexivity.
Defined.

(** The same user agent and host name at another address: the forward
    lookup answers 66.249.66.1, and the visitor is not promoted. *)
Lemma borrowed_name_not_promoted :
  snd (routine (rs := googlebotResolver) (uc := asciiUnicode)
         5 (limiter_with_ceiling 2) no_bots "203.0.113.7" crawler_ua 9)
  = Some (Val (false, limiter_with_ceiling 2, no_bots)).
Proof. vm_compute. reflexivity. Qed.

(** A host name with a trusted domain in its middle: the visitor is
    promoted, and the name does not end with any trusted domain. *)
Lemma promoted_without_trusted_suffix :
  match snd (routine (rs := spoofingResolver) (uc := asciiUnicode)
               1 (limiter_with_ceiling 2) no_bots "203.0.113.7"
               crawler_ua 9) with
  | Some (Val (promoted, r', sh')) =>
    promoted = true
    /\ gbots sh' !! "203.0.113.7"
       = Some {| bot_name := "Google";
                 bot_host := "crawl.google.com.evil.example." |}
    /\ (vtype <$> visitors r' !! "203.0.113.7") = Some goodBot
  | _ => False
  end
  /\ trusted_suffix "crawl.google.com.evil.example." = false.
Proof. vm_compute. repeat split; reflexivity. Qed.

Lemma dns_retry_loops_witness :
  snd (getHostNameLoop (rs := failingResolver) 10 "203.0.113.7")
  = Some (Error (ErrOther "no such host"))
  /\ snd (validateIPMatchLoop (rs := failingResolver) 1000 "203.0.113.7"
            "crawl-66-249-66-1.googlebot.com.") = None.
Proof.
  destruct (dns_retry_loops (rs := failingResolver) "203.0.113.7"
              "crawl-66-249-66-1.googlebot.com."
              (fun _ => ErrOther "no such host")
              (fun _ => eq_refl) (fun _ => eq_refl)) as [Hrev Hfwd].
  split.
  - exact (proj1 (Hrev 10%nat ltac:(lia))).
  - exact (proj1 (Hfwd 1000%nat)).
Defined.

End BotcheckFacts.


(** ** More on pass.go: panics, the cost field, the cipher *)

Module PassEdges.
Import GoStrings Pass PassSpec PassEdgeSpec Laws PassFacts PasswordFacts.

Lemma Split_length (s : string) (sep : ascii) :
  length (Split s sep) = S (count_char sep s).
Proof.
  induction s as [|c t IH]; [reflexivity|]. cbn.
  destruct (Ascii.eqb c sep); cbn; [now rewrite IH|].
  destruct (Split t sep) as [|p ps]; cbn in *; lia.
Qed.

(** X1.  [alter] never returns an error; it panics exactly on a string
    with fewer than three separators, and [unalter] exactly on a string
    with fewer than four. *)
Theorem alter_unalter_panics (s : string) :
  (alter s = Panicked <-> (count_char "$" s < 3)%nat)
  /\ (unalter s = Panicked <-> (count_char "$" s < 4)%nat)
  /\ (forall e, alter s <> Error e /\ unalter s <> Error e).
Proof.
  pose proof (Split_length s "$") as Hlen.
  unfold alter, unalter.
  destruct (Split s "$") as [|a [|b [|c [|d [|e l]]]]]; cbn in Hlen |- *;
    (split; [|split]);
    try (split; [intros _; lia | reflexivity]);
    try (split; [discriminate | intros; lia]);
    intros; split; discriminate.
Qed.

Lemma Split_app_sep (a rest : string) (sep : ascii) :
  all_chars (fun c => negb (Ascii.eqb c sep)) a = true ->
  Split (a ++ String sep rest) sep = a :: Split rest sep.
Proof.
  induction a as [|c a IH]; intros Ha.
  - rewrite app_nil_l. cbn. now rewrite Ascii.eqb_refl.
  - cbn in Ha. apply andb_true_iff in Ha as [Hc Ha].
    apply negb_true_iff in Hc.
    rewrite app_cons. cbn. now rewrite Hc, (IH Ha).
Qed.

(** X2.  The cost field of a hash does not survive the transform: for a
    hash [$alg$cost$body] with an ASCII body, [alter] stores
    [$1$alg$12$] and the rotated body, and [unalter] gives back
    [$alg$04$body], whatever [cost] was. *)
Theorem unalter_alter_cost (alg cost body : string) :
  no_dollar alg = true -> no_dollar cost = true ->
  is_ascii body = true -> no_dollar body = true ->
  alter ("$" ++ alg ++ "$" ++ cost ++ "$" ++ body)
  = Val ("$1$" ++ alg ++ "$12$" ++ map_bytes rot13 body)%string
  /\ bind (alter ("$" ++ alg ++ "$" ++ cost ++ "$" ++ body)) unalter
     = Val ("$" ++ alg ++ "$04$" ++ body)%string.
Proof.
  intros Halg Hcost Ha Hd.
  assert (Halter :
    alter ("$" ++ alg ++ "$" ++ cost ++ "$" ++ body)
    = Val ("$1$" ++ alg ++ "$12$" ++ map_bytes rot13 body)%string).
  { unfold alter.
    assert (Hs : Split ("$" ++ alg ++ "$" ++ cost ++ "$" ++ body) "$"
                 = [EmptyString; alg; cost; body]).
    { change ("$" ++ alg ++ "$" ++ cost ++ "$" ++ body)%string
        with (String "$" (alg ++ String "$" (cost ++ String "$" body))).
      cbn [Split]. rewrite Ascii.eqb_refl.
      rewrite (Split_app_sep alg _ "$" Halg).
      rewrite (Split_app_sep cost _ "$" Hcost).
      now rewrite (Split_no_sep body "$" Hd). }
    rewrite Hs. cbn.
    rewrite (Map_ascii rot13 body rot13_ascii_range Ha). reflexivity. }
  split; [exact Halter|].
  rewrite Halter. cbn [bind]. unfold unalter.
  assert (Hs : Split ("$1$" ++ alg ++ "$12$" ++ map_bytes rot13 body) "$"
               = [EmptyString; "1"%string; alg; "12"%string;
                  map_bytes rot13 body]).
  { change ("$1$" ++ alg ++ "$12$" ++ map_bytes rot13 body)%string
      with (String "$" (String "1" (String "$"
              (alg ++ String "$" ("12" ++ String "$"
                                    (map_bytes rot13 body)))))).
    cbn [Split]. rewrite Ascii.eqb_refl. cbn [Ascii.eqb Bool.eqb].
    rewrite (Split_app_sep alg _ "$" Halg).
    rewrite (Split_app_sep "12" _ "$" eq_refl).
    rewrite (Split_no_sep _ "$" (map_bytes_rot13_no_dollar body Ha Hd)).
    reflexivity. }
  rewrite Hs. cbn.
  rewrite (Map_ascii rot13 _ rot13_ascii_range
             (map_bytes_rot13_ascii body Ha)).
  now rewrite (map_bytes_rot13_twice body Ha).
Qed.

Lemma unalter_alter_cost_witness :
  bind (alter "$2b$10$N9qo8uLOickgx2ZMRZoMye") unalter
  = Val "$2b$04$N9qo8uLOickgx2ZMRZoMye"%string.
Proof.
  exact (proj2 (unalter_alter_cost "2b" "10" "N9qo8uLOickgx2ZMRZoMye"
                  eq_refl eq_refl eq_refl eq_refl)).
Defined.

Section WithLibraries.
Context {bc : Bcrypt} {ci : Cipher} {b64 : Base64}.
Context {CL : CipherLaws ci} {EL : Base64Laws b64}.

(** X3.  With a key of 16, 24 or 32 bytes, [decrypt] gives back what
    [encrypt] was given, the nonce travelling in front of the sealed text;
    with a key of another length both return the key size error. *)
Theorem encrypt_decrypt_round_trip (s k nonce : string) :
  String.length nonce = NonceSize ->
  (NewCipher k = Val tt ->
   exists e, encrypt s k (Val nonce) = Val e /\ decrypt e k = Val s)
  /\ (NewCipher k <> Val tt ->
      encrypt s k (Val nonce) = Error KeySizeError
      /\ forall e u, DecodeString e = Val u ->
                     decrypt e k = Error KeySizeError).
Proof.
  intros Hn. split.
  - intros Hk. eexists. split.
    + unfold encrypt. rewrite Hk. reflexivity.
    + apply (decrypt_encrypt s k nonce _ Hn).
      unfold encrypt. rewrite Hk. reflexivity.
  - intros Hk.
    assert (Hk' : NewCipher k = Error KeySizeError).
    { unfold NewCipher in *. destruct (_ || _); [now elim Hk|reflexivity]. }
    split.
    + unfold encrypt. now rewrite Hk'.
    + intros e u He. unfold decrypt. rewrite He. cbn. now rewrite Hk'.
Qed.

(** A stored value that decodes to fewer bytes than a nonce makes
    [decrypt] panic, and [compare] with it, before anything is slept. *)
Lemma compare_short_panics (a : Auth) (hash u p : string) (j : Z) :
  DecodeString hash = Val u ->
  (String.length u < NonceSize)%nat ->
  NewCipher (key a) = Val tt ->
  decrypt hash (key a) = Panicked /\ compare a hash p j = ([], Panicked).
Proof.
  intros Hd Hlen Hk.
  assert (Hp : decrypt hash (key a) = Panicked).
  { unfold decrypt. rewrite Hd. cbn [bind]. rewrite Hk. cbn [bind].
    replace (NonceSize <=? String.length u)%nat with false
      by (symmetry; apply Nat.leb_gt; lia).
    reflexivity. }
  split; [exact Hp|].
  unfold compare, pbind, lift. now rewrite Hp.
Qed.

End WithLibraries.

Lemma encrypt_decrypt_round_trip_witness :
  exists e,
    encrypt (ci := Toy.toyCipher) (b64 := Toy.toyBase64)
      "$1$2a$12$abc" "0123456789abcdef" (Val "0123456789ab") = Val e
    /\ decrypt (ci := Toy.toyCipher) (b64 := Toy.toyBase64) e "0123456789abcdef"
       = Val "$1$2a$12$abc"%string.
Proof.
  exact (proj1 (encrypt_decrypt_round_trip
                  (ci := Toy.toyCipher) (b64 := Toy.toyBase64) (CL := ToyFacts.toyCipherLaws)
                  (EL := ToyFacts.toyBase64Laws)
                  "$1$2a$12$abc" "0123456789abcdef" "0123456789ab" eq_refl)
           eq_refl).
Defined.

End PassEdges.


(** ** Tokens: the subject round trip, rotation and the route guard *)

Module AuthFlowFacts.
Import GoStrings Pass Routes AuthFlow AuthFlowSpec PassSpec PassFacts
  PasswordFacts.

Lemma app_assoc_str (s t u : string) :
  ((s ++ t) ++ u)%string = (s ++ (t ++ u))%string.
Proof.
  induction s as [|c s IH]; [reflexivity|].
  rewrite !app_cons. now rewrite IH.
Qed.

Lemma decimal_digits_acc (fuel : nat) :
  forall n acc,
    decimal_digits fuel n acc
    = (decimal_digits fuel n EmptyString ++ acc)%string.
Proof.
  induction fuel as [|fuel IH]; intros n acc; [reflexivity|].
  cbn [decimal_digits]. destruct (n / 10 =? 0); [reflexivity|].
  rewrite (IH (n / 10) (String _ acc)).
  rewrite (IH (n / 10) (String _ EmptyString)).
  now rewrite app_assoc_str.
Qed.

Lemma parse_digits_app (s t : string) :
  forall a,
    parse_digits (s ++ t) a
    = match parse_digits s a with
      | Some a' => parse_digits t a'
      | None => None
      end.
Proof.
  induction s as [|c s IH]; intros a; [reflexivity|].
  rewrite app_cons. cbn [parse_digits].
  destruct (_ && _); [apply IH|reflexivity].
Qed.

Lemma digit_byte (d : Z) :
  0 <= d <= 9 -> byte_val (byte_of (48 + d)) - 48 = d.
Proof. intros Hd. rewrite byte_val_of by lia. lia. Qed.

Lemma parse_decimal_digits (fuel : nat) :
  forall n, (1 <= fuel)%nat -> 0 <= n < 10 ^ Z.of_nat fuel ->
            parse_digits (decimal_digits fuel n EmptyString) 0 = Some n.
Proof.
  induction fuel as [|fuel IH]; intros n Hf Hn; [lia|].
  cbn [decimal_digits].
  assert (Hd : 0 <= n mod 10 <= 9) by (Z.div_mod_to_equations; lia).
  destruct (Z.eqb_spec (n / 10) 0) as [Hz|Hnz].
  - cbn [parse_digits]. rewrite (digit_byte _ Hd).
    replace ((0 <=? n mod 10) && (n mod 10 <=? 9)) with true by lia.
    f_equal. Z.div_mod_to_equations; lia.
  - rewrite decimal_digits_acc, parse_digits_app.
    assert (Hq : 0 <= n / 10 < 10 ^ Z.of_nat fuel).
    { rewrite Nat2Z.inj_succ, Z.pow_succ_r in Hn by lia.
      Z.div_mod_to_equations; lia. }
    assert (Hf' : (1 <= fuel)%nat).
    { destruct fuel; [|lia]. cbn in Hq. lia. }
    rewrite (IH (n / 10) Hf' Hq). cbn [parse_digits].
    rewrite (digit_byte _ Hd).
    replace ((0 <=? n mod 10) && (n mod 10 <=? 9)) with true by lia.
    f_equal. Z.div_mod_to_equations; lia.
Qed.

Lemma decimal_digits_all (fuel : nat) :
  forall n acc, 0 <= n -> all_chars is_digit acc = true ->
                all_chars is_digit (decimal_digits fuel n acc) = true.
Proof.
  induction fuel as [|fuel IH]; intros n acc Hn Hacc; [exact Hacc|].
  cbn [decimal_digits].
  assert (Hd : 0 <= n mod 10 <= 9) by (Z.div_mod_to_equations; lia).
  assert (Hacc' : all_chars is_digit
                    (String (byte_of (48 + n mod 10)) acc) = true).
  { cbn [all_chars]. rewrite Hacc. unfold is_digit.
    rewrite byte_val_of by lia. lia. }
  destruct (n / 10 =? 0); [exact Hacc'|].
  apply IH; [Z.div_mod_to_equations; lia|exact Hacc'].
Qed.

Lemma decimal_digits_nonempty (fuel : nat) (n : Z) :
  (1 <= fuel)%nat -> decimal_digits fuel n EmptyString <> EmptyString.
Proof.
  destruct fuel as [|fuel]; [lia|]. intros _. cbn [decimal_digits].
  destruct (n / 10 =? 0); [discriminate|].
  rewrite decimal_digits_acc.
  destruct (decimal_digits fuel (n / 10) EmptyString); discriminate.
Qed.

(** [strconv.Atoi] reads back what [strconv.Itoa] wrote, for every 64-bit
    integer. *)
Lemma Atoi_Itoa (n : Z) : - 2 ^ 63 <= n < 2 ^ 63 -> Atoi (Itoa n) = Val n.
Proof.
  intros Hn.
  assert (H63 : 2 ^ 63 = 9223372036854775808) by reflexivity.
  assert (Hpow : 10 ^ Z.of_nat 20 = 100000000000000000000) by reflexivity.
  unfold Itoa. destruct (Z.ltb_spec n 0) as [Hneg|Hpos].
  - unfold Atoi. cbn [Ascii.eqb Bool.eqb].
    pose proof (decimal_digits_nonempty 20 (- n) ltac:(lia)) as Hne.
    pose proof (parse_decimal_digits 20 (- n) ltac:(lia) ltac:(lia)) as Hp.
    destruct (decimal_digits 20 (- n) EmptyString) as [|c t] eqn:Hs;
      [contradiction|].
    rewrite Hp. replace (- - n) with n by lia.
    destruct (Z.leb_spec (- 2 ^ 63) n); [|lia].
    destruct (Z.ltb_spec n (2 ^ 63)); [reflexivity|lia].
  - pose proof (decimal_digits_nonempty 20 n ltac:(lia)) as Hne.
    pose proof (decimal_digits_all 20 n EmptyString Hpos eq_refl) as Hall.
    pose proof (parse_decimal_digits 20 n ltac:(lia) ltac:(lia)) as Hp.
    destruct (decimal_digits 20 n EmptyString) as [|c t] eqn:Hs;
      [contradiction|].
    cbn [all_chars] in Hall. apply andb_true_iff in Hall as [Hc _].
    unfold is_digit in Hc. unfold Atoi.
    destruct (Ascii.eqb_spec c "-") as [->|_]; [discriminate Hc|].
    destruct (Ascii.eqb_spec c "+") as [->|_]; [discriminate Hc|].
    rewrite Hp.
    destruct (Z.leb_spec (- 2 ^ 63) n); [|lia].
    destruct (Z.ltb_spec n (2 ^ 63)); [reflexivity|lia].
Qed.

Lemma is_digit_no_bar (s : string) :
  all_chars is_digit s = true -> no_bar s = true.
Proof.
  apply all_chars_impl. intros c Hc. unfold is_digit in Hc.
  destruct (Ascii.eqb_spec c "|") as [->|_]; [discriminate Hc|reflexivity].
Qed.

Lemma Itoa_no_bar (n : Z) : no_bar (Itoa n) = true.
Proof.
  unfold Itoa. destruct (Z.ltb_spec n 0).
  - unfold no_bar. cbn [all_chars Ascii.eqb Bool.eqb negb andb].
    apply is_digit_no_bar, decimal_digits_all; [lia|reflexivity].
  - apply is_digit_no_bar, decimal_digits_all; [lia|reflexivity].
Qed.

(** The subject [createTokens] writes splits back into the id and the
    name, when the name has no separator. *)
Lemma Split_subject (uid : Z) (user : string) :
  no_bar user = true ->
  Split (Itoa uid ++ "|" ++ user) "|" = [Itoa uid; user].
Proof.
  intros Hu.
  change (Itoa uid ++ "|" ++ user)%string
    with (Itoa uid ++ String "|" user)%string.
  rewrite (PassEdges.Split_app_sep _ _ "|" (Itoa_no_bar uid)).
  now rewrite (Split_no_sep user "|" Hu).
Qed.

Lemma set_cookies_app (t t' : list event) :
  set_cookies (t ++ t') = (set_cookies t ++ set_cookies t')%list.
Proof. apply omap_app. Qed.

Section WithLibraries.
Context {jw : Jwt} {ss : Sessions} {b64 : Base64}
        {js : Tracker.Json} {hs : Tracker.Hash}.

(** The cookies of one [setAuthCookie]: none, or the signature of the
    claims under the name asked for. *)
Lemma setAuthCookie_cookies (a : Auth) (name : string) (c : claims)
    (h : bool) :
  (exists tok, SignedString c (secret a) = Val tok
               /\ setAuthCookie a name c h = ([EvSetCookie name tok h], Val tt))
  \/ (set_cookies (fst (setAuthCookie a name c h)) = []
      /\ snd (setAuthCookie a name c h) <> Val tt).
Proof.
  unfold setAuthCookie, emit, lift.
  destruct (SignedString c (secret a)) as [tok|e|].
  - left. now exists tok.
  - right. split; [reflexivity|discriminate].
  - right. split; [reflexivity|discriminate].
Qed.

Lemma CreateAuthTracker_cookies (idr : Z) (name : string)
    (perms : list string) (n v : string) (h : bool) :
  In (n, v, h) (set_cookies (fst (Tracker.CreateAuthTracker idr name perms))) ->
  n = "id"%string.
Proof.
  unfold Tracker.CreateAuthTracker, Tracker.createNewTracker,
    Tracker.writeTrackingCookie, pbind, lift, emit.
  cbn [Tracker.info].
  destruct (Tracker.MarshalInfo _) as [b| |]; cbn; try tauto.
  destruct (Tracker.MarshalPayload _) as [b'| |]; cbn; try tauto.
  intros [H|[]]. now inversion H.
Qed.

(** X5.  Token rotation reads the roles anew.  For a refresh token that
    [createTokens] signed (a name without separator, ids that fit an
    [int]), [revalidate] recovers id, name and session and asks the session
    table for exactly these: without a row nothing is issued; with a row,
    every token it issues and the claims it returns carry the roles of the
    table, not those of the token, the returned claims expire one access
    period from now, and with a working signer and a tracking cookie in
    place the three tokens are reissued in the order refresh, session,
    access. *)
Theorem revalidate_rotates (a : Auth) (cfg : Config) (r : request)
    (now idr : Z) (i : signin) :
  no_bar (User i) = true ->
  - 2 ^ 63 <= id i < 2 ^ 63 ->
  - 2 ^ 63 <= session i < 2 ^ 63 ->
  getClaims a r "refresh" = Some (refresh_claims cfg i) ->
  let rotated (roles : list string) :=
    {| Issuer := cfg_Issuer cfg;
       Subject := (Itoa (id i) ++ "|" ++ User i)%string;
       ID := Itoa (session i);
       ExpiresAt := now + AccessExpire cfg;
       Permissions := roles |} in
  (forall e, QueryRow_roles (id i) (User i) (session i) = Error e ->
     set_cookies (fst (revalidate a cfg r now idr)) = []
     /\ snd (revalidate a cfg r now idr) = Val None)
  /\ (forall roles,
        QueryRow_roles (id i) (User i) (session i) = Val roles ->
        (forall n v h,
           In (n, v, h) (set_cookies (fst (revalidate a cfg r now idr))) ->
           n <> "id"%string ->
           exists c, SignedString c (secret a) = Val v
                     /\ Permissions c = roles)
        /\ (forall c, snd (revalidate a cfg r now idr) = Val (Some c) ->
                      c = rotated roles)
        /\ ((forall c, exists tok, SignedString c (secret a) = Val tok) ->
            cookie r "id" <> None ->
            snd (revalidate a cfg r now idr) = Val (Some (rotated roles))
            /\ map (fun x => fst (fst x))
                 (set_cookies (fst (revalidate a cfg r now idr)))
               = ["refresh"; "session"; "access"]%string)).
Proof.
  intros Hu Hid Hs Hg rotated.
  unfold revalidate. rewrite Hg.
  cbn [refresh_claims Subject ID].
  rewrite (Split_subject _ _ Hu), !Atoi_Itoa by assumption.
  split.
  { intros e ->. now destruct e. }
  intros roles ->.
  unfold with_claims. cbn [refresh_claims Subject ID ExpiresAt Permissions Issuer].
  unfold setAuthCookie, emit, lift, ret.
  repeat match goal with
         | |- context [SignedString ?c (secret a)] =>
           let E := fresh "E" in
           destruct (SignedString c (secret a)) eqn:E
         end.
  all: destruct (cookie r "id") as [cid|] eqn:Ecid.
  all: try (destruct (Tracker.CreateAuthTracker idr (User i) roles)
              as [t4 [[]|e4|]] eqn:E4).
  all: pose proof (CreateAuthTracker_cookies idr (User i) roles) as Htr;
    try rewrite E4 in Htr; unfold set_cookies in Htr |- *;
    cbn [fst snd] in Htr |- *.
  all: split; [|split].
  all: try (intros n v h Hin Hn; cbn in Hin; rewrite ?omap_app in Hin;
            cbn in Hin; rewrite ?in_app_iff in Hin; cbn in Hin;
            repeat (destruct Hin as [Hin|Hin]);
            try contradiction;
            try (now elim Hn; apply (Htr n v h));
            inversion Hin; subst;
            (eexists; split; [eassumption|reflexivity])).
  all: try (intros c Hc; inversion Hc; reflexivity).
  all: intros Hsign Hcid; try (now elim Hcid).
  all: try (split; reflexivity).
  all: repeat match goal with
              | H : SignedString ?c _ = Error _ |- _ =>
                destruct (Hsign c) as [? ?]; congruence
              | H : SignedString ?c _ = Panicked |- _ =>
                destruct (Hsign c) as [? ?]; congruence
              end.
Qed.

End WithLibraries.

(** Alice's refresh token says [user]; the session table says she is an
    administrator by now, and the rotated claims say so too. *)
Lemma revalidate_rotates_witness :
  snd (revalidate (jw := rotatingJwt) (ss := aliceSessions)
         (b64 := Toy.toyBase64) (js := TrackerSpec.toyJson)
         (hs := TrackerSpec.toyHash)
         Toy.toyAuth RoutesSpec.toyConfig aliceRequest 100 0)
  = Val (Some {| Issuer := "goweb"; Subject := "7|alice01"; ID := "12345";
                 ExpiresAt := 1000;
                 Permissions := ["user"; "admin"]%string |}).
Proof.
  refine (proj1 (proj2 (proj2 (proj2 (revalidate_rotates
            (jw := rotatingJwt) (ss := aliceSessions)
            (b64 := Toy.toyBase64) (js := TrackerSpec.toyJson)
            (hs := TrackerSpec.toyHash)
            Toy.toyAuth RoutesSpec.toyConfig aliceRequest 100 0 aliceSignin
            eq_refl _ _ eq_refl) _ eq_refl)) _ _)).
  - cbn; lia.
  - cbn; lia.
  - intros c. eexists. reflexivity.
  - discriminate.
Defined.

Section Guard.
Context {jw : Jwt} {ss : Sessions} {b64 : Base64}
        {js : Tracker.Json} {hs : Tracker.Hash}.




End Guard.

Lemma cleared_empty (n v : string) (h : bool) :
  In (n, v, h) cleared -> v = EmptyString.
Proof.
  unfold cleared. cbn.
  intros [H|[H|[H|[H|[]]]]]; now inversion H.
Qed.

Section SignIn.
Context {bc : Bcrypt} {ci : Cipher} {b64 : Base64} {sl : StrLib}
        {jw : Jwt} {db : Database} {js : Tracker.Json} {hs : Tracker.Hash}.

Lemma signOutInternal_cookies (a : Auth) (r : request) :
  set_cookies (fst (signOutInternal a r)) = cleared.
Proof. unfold signOutInternal. now destruct (getClaims a r "refresh"). Qed.

Lemma compare_cookies (a : Auth) (hash p : string) (j : Z) :
  set_cookies (fst (compare a hash p j)) = [].
Proof.
  unfold compare, pbind, lift, ret, slowDown, emit.
  destruct (decrypt hash (key a)) as [d| |]; cbn; trivial.
  destruct (unalter d) as [u| |]; cbn; trivial.
  destruct (CompareHashAndPassword u _); cbn; trivial.
Qed.

Lemma compare_true_inv (a : Auth) (hash p : string) (j : Z)
    (t : list event) (b : bool) :
  compare a hash p j = (t, Val b) ->
  b = true
  /\ exists d u, decrypt hash (key a) = Val d /\ unalter d = Val u
                 /\ CompareHashAndPassword u (p ++ "." ++ pepper a) = None.
Proof.
  unfold compare, pbind, lift, ret, slowDown, emit.
  destruct (decrypt hash (key a)) as [d| |] eqn:Hd; cbn; try discriminate.
  destruct (unalter d) as [u| |] eqn:Hu; cbn; try discriminate.
  destruct (CompareHashAndPassword u _) eqn:Hc; cbn; try discriminate.
  intros H. inversion H. split; [reflexivity|]. now exists d, u.
Qed.

(** X7.  No token without authentication.  Whenever the sign-in handler
    sets a cookie to a value that is not empty, the body held a user name
    and a password that pass the syntactic checks, the user table has a row
    for the name, its stored value decrypts and unalters to a hash, and
    bcrypt accepts the peppered password for that hash. *)
Theorem signIn_issues_after_compare (a : Auth) (cfg : Config) (r : request)
    (jitter now sess idr : Z) (n v : string) (h : bool) :
  In (n, v, h) (set_cookies (fst (signIn a cfg r jitter now sess idr))) ->
  v <> EmptyString ->
  exists user pass uid hash roles d u,
    body r = Val (Some (user, pass))
    /\ Validate.checkUsername user = None
    /\ Validate.checkPassword pass = None
    /\ getSecurityInfo user = Val (uid, hash, roles)
    /\ decrypt hash (key a) = Val d
    /\ unalter d = Val u
    /\ CompareHashAndPassword u (pass ++ "." ++ pepper a) = None.
Proof.
  intros Hin Hv. unfold signIn in Hin.
  pose proof (signOutInternal_cookies a r) as Hc0.
  destruct (signOutInternal a r) as [t0 name]. cbn [fst] in Hc0.
  unfold pbind in Hin.
  set (t1 := (t0 ++ _)%list) in Hin.
  assert (Ht1 : set_cookies t1 = cleared).
  { subst t1. rewrite set_cookies_app, Hc0.
    destruct (negb _); cbn; now rewrite ?app_nil_r. }
  assert (Hfail : forall t', set_cookies t' = [] ->
                             In (n, v, h) (set_cookies (t1 ++ t')) -> False).
  { intros t' Ht' H. rewrite set_cookies_app, Ht1, Ht', app_nil_r in H.
    apply Hv. exact (cleared_empty _ _ _ H). }
  clearbody t1.
  destruct (body r) as [[[user pass]|]| |] eqn:Hb; cbn [fst] in Hin;
    try (exfalso; refine (Hfail _ _ Hin); reflexivity).
  destruct (Validate.checkUsername user) eqn:Hu; cbn [is_some orb] in Hin;
    try (exfalso; refine (Hfail _ _ Hin); reflexivity).
  destruct (Validate.checkPassword pass) eqn:Hp; cbn [is_some orb] in Hin;
    try (exfalso; refine (Hfail _ _ Hin); reflexivity).
  destruct (getSecurityInfo user) as [[[uid hash] roles]|e|] eqn:Hq;
    cbn [fst] in Hin;
    try (exfalso; destruct e; refine (Hfail _ _ Hin); reflexivity);
    try (exfalso; refine (Hfail _ _ Hin); reflexivity).
  pose proof (compare_cookies a hash pass jitter) as Hcc.
  destruct (compare a hash pass jitter) as [t [b|e|]] eqn:Hc;
    cbn [fst] in Hcc, Hin.
  - destruct (compare_true_inv _ _ _ _ _ _ Hc) as (-> & d & u & Hd & Hun & Hbc).
    exists user, pass, uid, hash, roles, d, u. repeat split; assumption.
  - elim (Hfail (t ++ _)%list) with (2 := Hin).
    now rewrite set_cookies_app, Hcc.
  - now elim (Hfail t Hcc).
Qed.

(** X8.  Signing out, and signing in, begin by emptying the four cookies.
    [signOut] sets exactly these, answers with the redirect, and starts the
    deletion of the session exactly when the refresh token is valid;
    [signIn] sets them before anything else, whatever becomes of the
    attempt. *)
Theorem signOut_clears (a : Auth) (r : request) :
  set_cookies (signOut a r) = cleared
  /\ status (signOut a r) = StatusSeeOther
  /\ (In (EvGo "deleteSession") (signOut a r)
      <-> getClaims a r "refresh" <> None)
  /\ forall cfg jitter now sess idr,
       exists rest,
         set_cookies (fst (signIn a cfg r jitter now sess idr))
         = (cleared ++ rest)%list.
Proof.
  split; [|split; [|split]].
  - unfold signOut, signOutInternal.
    now destruct (getClaims a r "refresh").
  - unfold signOut, signOutInternal.
    now destruct (getClaims a r "refresh").
  - unfold signOut, signOutInternal.
    destruct (getClaims a r "refresh") as [c|]; cbn.
    + split; [discriminate|]. intros _. now left.
    + split; [|now intros H; elim H].
      intros H. repeat (destruct H as [H|H]; try discriminate H). 
      contradiction.
  - intros cfg jitter now sess idr. unfold signIn.
    pose proof (signOutInternal_cookies a r) as Hc0.
    destruct (signOutInternal a r) as [t0 name]. cbn [fst] in Hc0.
    unfold pbind.
    set (t1 := (t0 ++ _)%list).
    assert (Ht1 : set_cookies t1 = cleared).
    { subst t1. rewrite set_cookies_app, Hc0.
      destruct (negb _); cbn; now rewrite ?app_nil_r. }
    clearbody t1.
    destruct (match body r with Val _ => _ | _ => _ end) as [t' res].
    cbn [fst]. exists (set_cookies t').
    now rewrite set_cookies_app, Ht1.
Qed.

End SignIn.

Section ShortHash.
Context {bc : Bcrypt} {ci : Cipher} {b64 : Base64} {sl : StrLib}
        {jw : Jwt} {db : Database} {js : Tracker.Json} {hs : Tracker.Hash}.

(** X4.  A stored value too short to hold a nonce.  When the row of the
    user holds a value that decodes to fewer bytes than the nonce of the
    cipher, [decrypt] slices past its end: [compare] panics, the panic is
    recovered by [handlePanic], and the sign-in is answered with status 500
    after the four cookies have been emptied and nothing else set. *)
Theorem signInHandler_short_hash (a : Auth) (cfg : Config) (r : request)
    (tl : list event) (jitter now sess idr : Z) (user pass : string)
    (uid : Z) (hash u : string) (roles : list string) :
  body r = Val (Some (user, pass)) ->
  Validate.checkUsername user = None ->
  Validate.checkPassword pass = None ->
  getSecurityInfo user = Val (uid, hash, roles) ->
  DecodeString hash = Val u ->
  (String.length u < NonceSize)%nat ->
  NewCipher (key a) = Val tt ->
  RoutesSpec.no_header tl = true ->
  let t := signInHandler a cfg r (tl, Val tt) jitter now sess idr in
  status t = StatusInternalServerError
  /\ In (EvLog "error" "panic(recovered)") t
  /\ set_cookies t = (set_cookies tl ++ cleared)%list.
Proof.
  intros Hb Hu Hp Hq Hd Hlen Hk Htl.
  destruct (PassEdges.compare_short_panics a hash u pass jitter Hd Hlen Hk)
    as [_ Hc].
  unfold signInHandler, authLimiter, signIn.
  pose proof (signOutInternal_cookies a r) as Hc0.
  pose proof (RoutesFacts.signOutInternal_no_header a r) as Hn0.
  destruct (signOutInternal a r) as [t0 name]. cbn [fst] in Hc0, Hn0.
  unfold pbind. rewrite Hb, Hu, Hp. cbn [is_some orb]. rewrite Hq, Hc.
  cbn [handlePanic].
  set (t1 := (t0 ++ _)%list).
  assert (Ht1 : set_cookies t1 = cleared).
  { subst t1. rewrite set_cookies_app, Hc0.
    destruct (negb _); cbn; now rewrite ?app_nil_r. }
  assert (Hn1 : RoutesSpec.no_header t1 = true).
  { subst t1. unfold RoutesSpec.no_header in *. rewrite forallb_app, Hn0.
    now destruct (negb _). }
  clearbody t1. rewrite !app_nil_r. cbn zeta. split; [|split].
  - rewrite <- !app_assoc.
    now rewrite (RoutesFacts.status_app _ _ Htl),
      (RoutesFacts.status_app _ _ Hn1).
  - apply in_or_app. right. now left.
  - now rewrite !set_cookies_app, Ht1, app_nil_r.
Qed.

End ShortHash.

Lemma signInHandler_short_hash_witness :
  let t := signInHandler (bc := Toy.toyBcrypt) (ci := Toy.toyCipher)
             (b64 := Toy.toyBase64) (sl := Toy.toyStr)
             (jw := RoutesSpec.toyJwt) (db := RoutesEdgeSpec.shortHashDatabase)
             (js := TrackerSpec.toyJson) (hs := TrackerSpec.toyHash)
             Toy.toyAuth RoutesSpec.toyConfig
             (RoutesSpec.toyRequest "alice01" "Str0ng!Pass")
             ([], Val tt) 3 0 0 0 in
  status t = 500
  /\ In (EvLog "error" "panic(recovered)") t
  /\ set_cookies t = ([] ++ cleared)%list.
Proof.
  exact (signInHandler_short_hash (bc := Toy.toyBcrypt) (ci := Toy.toyCipher)
           (b64 := Toy.toyBase64) (sl := Toy.toyStr)
           (jw := RoutesSpec.toyJwt) (db := RoutesEdgeSpec.shortHashDatabase)
           (js := TrackerSpec.toyJson) (hs := TrackerSpec.toyHash)
           Toy.toyAuth RoutesSpec.toyConfig
           (RoutesSpec.toyRequest "alice01" "Str0ng!Pass")
           [] 3 0 0 0 "alice01" "Str0ng!Pass" 1 "abc" "abc" ["user"%string]
           eq_refl eq_refl eq_refl eq_refl eq_refl
           ltac:(vm_compute; lia) eq_refl eq_refl).
Defined.

(** A sign-in that succeeds: the first token it sets is the access
    token. *)
Lemma signIn_issues_after_compare_witness :
  exists user pass uid hash roles d u,
    body (RoutesSpec.toyRequest "alice01" "Str0ng!Pass")
    = Val (Some (user, pass))
    /\ Validate.checkUsername (sl := Toy.toyStr) user = None
    /\ Validate.checkPassword (sl := Toy.toyStr) pass = None
    /\ getSecurityInfo (db := RoutesSpec.toyDatabase) user
       = Val (uid, hash, roles)
    /\ decrypt (ci := Toy.toyCipher) (b64 := Toy.toyBase64)
         hash (key Toy.toyAuth) = Val d
    /\ unalter d = Val u
    /\ CompareHashAndPassword (Bcrypt := Toy.toyBcrypt) u
         (pass ++ "." ++ pepper Toy.toyAuth) = None.
Proof.
  apply (signIn_issues_after_compare (bc := Toy.toyBcrypt)
           (ci := Toy.toyCipher) (b64 := Toy.toyBase64) (sl := Toy.toyStr)
           (jw := RoutesSpec.toyJwt) (db := RoutesSpec.toyDatabase)
           (js := TrackerSpec.toyJson) (hs := TrackerSpec.toyHash)
           Toy.toyAuth RoutesSpec.toyConfig
           (RoutesSpec.toyRequest "alice01" "Str0ng!Pass") 3 0 0 0
           "access" "1|alice01" true).
  - vm_compute. do 4 right. left. reflexivity.
  - discriminate.
Defined.

End AuthFlowFacts.

(** ** validate.go: what the two checks accept *)

Module ValidateFacts.
Import GoStrings Validate ValidateSpec.

Section WithStr.
Context {sl : StrLib}.

Lemma checkUsername_loop_rest (rs : list rune) :
  checkUsername_loop false rs
  = if forallb alnum rs then None else Some UsernameChars.
Proof.
  induction rs as [|c rs IH]; [reflexivity|].
  cbn [checkUsername_loop forallb andb]. unfold alnum at 1.
  destruct (IsLower c), (IsUpper c), (IsDigit c); cbn; try exact IH;
    reflexivity.
Qed.

(** X9.  [checkUsername] accepts exactly the names of 4 to 20 bytes that
    the ASCII filter leaves alone, that begin with a letter and go on with
    letters and digits; and it names the first of these tests that
    fails. *)
Theorem checkUsername_verdict (user : string) :
  checkUsername user = username_verdict user.
Proof.
  unfold checkUsername, username_verdict, minUsernameLen, maxUsernameLen.
  destruct (_ || _); [reflexivity|].
  destruct (negb _); [reflexivity|].
  destruct (utf8_decode user) as [|c rs]; [reflexivity|].
  cbn [checkUsername_loop andb]. unfold letter.
  destruct (IsLower c) eqn:Hl, (IsUpper c) eqn:Hu; cbn;
    try apply checkUsername_loop_rest.
  reflexivity.
Qed.

Lemma checkPassword_loop_spec (rs : list rune) :
  forall lwr upr num spl,
    checkPassword_loop lwr upr num spl rs
    = if forallb allowed rs
      then Some (lwr || existsb counts_lower rs,
                 upr || existsb counts_upper rs,
                 num || existsb counts_digit rs,
                 spl || existsb counts_special rs)
      else None.
Proof.
  induction rs as [|c rs IH]; intros lwr upr num spl.
  - cbn. now rewrite !orb_false_r.
  - cbn [checkPassword_loop forallb existsb].
    unfold allowed at 1, counts_lower at 1, counts_upper at 1,
      counts_digit at 1, counts_special at 1.
    destruct (IsLower c), (IsUpper c), (IsDigit c), (IsSpecial c),
      (IsSpace c); cbn [negb andb orb]; rewrite ?IH;
      try reflexivity;
      destruct (forallb allowed rs); try reflexivity;
      now rewrite ?orb_true_r, ?orb_false_r.
Qed.

(** X10.  [checkPassword] accepts exactly the passwords of 10 to 32 bytes
    that the ASCII filter leaves alone, whose runes are all lower, upper,
    digit, special or space, and that have a rune counted for each of
    lower, upper, digit and special, a rune being counted for the first of
    these it belongs to and a space for none; and it names the first of
    these tests that fails. *)
Theorem checkPassword_verdict (pass : string) :
  checkPassword pass = password_verdict pass.
Proof.
  unfold checkPassword, password_verdict, minPasswordLen, maxPasswordLen.
  destruct (_ || _); [reflexivity|].
  destruct (negb (String.eqb _ _)); [reflexivity|].
  rewrite checkPassword_loop_spec.
  destruct (forallb allowed (utf8_decode pass)); [|reflexivity].
  cbn [negb orb].
  destruct (existsb counts_lower _), (existsb counts_upper _),
    (existsb counts_digit _), (existsb counts_special _); reflexivity.
Qed.

End WithStr.

End ValidateFacts.

(** ** More on the tracking cookie: the anonymous name, the round trip *)

Module TrackerEdges.
Import GoStrings Tracker TrackerSpec Laws.

Lemma str_drop_length (n : nat) (s : string) :
  String.length (Pass.str_drop n s) = (String.length s - n)%nat.
Proof.
  revert s. induction n as [|n IH]; intros [|c s]; cbn; auto.
Qed.

(** The number of digits [hex_digits] writes in front of [acc]: at least
    [k] of them exactly when [k] is one or [16 ^ (k - 1) <= n]. *)
Lemma hex_digits_length (fuel : nat) :
  forall n acc k,
    (1 <= fuel)%nat -> 0 <= n < 16 ^ Z.of_nat fuel -> (1 <= k)%nat ->
    (String.length acc + k <= String.length (hex_digits fuel n acc))%nat
    <-> (k = 1%nat \/ 16 ^ (Z.of_nat k - 1) <= n).
Proof.
  induction fuel as [|fuel IH]; intros n acc k Hf Hn Hk; [lia|].
  cbn [hex_digits].
  destruct (Z.eqb_spec (n / 16) 0) as [Hz|Hnz].
  - assert (Hn16 : n < 16) by (Z.div_mod_to_equations; lia).
    cbn [String.length]. split.
    + intros H. left. lia.
    + intros [->|H]; [lia|].
      destruct (Nat.eq_dec k 1%nat) as [->|Hk1]; [lia|].
      assert (16 ^ 1 <= 16 ^ (Z.of_nat k - 1))
        by (apply Z.pow_le_mono_r; lia).
      lia.
  - assert (Hq : 0 <= n / 16 < 16 ^ Z.of_nat fuel).
    { rewrite Nat2Z.inj_succ, Z.pow_succ_r in Hn by lia.
      Z.div_mod_to_equations; lia. }
    assert (Hf' : (1 <= fuel)%nat).
    { destruct fuel; [|lia]. cbn in Hq. Z.div_mod_to_equations; lia. }
    assert (Hn16 : 16 <= n) by (Z.div_mod_to_equations; lia).
    pose proof (IH (n / 16) (String (hexdigit (n mod 16)) acc) 1%nat
                  Hf' Hq ltac:(lia)) as H1.
    cbn [String.length] in H1.
    destruct (Nat.eq_dec k 1%nat) as [->|Hk1].
    + split; [now left|]. intros _.
      assert (S (String.length acc) + 1
              <= String.length
                   (hex_digits fuel (n / 16)
                      (String (hexdigit (n mod 16)) acc)))%nat
        by (apply H1; now left).
      lia.
    + pose proof (IH (n / 16) (String (hexdigit (n mod 16)) acc)
                    (k - 1)%nat Hf' Hq ltac:(lia)) as Hk'.
      cbn [String.length] in Hk'.
      replace (Z.of_nat (k - 1) - 1) with (Z.of_nat k - 2) in Hk' by lia.
      assert (Hpow : 16 ^ (Z.of_nat k - 1) = 16 * 16 ^ (Z.of_nat k - 2)).
      { replace (Z.of_nat k - 1) with (Z.succ (Z.of_nat k - 2)) by lia.
        apply Z.pow_succ_r. lia. }
      assert (Hp0 : 0 < 16 ^ (Z.of_nat k - 2))
        by (apply Z.pow_pos_nonneg; lia).
      split.
      * intros H. right.
        assert (Hx : (k - 1 = 1)%nat \/ 16 ^ (Z.of_nat k - 2) <= n / 16)
          by (apply Hk'; lia).
        destruct Hx as [Hx|Hx].
        -- replace (Z.of_nat k - 1) with 1 by lia. cbn. lia.
        -- rewrite Hpow. Z.div_mod_to_equations; lia.
      * intros [->|H]; [lia|].
        assert (Hx : (S (String.length acc) + (k - 1)
                      <= String.length
                           (hex_digits fuel (n / 16)
                              (String (hexdigit (n mod 16)) acc)))%nat).
        { apply Hk'. right. rewrite Hpow in H.
          Z.div_mod_to_equations; nia. }
        lia.
Qed.

Section WithLibraries.
Context {b64 : Base64} {js : Json} {hs : Hash}.

(** A second random number below [16 ^ 7] has fewer than eight
    hexadecimal digits, and slicing the name panics. *)
Lemma createAnonTracker_small (idr nr : Z) :
  0 <= nr < 16 ^ 7 -> createAnonTracker idr nr = ([], Panicked).
Proof.
  intros Hn.
  assert (H7 : 16 ^ 7 = 268435456) by reflexivity.
  assert (H16 : 0 <= nr < 16 ^ Z.of_nat 16).
  { change (16 ^ Z.of_nat 16) with 18446744073709551616. lia. }
  pose proof (hex_digits_length 16 nr EmptyString 8%nat ltac:(lia) H16
                ltac:(lia)) as H8.
  cbn [String.length Nat.add] in H8.
  change (Z.of_nat 8 - 1) with 7 in H8.
  unfold createAnonTracker, str_from, FormatInt16.
  replace (nr <? 0) with false by lia.
  set (s := hex_digits 16 nr EmptyString) in *. clearbody s.
  replace (8 <=? String.length s)%nat with false; [reflexivity|].
  symmetry. apply Nat.leb_gt.
  destruct (Nat.lt_ge_cases (String.length s) 8%nat) as [|Hge];
    [assumption|].
  apply H8 in Hge. destruct Hge as [Hge|Hge]; [discriminate Hge|].
  clear - Hn Hge H7. lia.
Qed.

(** X11.  The name of an anonymous visitor.  [createAnonTracker] slices
    the hexadecimal form of its second random number from the eighth byte
    on: for a number below [16 ^ 7] the form is shorter than that and the
    function panics before it writes anything; for every other value of
    [rand.Int63] the name is what follows the first eight digits, at most
    eight digits long. *)
Theorem createAnonTracker_name (idr nr : Z) :
  0 <= nr < 2 ^ 63 ->
  (nr < 16 ^ 7 -> createAnonTracker idr nr = ([], Panicked))
  /\ (16 ^ 7 <= nr ->
      exists name,
        str_from 8 (FormatInt16 nr) = Val name
        /\ (String.length name <= 8)%nat
        /\ (name = EmptyString <-> nr < 16 ^ 8)
        /\ createAnonTracker idr nr
           = createNewTracker
               {| info := Some {| ID := idr; Name := name; Auth := false;
                                  Scope := [] |};
                  Sig := 0 |}).
Proof.
  intros Hn.
  assert (H16 : 0 <= nr < 16 ^ Z.of_nat 16) by (cbn in *; lia).
  pose proof (hex_digits_length 16 nr EmptyString 8%nat ltac:(lia) H16
                ltac:(lia)) as H8.
  pose proof (hex_digits_length 16 nr EmptyString 9%nat ltac:(lia) H16
                ltac:(lia)) as H9.
  pose proof (hex_digits_length 16 nr EmptyString 17%nat ltac:(lia) H16
                ltac:(lia)) as H17.
  cbn [String.length Nat.add] in H8, H9, H17.
  change (Z.of_nat 8 - 1) with 7 in H8.
  change (Z.of_nat 9 - 1) with 8 in H9.
  change (Z.of_nat 17 - 1) with 16 in H17.
  unfold createAnonTracker, str_from, FormatInt16.
  replace (nr <? 0) with false by lia.
  set (s := hex_digits 16 nr EmptyString) in *. clearbody s.
  split.
  - intros Hlt.
    replace (8 <=? String.length s)%nat with false; [reflexivity|].
    symmetry. apply Nat.leb_gt.
    destruct (Nat.lt_ge_cases (String.length s) 8%nat) as [|Hge]; [assumption|].
    apply H8 in Hge. destruct Hge; [discriminate|lia].
  - intros Hge.
    assert (Hlen : (8 <= String.length s)%nat) by (apply H8; now right).
    replace (8 <=? String.length s)%nat with true
      by (symmetry; now apply Nat.leb_le).
    exists (Pass.str_drop 8 s). split; [reflexivity|].
    pose proof (str_drop_length 8 s) as Hd.
    split; [|split;
      [|unfold pbind, lift; now destruct (createNewTracker _)]].
    + destruct (Nat.lt_ge_cases (String.length s) 17%nat) as [|H']; [lia|].
      apply H17 in H'. destruct H' as [|H']; [discriminate|].
      change (2 ^ 63) with 9223372036854775808 in Hn.
      change (16 ^ 16) with 18446744073709551616 in H'.
      exfalso. clear - Hn H'. lia.
    + split.
      * intros He. rewrite He in Hd. cbn in Hd.
        destruct (Z.lt_ge_cases nr (16 ^ 8)) as [|H']; [assumption|].
        assert (H : (9 <= String.length s)%nat) by (apply H9; now right).
        exfalso. clear - Hd H. lia.
      * intros Hlt.
        assert (Hs : (String.length s < 9)%nat).
        { destruct (Nat.lt_ge_cases (String.length s) 9%nat) as [|H'];
            [assumption|].
          apply H9 in H'. destruct H'; [discriminate|lia]. }
        destruct (Pass.str_drop 8 s); [reflexivity|].
        cbn in Hd. clear - Hd Hs Hlen. lia.
Qed.

End WithLibraries.

Section RoundTrip.
Context {b64 : Base64} {js : Json} {hs : Hash} {EL : Base64Laws b64}.

(** X12.  The cookie of a signed-in user comes back as that user.  When
    [CreateAuthTracker] succeeds (and the JSON library reads back the
    payload it wrote), it has set the one cookie [id]; a later request that
    carries this value is answered by [GetTrackingInfo] with the identity
    the cookie was made for, authenticated, with the same name and scope,
    and no new cookie is written. *)
Theorem auth_tracker_round_trip (idr : Z) (name : string)
    (perms : list string) (t : list event) (idr' nr' : Z) :
  let i := {| ID := idr; Name := name; Auth := true; Scope := perms |} in
  CreateAuthTracker idr name perms = (t, Val tt) ->
  (forall p, payload_of i = Val p -> json_faithful p) ->
  exists v,
    t = [EvSetCookie "id" v false]
    /\ GetTrackingInfo (Some v) idr' nr' = ([], Val (Some i)).
Proof.
  intros i Hc Hf. unfold CreateAuthTracker in Hc.
  rewrite TrackerFacts.createNewTracker_cookie in Hc. fold i in Hc.
  destruct (cookie_of i) as [v| |] eqn:Hv; try discriminate.
  injection Hc as <-. exists v. split; [reflexivity|].
  unfold GetTrackingInfo.
  now rewrite (TrackerFacts.getTrackingCookie_encoded i v Hv Hf).
Qed.

End RoundTrip.

Lemma createAnonTracker_name_witness :
  createAnonTracker (b64 := Toy.toyBase64) (js := toyJson) (hs := toyHash)
    42 255 = ([], Panicked)
  /\ exists name,
       str_from 8 (FormatInt16 (2 ^ 62)) = Val name
       /\ (String.length name <= 8)%nat
       /\ (name = EmptyString <-> 2 ^ 62 < 16 ^ 8)
       /\ createAnonTracker (b64 := Toy.toyBase64) (js := toyJson)
            (hs := toyHash) 42 (2 ^ 62)
          = createNewTracker (b64 := Toy.toyBase64) (js := toyJson)
              (hs := toyHash)
              {| info := Some {| ID := 42; Name := name; Auth := false;
                                 Scope := [] |};
                 Sig := 0 |}.
Proof.
  split.
  - apply (proj1 (createAnonTracker_name (b64 := Toy.toyBase64)
                    (js := toyJson) (hs := toyHash) 42 255 ltac:(lia))).
    reflexivity.
  - apply (proj2 (createAnonTracker_name (b64 := Toy.toyBase64)
                    (js := toyJson) (hs := toyHash) 42 (2 ^ 62)
                    ltac:(lia))).
    discriminate.
Defined.

Lemma auth_tracker_round_trip_witness :
  exists v,
    [EvSetCookie "id" "########:Aalice01" false] = [EvSetCookie "id" v false]
    /\ GetTrackingInfo (b64 := Toy.toyBase64) (js := toyJson) (hs := toyHash)
         (Some v) 1 2
       = ([], Val (Some {| ID := 0; Name := "alice01"; Auth := true;
                           Scope := [] |})).
Proof.
  apply (auth_tracker_round_trip (b64 := Toy.toyBase64) (js := toyJson)
           (hs := toyHash) (EL := ToyFacts.toyBase64Laws)
           0 "alice01" [] _ 1 2 eq_refl).
  intros p [= <-] bytes [= <-]. reflexivity.
Defined.

End TrackerEdges.

(** ** More on the crawler check: what a run leaves behind, bounded
    retries *)

Module BotcheckEdges.
Import GoStrings Limiter Botcheck BotcheckSpec LimiterSpec.

Section WithResolver.
Context {rs : Resolver} {uc : Unicode}.

(** X13.  What a run of [routine] leaves behind.  A run that ends never
    ends in an error.  If it did not promote, the limiter and the shared
    registries are as they were.  If it promoted, the registry of bad bots,
    the settings, the global bucket and the entries of all other addresses
    are as they were, and the entry of the address is a new one: a good
    bot with the good-bot bucket of the settings, first seen now, with both
    counters at zero, whatever entry the address had before. *)
Theorem routine_frame (fuel : nat) (r : Limiter) (sh : sharedResources)
    (ip ua : string) (now : Z) (t : list event)
    (res : result (bool * Limiter * sharedResources)) :
  routine fuel r sh ip ua now = (t, Some res) ->
  (forall e, res <> Error e)
  /\ forall promoted r' sh',
       res = Val (promoted, r', sh') ->
       bbots sh' = bbots sh
       /\ vars r' = vars r
       /\ global r' = global r
       /\ (forall ip', ip' <> ip ->
             visitors r' !! ip' = visitors r !! ip'
             /\ gbots sh' !! ip' = gbots sh !! ip')
       /\ (promoted = false -> r' = r /\ sh' = sh)
       /\ (promoted = true ->
           exists name,
             visitors r' !! ip
             = Some {| name := name;
                       limiter :=
                         {| every := Interval (GoodBotRate (vars r));
                            burst := Burst (GoodBotRate (vars r)) |};
                       vtype := goodBot;
                       firstSeen := now; lastSeen := now;
                       delayCount := 0; currDelays := 0 |}).
Proof.
  unfold routine.
  destruct (checkUserAgent ua) as [t0 [name|]].
  2: { intros [= _ <-]. split; [discriminate|].
       intros p r' sh' [= <- <- <-]. repeat split; discriminate. }
  destruct (getHostNameLoop fuel ip) as [t1 [[host|e|]|]];
    try discriminate;
    try (intros [= _ <-]; split; [discriminate|];
         intros p r' sh' H; inversion H; subst;
         repeat split; discriminate).
  destruct (checkHostName host) as [t2 [|]];
    try (intros [= _ <-]; split; [discriminate|];
         intros p r' sh' H; inversion H; subst;
         repeat split; discriminate).
  destruct (validateIPMatchLoop fuel ip host)
    as [t3 [[[[|] ip2]|e|]|]];
    try discriminate;
    try (intros [= _ <-]; split; [discriminate|];
         intros p r' sh' H; inversion H; subst;
         repeat split; discriminate).
  unfold upgradeLimit, createVisitor. intros [= _ <-].
  split; [discriminate|].
  intros p r' sh' [= <- <- <-]. cbn.
  split; [reflexivity|]. split; [reflexivity|]. split; [reflexivity|].
  split.
  { intros ip' Hne. now rewrite !lookup_insert_ne by congruence. }
  split; [discriminate|]. intros _. exists name.
  now rewrite lookup_insert_eq.
Qed.

(** X14.  The reverse lookup is tried at most four times.  With room for
    four iterations or more, [getHostNameLoop] ends, and as it does with
    room for four; it has slept at most three times; and it returns a name
    exactly when one of the first four answers is not an error, all before
    it are, and it has that name first. *)
Theorem getHostNameLoop_bounded (fuel : nat) (ip : string) :
  (4 <= fuel)%nat ->
  getHostNameLoop fuel ip = getHostNameLoop 4 ip
  /\ (exists res, snd (getHostNameLoop fuel ip) = Some res)
  /\ (length (slept (fst (getHostNameLoop fuel ip))) <= 3)%nat
  /\ (forall host,
        snd (getHostNameLoop fuel ip) = Some (Val host)
        <-> exists k rest,
              (k < 4)%nat /\ LookupAddr k ip = Val (host :: rest)
              /\ forall j, (j < k)%nat ->
                           exists e, LookupAddr j ip = Error e).
Proof.
  intros Hfuel. unfold getHostNameLoop.
  do 4 (destruct fuel as [|fuel]; [lia|]).
  cbn [getHostNameLoop_from]. unfold getHostName, lift, index.
  destruct (LookupAddr 0 ip) as [[|h0 l0]|e0|] eqn:H0;
    [| |destruct (LookupAddr 1 ip) as [[|h1 l1]|e1|] eqn:H1;
        [| |destruct (LookupAddr 2 ip) as [[|h2 l2]|e2|] eqn:H2;
            [| |destruct (LookupAddr 3 ip) as [[|h3 l3]|e3|] eqn:H3|]|]|];
    try change (0 + 1 >? 3) with false;
    try change (0 + 1 + 1 >? 3) with false;
    try change (0 + 1 + 1 + 1 >? 3) with false;
    try change (0 + 1 + 1 + 1 + 1 >? 3) with true;
    cbn.
  all: split; [reflexivity|].
  all: split; [eexists; reflexivity|].
  all: split; [lia|].
  all: intros host; split.
  all: try discriminate.
  all: try (intros [= <-]; eexists _, _;
            split; [|split; [eassumption|]]; [lia|];
            intros j Hj;
            destruct j as [|[|[|[|j]]]]; first [lia | solve [eauto]]).
  all: intros (k & rest & Hk & Hv & Herr).
  all: destruct k as [|[|[|[|k]]]];
    first [ lia
          | congruence
          | destruct (Herr 0%nat ltac:(lia)); congruence
          | destruct (Herr 1%nat ltac:(lia)); congruence
          | destruct (Herr 2%nat ltac:(lia)); congruence ].
Qed.

End WithResolver.

(** The run that promotes the crawler of Google leaves the registry of bad
    bots and the settings alone. *)
Lemma routine_frame_witness :
  bbots {| gbots := <["66.249.66.1"%string :=
                       {| bot_name := "Google";
                          bot_host := "crawl-66-249-66-1.googlebot.com." |}]>
                      (∅ : gmap string botEntry);
           bbots := ∅ |}
  = bbots no_bots
  /\ vars (snd (createVisitor (limiter_with_ceiling 2) "66.249.66.1"
                  "Google" goodBot 9))
     = vars (limiter_with_ceiling 2).
Proof.
  destruct (proj2 (routine_frame (rs := googlebotResolver)
                     (uc := asciiUnicode) _ _ _ _ _ _ _ _
                     BotcheckFacts.googlebot_promoted) _ _ _ eq_refl)
    as (Hb & Hv & _).
  split; assumption.
Defined.

Lemma getHostNameLoop_bounded_witness :
  getHostNameLoop (rs := failingResolver) 10 "203.0.113.7"
  = getHostNameLoop (rs := failingResolver) 4 "203.0.113.7".
Proof.
  exact (proj1 (getHostNameLoop_bounded (rs := failingResolver) 10
                  "203.0.113.7" ltac:(lia))).
Defined.

End BotcheckEdges.

(** ** More on the limiter: idle visitors, classification, counters *)

Module LimiterEdges.
Import GoStrings Limiter LimiterSpec Daemon.

Lemma Sub_over_hour (t u : Z) : (Sub t u >? Hour) = (t - u >? Hour).
Proof.
  unfold Sub.
  assert (HH : Hour = 3600000000000) by reflexivity.
  assert (H63 : 2 ^ 63 = 9223372036854775808) by reflexivity.
  destruct (Z.ltb_spec (t - u) (- 2 ^ 63));
    [|destruct (Z.ltb_spec (2 ^ 63 - 1) (t - u))];
    destruct (Z.gtb_spec (t - u) Hour);
    try reflexivity;
    match goal with
    | |- (?a >? ?b) = _ => destruct (Z.gtb_spec a b)
    end; try reflexivity; lia.
Qed.

(** The loop of [trim], entry by entry: the entries run over are counted,
    those idle for more than an hour are counted and gone, the others are
    as they were. *)
Lemma trim_loop (now : Z) (m0 m : gmap string visitor) :
  let '(cnt, total, macc) := map_fold (trim_step now) (O, O, m0) m in
  total = size m
  /\ (forall k,
        macc !! k
        = match m !! k with
          | Some v => if now - lastSeen v >? Hour then None else m0 !! k
          | None => m0 !! k
          end)
  /\ (cnt = O <-> forall k v, m !! k = Some v -> now - lastSeen v <= Hour).
Proof.
  apply (map_fold_weak_ind
           (fun (acc : nat * nat * gmap string visitor) m =>
              let '(cnt, total, macc) := acc in
              total = size m
              /\ (forall k,
                    macc !! k
                    = match m !! k with
                      | Some v =>
                        if now - lastSeen v >? Hour then None else m0 !! k
                      | None => m0 !! k
                      end)
              /\ (cnt = O
                  <-> forall k v, m !! k = Some v ->
                                  now - lastSeen v <= Hour))).
  - rewrite map_size_empty. split; [reflexivity|]. split.
    + intros k. now rewrite lookup_empty.
    + split; [|reflexivity]. intros _ k v H.
      now rewrite lookup_empty in H.
  - intros i x m' [[cnt total] macc] Hi (Ht & Hm & Hc).
    unfold trim_step. rewrite Sub_over_hour.
    destruct (Z.gtb_spec (now - lastSeen x) Hour) as [Hold|Hnew].
    + split; [now rewrite map_size_insert_None, Ht|]. split.
      * intros k. destruct (decide (k = i)) as [->|Hne].
        -- rewrite lookup_delete_eq, lookup_insert_eq.
           now replace (now - lastSeen x >? Hour) with true by lia.
        -- rewrite lookup_delete_ne, lookup_insert_ne by congruence.
           apply Hm.
      * split; [discriminate|]. intros H.
        specialize (H i x (lookup_insert_eq _ _ _)). lia.
    + split; [now rewrite map_size_insert_None, Ht|]. split.
      * intros k. destruct (decide (k = i)) as [->|Hne].
        -- rewrite lookup_insert_eq, Hm, Hi.
           now replace (now - lastSeen x >? Hour) with false by lia.
        -- rewrite lookup_insert_ne by congruence. apply Hm.
      * rewrite Hc. split.
        -- intros H k v Hk.
           apply lookup_insert_Some in Hk as [[_ <-]|[_ Hk]];
             [lia|eauto].
        -- intros H k v Hk. apply (H k v).
           rewrite lookup_insert_ne; [exact Hk|]. congruence.
Qed.

(** X15.  [trim] forgets the visitors idle for more than an hour, and
    only them.  After it an address has an entry exactly when it had one
    last seen an hour ago or less (an hour exactly is kept), and then the
    same entry; the settings and the global bucket are untouched; and the
    one line it may log is logged exactly when an entry has been
    deleted. *)
Theorem trim_keeps_recent (limiter : Limiter) (now : Z) :
  vars (snd (trim limiter now)) = vars limiter
  /\ global (snd (trim limiter now)) = global limiter
  /\ (forall ip v,
        visitors (snd (trim limiter now)) !! ip = Some v
        <-> visitors limiter !! ip = Some v /\ now - lastSeen v <= Hour)
  /\ (fst (trim limiter now) = []
      <-> forall ip v, visitors limiter !! ip = Some v ->
                       now - lastSeen v <= Hour)
  /\ (length (fst (trim limiter now)) <= 1)%nat.
Proof.
  unfold trim.
  pose proof (trim_loop now (visitors limiter) (visitors limiter)) as H.
  destruct (map_fold _ _ _) as [[cnt total] m].
  destruct H as (Ht & Hm & Hc). cbn [fst snd vars global visitors with_visitors].
  split; [reflexivity|]. split; [reflexivity|]. split; [|split].
  - intros ip v. rewrite Hm.
    destruct (visitors limiter !! ip) as [v0|] eqn:Hv.
    + destruct (Z.gtb_spec (now - lastSeen v0) Hour).
      * split; [discriminate|]. intros [[= ->] ?]. lia.
      * split; [intros [= ->]; split; [reflexivity|lia]|now intros [? _]].
    + split; [discriminate|now intros [? _]].
  - rewrite <- Hc. destruct cnt; cbn; split; congruence.
  - destruct (0 <? cnt)%nat; cbn; lia.
Qed.


(** X16.  How [getLimiter] classifies.  An address that has an entry
    keeps it, with its classification, bucket and counters, seen now, and
    no crawler check is started, whatever the registries say.  An address
    without an entry gets one first seen now with both counters at zero: a
    good bot with the good-bot bucket when the registry of good bots has
    it, also when the registry of bad bots has it too; else a bad bot with
    one request an hour when the registry of bad bots has it; else a user
    with the user bucket, and only then the crawler check is started.  The
    entries of other addresses and the settings stay as they are. *)
Theorem getLimiter_classification (r : Limiter) (sh : sharedResources)
    (ip : string) (info : option Tracker.Info) (now : Z) :
  exists t v r',
    getLimiter r sh ip info now = (t, limiter v, r')
    /\ visitors r' !! ip = Some v
    /\ lastSeen v = now
    /\ vars r' = vars r /\ global r' = global r
    /\ (forall ip', ip' <> ip -> visitors r' !! ip' = visitors r !! ip')
    /\ match visitors r !! ip with
       | Some v0 => v = with_lastSeen v0 now /\ ~ In (EvGo "routine") t
       | None =>
         firstSeen v = now /\ delayCount v = 0 /\ currDelays v = 0
         /\ match gbots sh !! ip, bbots sh !! ip with
            | Some g, _ =>
              vtype v = goodBot /\ name v = bot_name g
              /\ limiter v = {| every := Interval (GoodBotRate (vars r));
                                burst := Burst (GoodBotRate (vars r)) |}
              /\ ~ In (EvGo "routine") t
            | None, Some b =>
              vtype v = badBot /\ name v = bot_name b
              /\ limiter v = {| every := 1 * Hour; burst := 1 |}
              /\ ~ In (EvGo "routine") t
            | None, None =>
              vtype v = user /\ name v = EmptyString
              /\ limiter v = {| every := Interval (UserRate (vars r));
                                burst := Burst (UserRate (vars r)) |}
              /\ In (EvGo "routine") t
            end
       end.
Proof.
  unfold getLimiter, getExistingLimiter, getVisitorEntry.
  destruct (visitors r !! ip) as [v0|] eqn:Hv.
  - eexists _, (with_lastSeen v0 now), _. split; [reflexivity|].
    cbn [visitors with_visitors vars global].
    split; [apply lookup_insert_eq|]. split; [reflexivity|].
    split; [reflexivity|]. split; [reflexivity|].
    split; [intros ip' Hne; now rewrite lookup_insert_ne by congruence|].
    split; [reflexivity|].
    cbn [app In]. intros [H|[]]. discriminate H.
  - unfold getNewLimiter, upgradeIfGoodBot, downgradeIfBadBot, isGoodBot,
      isBadBot.
    destruct (gbots sh !! ip) as [g|];
      [|destruct (bbots sh !! ip) as [b|]].
    + eexists _, (fst (createVisitor r ip (bot_name g) goodBot now)), _.
      unfold createVisitor. split; [reflexivity|].
      cbn [fst visitors with_visitors vars global].
      split; [apply lookup_insert_eq|]. split; [reflexivity|].
      split; [reflexivity|]. split; [reflexivity|].
      split; [intros ip' Hne; now rewrite lookup_insert_ne by congruence|].
      cbn [firstSeen delayCount currDelays vtype name limiter].
      do 6 (split; [reflexivity|]).
      cbn [app In logNewVisitor]. intros [H|[H|[]]]; discriminate H.
    + eexists _, (fst (createVisitor r ip (bot_name b) badBot now)), _.
      unfold createVisitor. split; [reflexivity|].
      cbn [fst visitors with_visitors vars global].
      split; [apply lookup_insert_eq|]. split; [reflexivity|].
      split; [reflexivity|]. split; [reflexivity|].
      split; [intros ip' Hne; now rewrite lookup_insert_ne by congruence|].
      cbn [firstSeen delayCount currDelays vtype name limiter].
      do 6 (split; [reflexivity|]).
      cbn [app In logNewVisitor]. intros [H|[H|[]]]; discriminate H.
    + eexists _, (fst (createVisitor r ip EmptyString user now)), _.
      unfold createVisitor. split; [reflexivity|].
      cbn [fst visitors with_visitors vars global].
      split; [apply lookup_insert_eq|]. split; [reflexivity|].
      split; [reflexivity|]. split; [reflexivity|].
      split; [intros ip' Hne; now rewrite lookup_insert_ne by congruence|].
      cbn [firstSeen delayCount currDelays vtype name limiter].
      do 6 (split; [reflexivity|]).
      cbn [app In logNewVisitor]. right. left. reflexivity.
Qed.

(** The entry [getLimiter] leaves for the address. *)
Lemma getLimiter_entry (r : Limiter) (sh : sharedResources) (ip : string)
    (info : option Tracker.Info) (now : Z) :
  exists t0 v,
    getLimiter r sh ip info now
    = (t0, limiter v, with_visitors r (<[ip:=v]> (visitors r)))
    /\ lastSeen v = now
    /\ match visitors r !! ip with
       | Some v0 => v = with_lastSeen v0 now
       | None => currDelays v = 0 /\ delayCount v = 0
       end.
Proof.
  unfold getLimiter, getExistingLimiter, getVisitorEntry.
  destruct (visitors r !! ip) as [v0|] eqn:Hv.
  - eexists _, (with_lastSeen v0 now). now split.
  - unfold getNewLimiter, upgradeIfGoodBot, downgradeIfBadBot, isGoodBot,
      isBadBot, createVisitor.
    destruct (gbots sh !! ip) as [g|];
      [|destruct (bbots sh !! ip) as [b|]];
      eexists _, _; (split; [reflexivity|]); now cbn.
Qed.

(** The entry [visitorDelay] leaves for an address that has one whose
    count of requests in flight is in range: the count is what it was, the
    total has one more. *)
Lemma visitorDelay_counters (r : Limiter) (ip : string) (delay now : Z)
    (v : visitor) :
  visitors r !! ip = Some v ->
  0 <= currDelays v < 2 ^ 63 - 1 ->
  exists t err v',
    visitorDelay r ip delay now
    = (t, err, with_visitors r (<[ip:=v']> (visitors r)))
    /\ currDelays v' = currDelays v
    /\ delayCount v' = wrap_u64 (delayCount v + 1)
    /\ vtype v' = vtype v /\ limiter v' = limiter v
    /\ name v' = name v /\ firstSeen v' = firstSeen v
    /\ lastSeen v' = now.
Proof.
  intros Hv Hc. unfold visitorDelay, getVisitorEntry. rewrite Hv.
  cbn [currDelays delayCount with_currDelays with_delayCount with_lastSeen
       visitors with_visitors].
  assert (H1 : to_int64 (currDelays v + 1) = currDelays v + 1)
    by (apply LimiterFacts.to_int64_small;
        change (2 ^ 63) with 9223372036854775808 in *; lia).
  rewrite H1.
  replace (currDelays v + 1 >? 0) with true by lia.
  replace (currDelays v + 1 - 1) with (currDelays v) by lia.
  rewrite (LimiterFacts.to_int64_small (currDelays v))
    by (change (2 ^ 63) with 9223372036854775808 in *; lia).
  eexists _, _, _. split.
  - rewrite insert_insert_eq. reflexivity.
  - cbn. repeat split; reflexivity.
Qed.

(** X17.  A request that is done leaves the count of requests in flight
    as it found it.  For a non-empty address, with every count in the
    range of requests in flight: after [limit], rejected or not, the entry
    of the address has the count of delayed requests in flight it had
    before (zero for a new entry), and its total of delays is one more
    (modulo 2^64) exactly when the reservation asked for a delay; its
    classification and bucket are unchanged; the entries of other addresses
    are untouched, and every count is in range again. *)
Theorem limit_counters (r : Limiter) (sh : sharedResources) (ip : string)
    (info : option Tracker.Info) (now delay gdelay : Z) :
  ip <> EmptyString -> counters_in_range r ->
  let r' := snd (limit r sh ip info now delay gdelay) in
  counters_in_range r'
  /\ (forall ip', ip' <> ip -> visitors r' !! ip' = visitors r !! ip')
  /\ exists v,
       visitors r' !! ip = Some v
       /\ lastSeen v = now
       /\ match visitors r !! ip with
          | Some v0 =>
            currDelays v = currDelays v0
            /\ delayCount v = (if delay >? 0
                               then wrap_u64 (delayCount v0 + 1)
                               else delayCount v0)
            /\ vtype v = vtype v0 /\ limiter v = limiter v0
          | None =>
            currDelays v = 0
            /\ delayCount v = (if delay >? 0 then 1 else 0)
          end.
Proof.
  intros Hip Hcount r'.
  assert (Hmain :
    (forall ip', ip' <> ip -> visitors r' !! ip' = visitors r !! ip')
    /\ exists v,
         visitors r' !! ip = Some v
         /\ lastSeen v = now
         /\ match visitors r !! ip with
            | Some v0 =>
              currDelays v = currDelays v0
              /\ delayCount v = (if delay >? 0
                                 then wrap_u64 (delayCount v0 + 1)
                                 else delayCount v0)
              /\ vtype v = vtype v0 /\ limiter v = limiter v0
            | None =>
              currDelays v = 0
              /\ delayCount v = (if delay >? 0 then 1 else 0)
            end).
  { subst r'. unfold limit.
    apply String.eqb_neq in Hip. rewrite Hip.
    destruct (getLimiter_entry r sh ip info now)
      as (t0 & v1 & -> & Hls & Hv1).
    assert (Hc1 : 0 <= currDelays v1 < 2 ^ 63 - 1).
    { destruct (visitors r !! ip) as [v0|] eqn:Hv0.
      - subst v1. exact (Hcount ip v0 Hv0).
      - destruct Hv1 as [-> _].
        change (2 ^ 63) with 9223372036854775808. lia. }
    destruct (delay >? 0) eqn:Hd.
    - destruct (visitorDelay_counters
                  (with_visitors r (<[ip:=v1]> (visitors r))) ip delay now
                  v1 (lookup_insert_eq _ _ _) Hc1)
        as (t1 & err & v' & -> & Hcd & Hdc & Hvt & Hlim & _ & _ & Hls').
      cbn [visitors with_visitors].
      assert (Hr' : visitors
                      (snd (match err with
                            | Some e =>
                              ((t0 ++ t1 ++ [EvCancel])%list, Some e,
                               with_visitors
                                 (with_visitors r (<[ip:=v1]> (visitors r)))
                                 (<[ip:=v']> (<[ip:=v1]> (visitors r))))
                            | None =>
                              ((t0 ++ t1
                                ++ match global
                                           (with_visitors
                                              (with_visitors r
                                                 (<[ip:=v1]> (visitors r)))
                                              (<[ip:=v']>
                                                 (<[ip:=v1]> (visitors r))))
                                   with
                                   | Some _ =>
                                     if gdelay >? 0 then globalDelay gdelay
                                     else []
                                   | None => []
                                   end)%list, None,
                               with_visitors
                                 (with_visitors r (<[ip:=v1]> (visitors r)))
                                 (<[ip:=v']> (<[ip:=v1]> (visitors r))))
                            end))
                    = <[ip:=v']> (visitors r)).
      { destruct err; cbn [snd visitors with_visitors];
          now rewrite insert_insert_eq. }
      rewrite Hr'. split.
      + intros ip' Hne. now rewrite lookup_insert_ne by congruence.
      + exists v'. split; [apply lookup_insert_eq|]. split; [exact Hls'|].
        destruct (visitors r !! ip) as [v0|].
        * subst v1. cbn in Hcd, Hdc, Hvt, Hlim. now repeat split.
        * destruct Hv1 as [Hz1 Hz2]. rewrite Hcd, Hdc, Hz1, Hz2.
          split; reflexivity.
    - cbn [snd visitors with_visitors]. split.
      + intros ip' Hne. now rewrite lookup_insert_ne by congruence.
      + exists v1. split; [apply lookup_insert_eq|]. split; [exact Hls|].
        destruct (visitors r !! ip) as [v0|].
        * subst v1. now repeat split.
        * exact Hv1. }
  split; [|exact Hmain].
  destruct Hmain as (Hother & v & Hv & _ & Hmatch).
  intros ip' v' Hv'.
  destruct (decide (ip' = ip)) as [->|Hne].
  - rewrite Hv in Hv'. injection Hv' as <-.
    destruct (visitors r !! ip) as [v0|] eqn:Hv0.
    + destruct Hmatch as [-> _]. exact (Hcount ip v0 Hv0).
    + destruct Hmatch as [-> _].
      change (2 ^ 63) with 9223372036854775808. lia.
  - rewrite (Hother ip' Hne) in Hv'. exact (Hcount ip' v' Hv').
Qed.

Lemma limit_counters_witness :
  let r' := snd (limit (with_visitor (limiter_with_ceiling 2) "203.0.113.7"
                          (busy_user 2))
                   no_bots "203.0.113.7" None 5 1000000 0) in
  counters_in_range r'
  /\ (forall ip', ip' <> "203.0.113.7"%string ->
        visitors r' !! ip'
        = visitors (with_visitor (limiter_with_ceiling 2) "203.0.113.7"
                      (busy_user 2)) !! ip')
  /\ exists v,
       visitors r' !! "203.0.113.7"%string = Some v
       /\ lastSeen v = 5
       /\ match visitors (with_visitor (limiter_with_ceiling 2)
                            "203.0.113.7" (busy_user 2))
                !! "203.0.113.7"%string with
          | Some v0 =>
            currDelays v = currDelays v0
            /\ delayCount v = (if 1000000 >? 0
                               then wrap_u64 (delayCount v0 + 1)
                               else delayCount v0)
            /\ vtype v = vtype v0 /\ limiter v = limiter v0
          | None =>
            currDelays v = 0
            /\ delayCount v = (if 1000000 >? 0 then 1 else 0)
          end.
Proof.
  apply limit_counters.
  - discriminate.
  - intros ip v. unfold with_visitor. cbn [visitors with_visitors].
    intros H. apply lookup_insert_Some in H as [[_ <-]|[_ H]].
    + cbn. lia.
    + cbn in H. now apply lookup_empty_Some in H.
Defined.

(** X18.  What [NewLimiter] makes of its settings.  It fails exactly when
    the burst of the user rate is not positive.  Otherwise the limiter
    starts without visitors, with the name, the user rate and every ceiling
    as given; it has a global bucket exactly when the global burst is
    positive, and the interval of that bucket is never zero (one nanosecond
    stands in for zero); a good-bot rate given as zero burst and zero
    interval becomes the burst and interval of the user rate, its ceiling
    staying its own; and the good-bot rate it ends with is never zero in
    both. *)
Theorem NewLimiter_normalises (s : LimitSettings) :
  (Burst (UserRate s) <= 0 -> exists e, NewLimiter s = Error e)
  /\ (0 < Burst (UserRate s) ->
      exists r,
        NewLimiter s = Val r
        /\ visitors r = ∅
        /\ Name (vars r) = Name s
        /\ UserRate (vars r) = UserRate s
        /\ MaxDelayed (GoodBotRate (vars r)) = MaxDelayed (GoodBotRate s)
        /\ MaxDelayed (GlobalRate (vars r)) = MaxDelayed (GlobalRate s)
        /\ (global r = None <-> Burst (GlobalRate s) <= 0)
        /\ (forall g, global r = Some g ->
              burst g = Burst (GlobalRate s)
              /\ every g <> 0
              /\ (Interval (GlobalRate s) <> 0 ->
                  every g = Interval (GlobalRate s)))
        /\ (Burst (GoodBotRate s) = 0 -> Interval (GoodBotRate s) = 0 ->
            Interval (GoodBotRate (vars r)) = Interval (UserRate s)
            /\ Burst (GoodBotRate (vars r)) = Burst (UserRate s))
        /\ (Burst (GoodBotRate (vars r)) <> 0
            \/ Interval (GoodBotRate (vars r)) <> 0)).
Proof.
  unfold NewLimiter. split.
  - intros H. replace (Burst (UserRate s) <=? 0) with true by lia.
    eexists. reflexivity.
  - intros H. replace (Burst (UserRate s) <=? 0) with false by lia.
    eexists. split; [reflexivity|].
    destruct s as [nm [gi gb gm] [bi bb bm] [ui ub um]].
    cbn [Burst Interval MaxDelayed UserRate GlobalRate GoodBotRate Name
         vars global visitors] in *.
    unfold Nanosecond.
    repeat (match goal with
            | |- context [?a >? ?b] => destruct (Z.gtb_spec a b)
            | |- context [?a =? ?b] => destruct (Z.eqb_spec a b)
            end;
            cbn [andb Burst Interval MaxDelayed UserRate GlobalRate
                 GoodBotRate Name vars global visitors every burst]).
    all: repeat split; try reflexivity; try discriminate; try lia.
    all: try (intros g Hg; injection Hg as <-; cbn [every burst];
              repeat split; try reflexivity; try lia; intros; lia).
    all: try match goal with
             | Hg : Some _ = Some ?g |- _ =>
               injection Hg as <-; cbn [every burst]
             | Hg : None = Some _ |- _ => discriminate Hg
             end.
    all: try reflexivity; try (intros; cbn in *; lia).
Qed.

Lemma NewLimiter_normalises_witness :
  exists r,
    NewLimiter (authSettings 1000 0) = Val r
    /\ visitors r = ∅
    /\ Name (vars r) = "auth"%string.
Proof.
  destruct (proj2 (NewLimiter_normalises (authSettings 1000 0))
              ltac:(cbn; lia)) as (r & Hr & Hv & Hn & _).
  exists r. repeat split; assumption.
Defined.

End LimiterEdges.

(** ** A sign-in behind the limiter *)

Module LimitedSignIn.
Import GoStrings Pass Routes AuthFlow AuthFlowSpec Limiter LimitRequests
  AuthFlowFacts.

Lemma no_header_app (t t' : list event) :
  RoutesSpec.no_header (t ++ t') = RoutesSpec.no_header t && RoutesSpec.no_header t'.
Proof. unfold RoutesSpec.no_header. apply forallb_app. Qed.

Lemma getLimiter_quiet (r : Limiter) (sh : sharedResources) (ip : string)
    (info : option Tracker.Info) (now : Z) :
  RoutesSpec.no_header (fst (fst (getLimiter r sh ip info now))) = true
  /\ set_cookies (fst (fst (getLimiter r sh ip info now))) = [].
Proof.
  unfold getLimiter, getExistingLimiter, getVisitorEntry.
  destruct (visitors r !! ip) as [v0|]; [now split|].
  unfold getNewLimiter, upgradeIfGoodBot, downgradeIfBadBot, isGoodBot,
    isBadBot, createVisitor.
  destruct (gbots sh !! ip); [now split|].
  destruct (bbots sh !! ip); now split.
Qed.

Lemma visitorDelay_quiet (r : Limiter) (ip : string) (delay now : Z) :
  RoutesSpec.no_header (fst (fst (visitorDelay r ip delay now))) = true
  /\ set_cookies (fst (fst (visitorDelay r ip delay now))) = [].
Proof.
  unfold visitorDelay, getVisitorEntry.
  destruct (visitors r !! ip) as [v|]; [|now split].
  cbn [fst]. destruct (_ && _); now split.
Qed.

(** [limit] writes no status and sets no cookie; the one error it returns
    for an address that is not empty is [ErrTooManyRequests]. *)
Lemma limit_quiet (r : Limiter) (sh : sharedResources) (ip : string)
    (info : option Tracker.Info) (now delay gdelay : Z) :
  RoutesSpec.no_header (fst (fst (limit r sh ip info now delay gdelay))) = true
  /\ set_cookies (fst (fst (limit r sh ip info now delay gdelay))) = [].
Proof.
  unfold limit. destruct (String.eqb ip EmptyString); [now split|].
  pose proof (getLimiter_quiet r sh ip info now) as [Hh0 Hc0].
  destruct (getLimiter r sh ip info now) as [[t0 l] r0].
  cbn [fst] in Hh0, Hc0.
  assert (H1 : RoutesSpec.no_header
                 (fst (fst (if delay >? 0 then visitorDelay r0 ip delay now
                            else ([], None, r0)))) = true
               /\ set_cookies
                    (fst (fst (if delay >? 0
                               then visitorDelay r0 ip delay now
                               else ([], None, r0)))) = []).
  { destruct (delay >? 0); [apply visitorDelay_quiet|now split]. }
  destruct (if delay >? 0 then visitorDelay r0 ip delay now
            else ([], None, r0)) as [[t1 err] r1].
  cbn [fst] in H1. destruct H1 as [Hh1 Hc1].
  destruct err as [e|]; cbn [fst].
  - rewrite !no_header_app, !set_cookies_app, Hh0, Hh1, Hc0, Hc1.
    now split.
  - rewrite !no_header_app, !set_cookies_app, Hh0, Hh1, Hc0, Hc1.
    destruct (global r1); [destruct (gdelay >? 0)|]; now split.
Qed.

Section WithLibraries.
Context {bc : Bcrypt} {ci : Cipher} {b64 : Base64} {sl : StrLib}
        {jw : Jwt} {db : Database} {js : Tracker.Json} {hs : Tracker.Hash}.

(** The tracker writes no status, and no cookie but [id]. *)
Lemma GetTrackingInfo_quiet (cookie : option string) (idr nr : Z) :
  RoutesSpec.no_header (fst (Tracker.GetTrackingInfo cookie idr nr)) = true
  /\ forall n v h,
       In (n, v, h) (set_cookies (fst (Tracker.GetTrackingInfo cookie idr nr))) ->
       n = "id"%string.
Proof.
  unfold Tracker.GetTrackingInfo.
  assert (Hanon :
    RoutesSpec.no_header (fst (Tracker.createAnonTracker idr nr)) = true
    /\ forall n v h,
         In (n, v, h) (set_cookies (fst (Tracker.createAnonTracker idr nr))) ->
         n = "id"%string).
  { unfold Tracker.createAnonTracker, Tracker.createNewTracker,
      Tracker.writeTrackingCookie, pbind, lift, emit.
    destruct (Tracker.str_from 8 _) as [name| |]; cbn;
      try (split; [reflexivity|]; tauto).
    destruct (Tracker.MarshalInfo _) as [b| |]; cbn;
      try (split; [reflexivity|]; tauto).
    destruct (Tracker.MarshalPayload _) as [b'| |]; cbn;
      try (split; [reflexivity|]; tauto).
    split; [reflexivity|]. intros n v h [H|[]]. now inversion H. }
  destruct (Tracker.getTrackingCookie cookie) as [[i|]|e|];
    try (split; [reflexivity|]; cbn; tauto);
    destruct (Tracker.createAnonTracker idr nr) as [t [u|e'|]];
    exact Hanon.
Qed.

(** X19.  A sign-in behind the limiter.  When [LimitRequest] refuses the
    request with [ErrTooManyRequests], the sign-in is answered with status
    429 and the sign-in handler has not run: no cookie but the tracking
    cookie is set, so the user stays signed in.  When the tracker panics,
    as it does for a request without a cookie it accepts and a random
    number below [16 ^ 7], the request is answered with status 500, again
    before the handler. *)
Theorem signInHandler_limited (a : Auth) (cfg : Config) (req : request)
    (r : Limiter) (sh : sharedResources) (ip : string)
    (idr nr now delay gdelay jitter sess idr2 : Z) :
  let lim := fst (LimitRequest r sh ip (cookie req "id") idr nr now delay
                    gdelay) in
  let t := signInHandler a cfg req lim jitter now sess idr2 in
  (snd lim = Error ErrTooManyRequests ->
   status t = Limiter.StatusTooManyRequests
   /\ forall n v h, In (n, v, h) (set_cookies t) -> n = "id"%string)
  /\ (snd lim = Panicked ->
      status t = StatusInternalServerError
      /\ forall n v h, In (n, v, h) (set_cookies t) -> n = "id"%string)
  /\ (Tracker.getTrackingCookie (cookie req "id") = Val None ->
      0 <= nr < 16 ^ 7 ->
      lim = ([], Panicked)).
Proof.
  intros lim t. subst t. unfold signInHandler, authLimiter.
  assert (Hlim : RoutesSpec.no_header (fst lim) = true
                 /\ forall n v h, In (n, v, h) (set_cookies (fst lim)) ->
                                  n = "id"%string).
  { subst lim. unfold LimitRequest.
    pose proof (GetTrackingInfo_quiet (cookie req "id") idr nr) as [Hh Hc].
    destruct (Tracker.GetTrackingInfo (cookie req "id") idr nr)
      as [t0 [info|e|]]; cbn [fst] in *; try (now split).
    pose proof (limit_quiet r sh ip info now delay gdelay) as [Hh1 Hc1].
    destruct (limit r sh ip info now delay gdelay) as [[t1 err] r1].
    cbn [fst] in *. rewrite no_header_app, set_cookies_app, Hh, Hh1, Hc1.
    rewrite app_nil_r. now split. }
  destruct Hlim as [Hh Hc].
  split; [|split].
  - destruct lim as [tl res]. cbn [fst snd] in *. intros ->.
    cbn [handlePanic WriteErrorResponse]. split.
    + now rewrite (RoutesFacts.status_app _ _ Hh).
    + intros n v h. rewrite set_cookies_app. cbn. rewrite app_nil_r.
      apply Hc.
  - destruct lim as [tl res]. cbn [fst snd] in *. intros ->.
    cbn [handlePanic]. split.
    + now rewrite (RoutesFacts.status_app _ _ Hh).
    + intros n v h. rewrite set_cookies_app. cbn. rewrite app_nil_r.
      apply Hc.
  - intros Hg Hnr. subst lim. unfold LimitRequest, Tracker.GetTrackingInfo.
    rewrite Hg.
    rewrite (TrackerEdges.createAnonTracker_small idr nr Hnr). reflexivity.
Qed.

End WithLibraries.

(** A sign-in without cookies whose tracker draws 255: the request is
    answered with status 500 before the limiter or the handler runs. *)
Lemma signInHandler_limited_witness :
  status
    (signInHandler (bc := Toy.toyBcrypt) (ci := Toy.toyCipher)
       (b64 := Toy.toyBase64) (sl := Toy.toyStr) (jw := RoutesSpec.toyJwt)
       (db := RoutesSpec.toyDatabase) (js := TrackerSpec.toyJson)
       (hs := TrackerSpec.toyHash)
       Toy.toyAuth RoutesSpec.toyConfig
       (RoutesSpec.toyRequest "alice01" "Str0ng!Pass")
       (fst (LimitRequest (b64 := Toy.toyBase64) (js := TrackerSpec.toyJson)
               (hs := TrackerSpec.toyHash)
               (LimiterSpec.limiter_with_ceiling 2) LimiterSpec.no_bots
               "203.0.113.7" None 42 255 5 0 0))
       3 5 0 0)
  = 500.
Proof.
  destruct (signInHandler_limited (bc := Toy.toyBcrypt) (ci := Toy.toyCipher)
              (b64 := Toy.toyBase64) (sl := Toy.toyStr)
              (jw := RoutesSpec.toyJwt) (db := RoutesSpec.toyDatabase)
              (js := TrackerSpec.toyJson) (hs := TrackerSpec.toyHash)
              Toy.toyAuth RoutesSpec.toyConfig
              (RoutesSpec.toyRequest "alice01" "Str0ng!Pass")
              (LimiterSpec.limiter_with_ceiling 2) LimiterSpec.no_bots
              "203.0.113.7" 42 255 5 0 0 3 0 0)
    as (_ & Hpanic & Hsmall).
  apply Hpanic.
  rewrite (Hsmall eq_refl ltac:(lia)). reflexivity.
Defined.

End LimitedSignIn.
